(** * Skill development agent: a shallow embedding and its specification

    This development embeds [SkillDevelopmentAgent] (src/agents/skill_dev.py)
    and checks the statements its specification makes about skill
    identification, exercise recommendation, progress tracking and gap
    adjustment.

    Modelling conventions.
    - Python [float] values are modelled by exact rationals ([Q], kept in
      lowest terms by the arithmetic below).  NaN, infinities and binary
      rounding error are outside the model; [round(x, 2)] is rounding to the
      nearest multiple of 1/100, ties to even.
    - Python [str] is [string]; [lower] acts on the ASCII letters.
    - A Python [dict] that is scanned in insertion order is an association
      list ([dict_set] replaces in place or appends, as Python does).
    - [datetime.now()] is an explicit argument of every operation that reads
      the clock.
    - An operation that can raise returns a [result]; the state it leaves
      behind is returned next to it, because a Python exception does not undo
      the mutations made before it. *)

From Stdlib Require Import ZArith QArith Qround Qminmax List String Ascii Bool Lia Lqa.
From Stdlib Require Import Sorting.Sorted Sorting.Permutation DecimalString.
Import ListNotations.

Local Open Scope string_scope.
Local Open Scope Q_scope.

(** ** Numbers *)

Module Num.

Definition add (a b : Q) : Q := Qred (a + b).
Definition sub (a b : Q) : Q := Qred (a - b).
Definition mul (a b : Q) : Q := Qred (a * b).
Definition div (a b : Q) : Q := Qred (a / b).

Definition ltb (a b : Q) : bool :=
  match Qcompare a b with Lt => true | _ => false end.

Definition eqb (a b : Q) : bool :=
  match Qcompare a b with Eq => true | _ => false end.

(** [min(a, b)] and [max(a, b)] of Python: the first argument is kept
    unless the second is strictly better. *)
Definition py_min (a b : Q) : Q := if ltb b a then b else a.
Definition py_max (a b : Q) : Q := if ltb a b then b else a.

(** Nearest integer, ties to the even one. *)
Definition round_half_even (q : Q) : Z :=
  let f := Qfloor q in
  match Qcompare (q - inject_Z f) (1 # 2) with
  | Lt => f
  | Gt => (f + 1)%Z
  | Eq => if Z.even f then f else (f + 1)%Z
  end.

(** [round(q, 2)]. *)
Definition round2 (q : Q) : Q :=
  Qred (inject_Z (round_half_even (q * 100)) / 100).

(** [int(q)]: truncation towards zero. *)
Definition py_int (q : Q) : Z := Z.quot (Qnum q) (Zpos (Qden q)).

(** [sum(l)]. *)
Definition sum (l : list Q) : Q := fold_left add l 0.

(** [sum(l) / len(l)]; the callers guard the empty list themselves. *)
Definition mean (l : list Q) : Q :=
  div (sum l) (inject_Z (Z.of_nat (List.length l))).

(** A value with at most two decimals. *)
Definition on_grid (q : Q) : Prop := exists k : Z, q == inject_Z k / 100.

End Num.

(** ** Strings *)

Module Str.

Definition lower_ascii (c : ascii) : ascii :=
  let n := nat_of_ascii c in
  if (65 <=? n)%nat && (n <=? 90)%nat then ascii_of_nat (n + 32) else c.

(** [s.lower()]. *)
Fixpoint lower (s : string) : string :=
  match s with
  | EmptyString => EmptyString
  | String c s' => String (lower_ascii c) (lower s')
  end.

(** [s.replace(a, b)] for one-character [a] and [b]. *)
Fixpoint replace_char (a b : ascii) (s : string) : string :=
  match s with
  | EmptyString => EmptyString
  | String c s' =>
      String (if Ascii.eqb c a then b else c) (replace_char a b s')
  end.

(** [s.startswith(p)]. *)
Definition startswith (s p : string) : bool := String.prefix p s.

(** [needle in haystack]. *)
Fixpoint contains (needle haystack : string) : bool :=
  String.prefix needle haystack ||
  match haystack with
  | EmptyString => false
  | String _ rest => contains needle rest
  end.

(** [str(n)] for an integer. *)
Definition of_Z (n : Z) : string := NilZero.string_of_int (Z.to_int n).

Definition of_nat (n : nat) : string := of_Z (Z.of_nat n).

(** [f"{q:.1f}"]: one decimal, the sign of [q] kept. *)
Definition format_1f (q : Q) : string :=
  let n := Z.abs (Num.round_half_even (q * 10)) in
  (if Num.ltb q 0 then "-" else "")
    ++ of_Z (n / 10) ++ "." ++ of_Z (n mod 10).

End Str.

(** ** Dictionaries in insertion order *)

Section Dict.

Context {V : Type}.

Fixpoint dict_get (k : string) (d : list (string * V)) : option V :=
  match d with
  | [] => None
  | (k', v) :: d' => if String.eqb k' k then Some v else dict_get k d'
  end.

(** [d[k] = v]: an existing key keeps its place. *)
Fixpoint dict_set (k : string) (v : V) (d : list (string * V))
  : list (string * V) :=
  match d with
  | [] => [(k, v)]
  | (k', v') :: d' =>
      if String.eqb k' k then (k', v) :: d' else (k', v') :: dict_set k v d'
  end.

(** [d.get(k, default)]. *)
Definition dict_get_default (k : string) (default : V)
           (d : list (string * V)) : V :=
  match dict_get k d with Some v => v | None => default end.

(** [k in d]. *)
Definition dict_mem (k : string) (d : list (string * V)) : bool :=
  match dict_get k d with Some _ => true | None => false end.

End Dict.

(** ** Data model *)

(** A skill is a Python dict.  The keys [id], [name] and [gap_level] are
    always there; [category] and [level] are optional and read with
    [skill.get(key, default)]. *)
Module Skill.
Record t := mk {
  id : string;
  name : string;
  category : option string;
  gap_level : Q;
  level : option string
}.

(** [skill["gap_level"] = g]. *)
Definition set_gap_level (s : t) (g : Q) : t :=
  mk (id s) (name s) (category s) g (level s).
End Skill.

(** An entry of a taxonomy document: [category -> skill name -> entry]. *)
Module SkillInfo.
Record t := mk {
  level : option string;
  description : string;
  keywords : list string;
  patterns : list string;
  exercise_templates : list string
}.
End SkillInfo.

Definition taxonomy := list (string * list (string * SkillInfo.t)).

Module Student.
(** [preferences] is read with [getattr(student, "preferences", {})]. *)
Record t := mk {
  id : string;
  progress : list (string * Q);
  preferences : list (string * string)
}.

(** [student.progress[subject] = p]. *)
Definition set_progress (s : t) (subject : string) (p : Q) : t :=
  mk (id s) (dict_set subject p (progress s)) (preferences s).
End Student.

(** The value stored by [identify_skills]. *)
Module Assessment.
Record t := mk {
  student_id : string;
  subject : string;
  timestamp : string;
  current_level : Q;
  tier : string;
  skills : list Skill.t
}.

Definition set_skills (a : t) (l : list Skill.t) : t :=
  mk (student_id a) (subject a) (timestamp a) (current_level a) (tier a) l.
End Assessment.

(** The value stored (in the same dict) and returned by
    [track_skill_progress]; it has no [skills] and no [subject] key. *)
Module SkillProgress.
Record t := mk {
  student_id : string;
  skill_id : string;
  timestamp : string;
  exercise_count : nat;
  average_score : Q;
  progress_level : Q;
  completed_exercises : list (option string)
}.
End SkillProgress.

Inductive record :=
| AssessmentRecord (a : Assessment.t)
| SkillProgressRecord (p : SkillProgress.t).

(** One element of [exercise_results]: [score] and [id] are read with
    [.get]. *)
Module ExerciseResult.
Record t := mk { id : option string; score : option Q }.
End ExerciseResult.

Module SkillHistory.
Record t := mk {
  attempts : Z;
  completions : list Q;
  average_completion : Q;
  last_attempt : option string;
  feedback : option (list (string * string))
}.
End SkillHistory.

Definition subject_history := list (string * SkillHistory.t).
Definition histories := list (string * list (string * subject_history)).

(** The record built by [track_progress]. *)
Module ProgressRecord.
Record t := mk {
  id : string;
  student_id : string;
  exercise_id : string;
  skill_id : string;
  skill_name : string;
  subject : string;
  timestamp : string;
  completion_status : Q;
  feedback : option string
}.
End ProgressRecord.

(** The dict returned by [track_progress] on success. *)
Module ProgressResult.
Record t := mk {
  progress_id : string;
  student_id : string;
  subject : string;
  previous_progress : Q;
  new_progress : Q;
  skill_name : string;
  completion_status : Q;
  timestamp : string
}.
End ProgressResult.

Inductive track_result :=
| ErrorPayload (error : string)
| Tracked (r : ProgressResult.t).

Module Resource.
Record t := mk {
  title : string;
  type : string;
  difficulty : string;
  url : string
}.
End Resource.

Module Exercise.
Record t := mk {
  id : string;
  skill_id : string;
  skill_name : string;
  description : string;
  difficulty : Q;
  subject : string;
  category : string;
  exercise_type : string;
  estimated_time_minutes : Z;
  resources : list Resource.t
}.
End Exercise.

Module Plan.
Record week := mk_week {
  week_no : Z;
  week_skill_id : string;
  week_skill_name : string;
  focus_areas : list string;
  target_improvement : Q
}.

Record t := mk {
  student_id : string;
  subject : string;
  created_at : string;
  current_level : Q;
  target_level : Q;
  duration_weeks : Z;
  priority_skills : list string;
  timeline : list week
}.
End Plan.

(** The agent object.  [__init__] creates [skill_records] and
    [skill_taxonomies]; [learning_histories] is created on first use
    ([hasattr]); [progress_records] is assigned by no method, so the attribute
    exists only if something outside the class sets it. *)
Record Agent := mkAgent {
  skill_records : list (string * record);
  skill_taxonomies : list (string * taxonomy);
  learning_histories : option histories;
  progress_records : option (list (string * ProgressRecord.t))
}.

Definition set_skill_records (ag : Agent) (r : list (string * record)) : Agent :=
  mkAgent r (skill_taxonomies ag) (learning_histories ag) (progress_records ag).

Definition set_learning_histories (ag : Agent) (h : histories) : Agent :=
  mkAgent (skill_records ag) (skill_taxonomies ag) (Some h) (progress_records ag).

Definition set_progress_records (ag : Agent)
           (p : list (string * ProgressRecord.t)) : Agent :=
  mkAgent (skill_records ag) (skill_taxonomies ag) (learning_histories ag) (Some p).

(** The state after [__init__], given the taxonomies found on disk. *)
Definition new_agent (taxonomies : list (string * taxonomy)) : Agent :=
  mkAgent [] taxonomies None None.

(** One reading of the clock: [datetime.now()] rendered the two ways the
    agent uses it. *)
Record clock := mkClock {
  stamp : string;     (* f"{datetime.now().timestamp()}" *)
  isoformat : string  (* datetime.now().isoformat() *)
}.

(** ** Exceptions *)

Inductive exn :=
| KeyError (key : string)
| AttributeError (attribute : string).

Inductive result (A : Type) :=
| Ok (a : A)
| Raise (e : exn).

Arguments Ok {A} a.
Arguments Raise {A} e.

(** Truth value of a Python string. *)
Definition truthy (s : string) : bool := negb (String.eqb s "").

Definition truthy_opt (s : option string) : bool :=
  match s with Some s' => truthy s' | None => false end.

(** ** The canned skill table and the default taxonomies *)

(** An entry of [skill_map]: only [id], [name] and [gap_level]. *)
Definition canned (id name : string) (gap : Q) : Skill.t :=
  Skill.mk id name None gap None.

Definition skill_map : list (string * list (string * list Skill.t)) :=
  [ ("math",
      [ ("beginner",
          [ canned "math_basic_arithmetic" "Basic Arithmetic" 0.2;
            canned "math_fractions" "Fractions" 0.5;
            canned "math_decimals" "Decimals" 0.4 ]);
        ("intermediate",
          [ canned "math_algebra" "Algebra" 0.3;
            canned "math_geometry" "Geometry" 0.4;
            canned "math_statistics" "Statistics" 0.6 ]);
        ("advanced",
          [ canned "math_calculus" "Calculus" 0.5;
            canned "math_linear_algebra" "Linear Algebra" 0.7;
            canned "math_probability" "Probability Theory" 0.4 ]) ]);
    ("science",
      [ ("beginner",
          [ canned "science_basic_concepts" "Basic Science Concepts" 0.3;
            canned "science_observation" "Scientific Observation" 0.4;
            canned "science_classification" "Classification Skills" 0.5 ]);
        ("intermediate",
          [ canned "science_hypothesis" "Hypothesis Formation" 0.4;
            canned "science_experimentation" "Experimentation" 0.5;
            canned "science_data_analysis" "Data Analysis" 0.6 ]);
        ("advanced",
          [ canned "science_research" "Research Methods" 0.5;
            canned "science_critical_analysis" "Critical Analysis" 0.6;
            canned "science_scientific_writing" "Scientific Writing" 0.7 ]) ]) ].

(** [skill_map.get(subject, {}).get(tier, [])]; the table is rebuilt at every
    call, so the dicts returned are fresh ones. *)
Definition _map_skills_for_subject (subject tier : string) : list Skill.t :=
  dict_get_default tier [] (dict_get_default subject [] skill_map).

Definition entry (level : string) (description : string)
           (keywords patterns : list string) : SkillInfo.t :=
  SkillInfo.mk (Some level) description keywords patterns [].

Definition math_taxonomy : taxonomy :=
  [ ("arithmetic",
      [ ("addition",
          entry "beginner" "Ability to add numbers"
                ["add"; "sum"; "plus"; "addition"]
                ["\d+\s*\+\s*\d+"]);
        ("subtraction",
          entry "beginner" "Ability to subtract numbers"
                ["subtract"; "minus"; "difference"; "subtraction"]
                ["\d+\s*-\s*\d+"]);
        ("multiplication",
          entry "intermediate" "Ability to multiply numbers"
                ["multiply"; "product"; "times"; "multiplication"]
                ["\d+\s*\*\s*\d+"; "\d+\s*×\s*\d+"]);
        ("division",
          entry "intermediate" "Ability to divide numbers"
                ["divide"; "quotient"; "division"]
                ["\d+\s*/\s*\d+"; "\d+\s*÷\s*\d+"]) ]);
    ("algebra",
      [ ("equations",
          entry "intermediate" "Ability to solve equations"
                ["equation"; "solve"; "unknown"; "variable"]
                ["[a-z]\s*=\s*\d+"; "solve for [a-z]"]);
        ("expressions",
          entry "intermediate" "Ability to work with algebraic expressions"
                ["expression"; "simplify"; "expand"; "factor"]
                ["simplify"; "expand"; "factor"]) ]);
    ("geometry",
      [ ("area",
          entry "intermediate" "Ability to calculate area of shapes"
                ["area"; "square units"; "square feet"; "square meters"]
                ["area of"; "find the area"]);
        ("perimeter",
          entry "intermediate" "Ability to calculate perimeter of shapes"
                ["perimeter"; "circumference"; "distance around"]
                ["perimeter of"; "find the perimeter"]) ]) ].

Definition language_taxonomy : taxonomy :=
  [ ("reading",
      [ ("comprehension",
          entry "intermediate" "Ability to understand and interpret text"
                ["comprehend"; "understand"; "interpret"; "meaning"]
                ["what does .+ mean"; "main idea"]);
        ("vocabulary",
          entry "intermediate" "Knowledge and use of words"
                ["vocabulary"; "word meaning"; "definition"; "synonym"]
                ["define the word"; "meaning of"]) ]);
    ("writing",
      [ ("grammar",
          entry "intermediate" "Correct use of grammar rules"
                ["grammar"; "sentence structure"; "syntax"; "punctuation"]
                ["correct grammar"; "proper sentence"]);
        ("composition",
          entry "advanced" "Ability to compose coherent text"
                ["compose"; "write"; "essay"; "paragraph"; "composition"]
                ["write an essay"; "compose a paragraph"]) ]) ].

Definition science_taxonomy : taxonomy :=
  [ ("scientific_method",
      [ ("hypothesis",
          entry "intermediate" "Ability to formulate testable hypotheses"
                ["hypothesis"; "predict"; "if-then"; "testable"]
                ["form a hypothesis"; "if .+ then"]);
        ("experimentation",
          entry "intermediate" "Ability to design and conduct experiments"
                ["experiment"; "test"; "variable"; "control"]
                ["design an experiment"; "control group"]) ]);
    ("biology",
      [ ("cells",
          entry "intermediate" "Understanding of cell structure and function"
                ["cell"; "organelle"; "membrane"; "nucleus"]
                ["cell structure"; "function of .+ in a cell"]);
        ("ecosystems",
          entry "intermediate" "Understanding of ecosystem dynamics"
                ["ecosystem"; "food web"; "habitat"; "species"]
                ["food chain"; "ecosystem balance"]) ]) ].

(** What [_create_default_taxonomies] writes and [_load_skill_taxonomies]
    reads back on a first run. *)
Definition default_taxonomies : list (string * taxonomy) :=
  [ ("math", math_taxonomy);
    ("language", language_taxonomy);
    ("science", science_taxonomy) ].

(** ** Pure helpers of the agent *)

(** The tier chosen in [identify_skills]. *)
Definition tier_of (current_level : Q) : string :=
  if Num.ltb current_level 0.3 then "beginner"
  else if Num.ltb current_level 0.7 then "intermediate"
  else "advanced".

(** [f"{subject}_{skill_name.lower().replace(' ', '_')}"]. *)
Definition skill_id_of (subject skill_name : string) : string :=
  subject ++ "_" ++ Str.replace_char " " "_" (Str.lower skill_name).

Definition level_factors : list (string * Q) :=
  [ ("beginner", -0.1); ("intermediate", 0.0); ("advanced", 0.1) ].

Definition _calculate_difficulty (gap_level progress_level : Q)
           (skill_level : string) (previous_attempts : Z) : Q :=
  let base_difficulty := gap_level in
  let progress_factor := Num.mul progress_level 0.5 in
  let level_factor :=
    dict_get_default (Str.lower skill_level) 0.0 level_factors in
  let attempt_factor :=
    Num.py_min (Num.mul (inject_Z previous_attempts) 0.05) 0.2 in
  let difficulty :=
    Num.py_min
      (Num.py_max
         (Num.add (Num.add (Num.add base_difficulty progress_factor)
                           level_factor)
                  attempt_factor)
         0.1)
      1.0 in
  Num.round2 difficulty.

Definition default_types : list (string * string) :=
  [ ("beginner", "multiple_choice");
    ("intermediate", "short_answer");
    ("advanced", "project") ].

Definition level_appropriate : list (string * list string) :=
  [ ("beginner", ["multiple_choice"; "matching"; "fill_in_blank"]);
    ("intermediate", ["short_answer"; "multiple_choice"; "problem_solving"]);
    ("advanced", ["project"; "essay"; "problem_solving"; "research"]) ].

Definition _determine_exercise_type (skill : Skill.t) (student : Student.t)
  : string :=
  let skill_level :=
    match Skill.level skill with Some l => l | None => "beginner" end in
  let by_default := dict_get_default skill_level "multiple_choice" default_types in
  match dict_get "exercise_type" (Student.preferences student) with
  | Some preferred_type =>
      if truthy preferred_type
         && existsb (String.eqb preferred_type)
                    (dict_get_default skill_level [] level_appropriate)
      then preferred_type
      else by_default
  | None => by_default
  end.

Definition base_times : list (string * Q) :=
  [ ("multiple_choice", 5); ("matching", 7); ("fill_in_blank", 8);
    ("short_answer", 10); ("problem_solving", 15); ("essay", 25);
    ("project", 45); ("research", 30) ].

Definition _calculate_estimated_time (difficulty : Q) (exercise_type : string)
  : Z :=
  let base_time := dict_get_default exercise_type 10 base_times in
  let difficulty_factor := Num.add 1 difficulty in
  Num.py_int (Num.mul base_time difficulty_factor).

Definition _get_skill_resources (subject skill_name skill_level : string)
  : list Resource.t :=
  let slug := Str.replace_char " " "-" (Str.lower skill_name) in
  [ Resource.mk (skill_name ++ " Tutorial") "article" skill_level
                ("https://example.com/" ++ subject ++ "/" ++ slug) ]
  ++ (if String.eqb skill_level "intermediate"
         || String.eqb skill_level "advanced"
      then [ Resource.mk (skill_name ++ " Video Lesson") "video" skill_level
                         ("https://example.com/videos/" ++ subject ++ "/" ++ slug) ]
      else [])
  ++ [ Resource.mk (skill_name ++ " Practice Problems") "practice" skill_level
                   ("https://example.com/practice/" ++ subject ++ "/" ++ slug) ].

(** [_get_skill_info(subject, category, skill_name)] as
    [recommend_exercises] calls it ([skill_id] is not passed). *)
Definition _get_skill_info (ag : Agent) (subject category skill_name : string)
  : option SkillInfo.t :=
  match dict_get subject (skill_taxonomies ag) with
  | None => None
  | Some tax =>
      let by_name :=
        if truthy skill_name then
          match find (fun c => dict_mem skill_name (snd c)) tax with
          | Some c => dict_get skill_name (snd c)
          | None => None
          end
        else None in
      if truthy category && truthy skill_name then
        match dict_get category tax with
        | Some skills =>
            match dict_get skill_name skills with
            | Some info => Some info
            | None => by_name
            end
        | None => by_name
        end
      else by_name
  end.

(** ** Sorting and slicing *)

(** [l.sort(key=gap_level, reverse=True)]: Python's sort is stable, also with
    [reverse=True]; a skill is placed before the first one whose gap is not
    strictly greater. *)
Fixpoint insert_by_gap (s : Skill.t) (l : list Skill.t) : list Skill.t :=
  match l with
  | [] => [s]
  | t :: l' =>
      if Num.ltb (Skill.gap_level s) (Skill.gap_level t)
      then t :: insert_by_gap s l'
      else s :: t :: l'
  end.

Definition sort_by_gap_desc (l : list Skill.t) : list Skill.t :=
  fold_right insert_by_gap [] l.

(** [l[:count]]; a negative [count] drops that many elements from the end. *)
Definition slice_to {A : Type} (count : Z) (l : list A) : list A :=
  if (0 <=? count)%Z then firstn (Z.to_nat count) l
  else firstn (List.length l - Z.to_nat (- count)) l.

(** ** The operations of the agent *)

Section Operations.

(** Library functions the agent calls and this development leaves open:
    [re.search(pattern, content, re.IGNORECASE)] as a truth value (the
    patterns are taken to compile), [random.choice], [template.format] with
    the two named fields (taken not to raise), and [str] of a history
    dict. *)
Variable re_search : string -> string -> bool.
Variable random_choice : list string -> string.
Variable format_template : string -> string -> string -> string.
Variable str_of_history : subject_history -> string.

(** *** identify_skills *)

Definition keyword_found (content : string) (info : SkillInfo.t) : bool :=
  existsb (fun keyword => Str.contains (Str.lower keyword) (Str.lower content))
          (SkillInfo.keywords info).

Definition pattern_found (content : string) (info : SkillInfo.t) : bool :=
  existsb (fun pattern => re_search pattern content) (SkillInfo.patterns info).

(** The loop [for skill in skills] with its [break]: the first skill of
    that name gets [min(gap_level, 0.2)]; [None] stands for
    [skill_exists == False]. *)
Fixpoint lower_gap_of_named (skill_name : string) (skills : list Skill.t)
  : option (list Skill.t) :=
  match skills with
  | [] => None
  | skill :: rest =>
      if String.eqb (Str.lower (Skill.name skill)) (Str.lower skill_name)
      then Some (Skill.set_gap_level skill
                   (Num.py_min (Skill.gap_level skill) 0.2) :: rest)
      else option_map (cons skill) (lower_gap_of_named skill_name rest)
  end.

(** The body of the two nested taxonomy loops for one entry. *)
Definition analyse_entry (subject tier content skill_category : string)
           (skills : list Skill.t) (item : string * SkillInfo.t)
  : list Skill.t :=
  let (skill_name, skill_info) := item in
  if keyword_found content skill_info || pattern_found content skill_info then
    match lower_gap_of_named skill_name skills with
    | Some skills' => skills'
    | None =>
        (skills ++
         [ Skill.mk (skill_id_of subject skill_name)
                    skill_name
                    (Some skill_category)
                    0.3
                    (Some match SkillInfo.level skill_info with
                          | Some l => l
                          | None => tier
                          end) ])%list
    end
  else skills.

Definition analyse_content (subject tier content : string) (tax : taxonomy)
           (skills : list Skill.t) : list Skill.t :=
  fold_left
    (fun acc (cat : string * list (string * SkillInfo.t)) =>
       fold_left (analyse_entry subject tier content (fst cat)) (snd cat) acc)
    tax skills.

Definition assessment_id (student_id subject : string) (now : clock) : string :=
  "skill_assessment_" ++ student_id ++ "_" ++ subject ++ "_" ++ stamp now.

(** The skills computed by [identify_skills], before they are stored. *)
Definition identified_skills (ag : Agent) (student : Student.t)
           (subject : string) (content : option string) : list Skill.t :=
  let current_level := dict_get_default subject 0.0 (Student.progress student) in
  let tier := tier_of current_level in
  let skills := _map_skills_for_subject subject tier in
  match content with
  | Some c =>
      if truthy c then
        analyse_content subject tier c
          (dict_get_default (Str.lower subject) [] (skill_taxonomies ag))
          skills
      else skills
  | None => skills
  end.

Definition identify_skills (ag : Agent) (now : clock) (student : Student.t)
           (subject : string) (content : option string)
  : Agent * list Skill.t :=
  let student_id := Student.id student in
  let current_level := dict_get_default subject 0.0 (Student.progress student) in
  let tier := tier_of current_level in
  let skills := identified_skills ag student subject content in
  (set_skill_records ag
     (dict_set (assessment_id student_id subject now)
        (AssessmentRecord
           (Assessment.mk student_id subject (isoformat now)
                          current_level tier skills))
        (skill_records ag)),
   skills).

(** *** Learning histories *)

Definition _get_learning_history (ag : Agent) (student : Student.t)
           (subject : string) : Agent * subject_history :=
  let all :=
    match learning_histories ag with Some h => h | None => [] end in
  let student_key := "history_" ++ Student.id student in
  let all1 :=
    if dict_mem student_key all then all else dict_set student_key [] all in
  let mine := dict_get_default student_key [] all1 in
  let mine1 :=
    if dict_mem subject mine then mine else dict_set subject [] mine in
  (set_learning_histories ag (dict_set student_key mine1 all1),
   dict_get_default subject [] mine1).

Definition _update_learning_history (ag : Agent) (now : clock)
           (student : Student.t) (subject skill_id : string)
           (completion_status : Q) (feedback : option string) : Agent :=
  let (ag1, history) := _get_learning_history ag student subject in
  let history1 :=
    if dict_mem skill_id history then history
    else dict_set skill_id (SkillHistory.mk 0 [] 0.0 None None) history in
  let h := dict_get_default skill_id (SkillHistory.mk 0 [] 0.0 None None) history1 in
  let completions := (SkillHistory.completions h ++ [completion_status])%list in
  let h1 :=
    SkillHistory.mk
      (SkillHistory.attempts h + 1)%Z
      completions
      (Num.mean completions)
      (Some (isoformat now))
      (if truthy_opt feedback then
         Some (match SkillHistory.feedback h with Some l => l | None => [] end
               ++ [(isoformat now,
                    match feedback with Some f => f | None => "" end)])%list
       else SkillHistory.feedback h) in
  let history2 := dict_set skill_id h1 history1 in
  let all := match learning_histories ag1 with Some a => a | None => [] end in
  let student_key := "history_" ++ Student.id student in
  set_learning_histories ag1
    (dict_set student_key
       (dict_set subject history2 (dict_get_default student_key [] all))
       all).

(** *** Gap adjustment *)

Definition adjust_gap (current_gap completion_status : Q) : Q :=
  let reduction := Num.mul completion_status 0.2 in
  let new_gap := Num.py_max 0.0 (Num.sub current_gap reduction) in
  Num.round2 new_gap.

(** The inner loop of [_update_skill_gap]: the first skill with this id is
    adjusted, then [break]. *)
Fixpoint adjust_first (skill_id : string) (completion_status : Q)
         (skills : list Skill.t) : list Skill.t :=
  match skills with
  | [] => []
  | skill :: rest =>
      if String.eqb (Skill.id skill) skill_id
      then Skill.set_gap_level skill
             (adjust_gap (Skill.gap_level skill) completion_status) :: rest
      else skill :: adjust_first skill_id completion_status rest
  end.

(** The outer loop of [_update_skill_gap] over [skill_records.items()].
    The [break] of the source leaves the inner loop only, so the scan goes
    on to the next record.  A stored skill-progress record of the same
    student has no ["subject"] key: the test of the [if] raises. *)
Fixpoint update_gap_scan (student_id subject skill_id : string)
         (completion_status : Q) (records : list (string * record))
  : list (string * record) * result unit :=
  match records with
  | [] => ([], Ok tt)
  | (key, AssessmentRecord a) :: rest =>
      let a' :=
        if String.eqb (Assessment.student_id a) student_id
           && String.eqb (Assessment.subject a) subject
        then Assessment.set_skills a
               (adjust_first skill_id completion_status (Assessment.skills a))
        else a in
      let (rest', r) :=
        update_gap_scan student_id subject skill_id completion_status rest in
      ((key, AssessmentRecord a') :: rest', r)
  | (key, SkillProgressRecord p) :: rest =>
      if String.eqb (SkillProgress.student_id p) student_id
      then ((key, SkillProgressRecord p) :: rest, Raise (KeyError "subject"))
      else
        let (rest', r) :=
          update_gap_scan student_id subject skill_id completion_status rest in
        ((key, SkillProgressRecord p) :: rest', r)
  end.

Definition _update_skill_gap (ag : Agent) (student : Student.t)
           (subject skill_id : string) (completion_status : Q)
  : Agent * result unit :=
  let (records, r) :=
    update_gap_scan (Student.id student) subject skill_id completion_status
                    (skill_records ag) in
  (set_skill_records ag records, r).

(** *** recommend_exercises *)

Definition _generate_exercise_description
           (skill_name skill_level subject : string)
           (skill_info : option SkillInfo.t)
           (learning_history : subject_history)
           (content_context : option string) : string :=
  let base_desc :=
    if String.eqb skill_level "beginner" then
      "Practice basic " ++ skill_name
        ++ " concepts with these introductory exercises."
    else if String.eqb skill_level "intermediate" then
      "Strengthen your " ++ skill_name
        ++ " skills with these practice problems."
    else
      "Challenge yourself with these advanced " ++ skill_name
        ++ " problems to master the skill." in
  let base_desc :=
    match skill_info with
    | Some info =>
        match SkillInfo.exercise_templates info with
        | [] => base_desc
        | templates =>
            format_template (random_choice templates) skill_name subject
        end
    | None => base_desc
    end in
  let base_desc :=
    match learning_history with
    | [] => base_desc
    | _ =>
        if Str.contains skill_name (str_of_history learning_history) then
          let attempts :=
            match dict_get (skill_id_of subject skill_name) learning_history with
            | Some h => SkillHistory.attempts h
            | None => 0%Z
            end in
          if (0 <? attempts)%Z then
            base_desc ++ " You've worked on this skill "
              ++ Str.of_Z attempts ++ " times before."
              ++ (if (2 <? attempts)%Z
                  then " This exercise will challenge you with more advanced concepts."
                  else "")
          else base_desc
        else base_desc
    end in
  match content_context with
  | Some c =>
      if truthy c then
        let snippet :=
          if (100 <? String.length c)%nat
          then String.substring 0 100 c ++ "..."
          else c in
        base_desc ++ " This exercise relates to the content: '" ++ snippet ++ "'"
      else base_desc
  | None => base_desc
  end.

(** The list comprehension [skill.get("gap_level", 0) > 0.4]. *)
Definition significant_gaps (skills : list Skill.t) : list Skill.t :=
  filter (fun skill => Num.ltb 0.4 (Skill.gap_level skill)) skills.

(** [skill_gaps] before sorting: the filtered list, or [skills] itself when
    the filtered list is empty. *)
Definition candidate_skills (skills : list Skill.t) : list Skill.t :=
  match significant_gaps skills with
  | [] => skills
  | skill_gaps => skill_gaps
  end.

(** [target_skills]: the sorted candidates cut at [count]. *)
Definition target_skills (skills : list Skill.t) (count : Z) : list Skill.t :=
  slice_to count (sort_by_gap_desc (candidate_skills skills)).

Definition exercise_for (ag : Agent) (student : Student.t) (subject : string)
           (content : option string) (learning_history : subject_history)
           (index : nat) (skill : Skill.t) : Exercise.t :=
  let skill_name := Skill.name skill in
  let skill_level :=
    match Skill.level skill with Some l => l | None => "beginner" end in
  let skill_category :=
    match Skill.category skill with Some c => c | None => "general" end in
  let skill_info := _get_skill_info ag subject skill_category skill_name in
  let description :=
    _generate_exercise_description skill_name skill_level subject
      skill_info learning_history content in
  let difficulty :=
    _calculate_difficulty
      (Skill.gap_level skill)
      (dict_get_default subject 0 (Student.progress student))
      skill_level
      (match dict_get (Skill.id skill) learning_history with
       | Some h => SkillHistory.attempts h
       | None => 0%Z
       end) in
  let exercise_type := _determine_exercise_type skill student in
  let estimated_time := _calculate_estimated_time difficulty exercise_type in
  Exercise.mk
    ("exercise_" ++ Skill.id skill ++ "_" ++ Str.of_nat index)
    (Skill.id skill) skill_name description difficulty subject
    skill_category exercise_type estimated_time
    (_get_skill_resources subject skill_name skill_level).

(** The loop [for skill in target_skills]; [index] is [len(exercises)]. *)
Fixpoint exercises_from (ag : Agent) (student : Student.t) (subject : string)
         (content : option string) (learning_history : subject_history)
         (index : nat) (targets : list Skill.t) : list Exercise.t :=
  match targets with
  | [] => []
  | skill :: rest =>
      exercise_for ag student subject content learning_history index skill
      :: exercises_from ag student subject content learning_history
                        (S index) rest
  end.

Definition recommend_exercises (ag : Agent) (now : clock)
           (student : Student.t) (subject : string) (count : Z)
           (content : option string) : Agent * list Exercise.t :=
  let (ag1, skills) := identify_skills ag now student subject content in
  let skill_gaps := sort_by_gap_desc (candidate_skills skills) in
  (* when no gap exceeds 0.4, [skill_gaps] is the stored list itself and
     the sort reorders the stored record in place *)
  let ag2 :=
    match significant_gaps skills with
    | [] =>
        set_skill_records ag1
          (dict_set (assessment_id (Student.id student) subject now)
             (AssessmentRecord
                (Assessment.mk (Student.id student) subject (isoformat now)
                   (dict_get_default subject 0.0 (Student.progress student))
                   (tier_of (dict_get_default subject 0.0
                               (Student.progress student)))
                   skill_gaps))
             (skill_records ag1))
    | _ => ag1
    end in
  let targets := slice_to count skill_gaps in
  let (ag3, learning_history) := _get_learning_history ag2 student subject in
  (ag3, exercises_from ag3 student subject content learning_history 0 targets).

(** *** track_progress *)

(** The search loop of [track_progress].  The first skill, in the first
    record of the student, whose id prefixes the exercise id wins.  A stored
    skill-progress record of the student has no ["skills"] key. *)
Fixpoint find_exercise (student_id exercise_id : string)
         (records : list (string * record))
  : result (option (Skill.t * string)) :=
  match records with
  | [] => Ok None
  | (_, AssessmentRecord a) :: rest =>
      if String.eqb (Assessment.student_id a) student_id then
        match find (fun skill =>
                      Str.startswith exercise_id ("exercise_" ++ Skill.id skill))
                   (Assessment.skills a) with
        | Some skill => Ok (Some (skill, Assessment.subject a))
        | None => find_exercise student_id exercise_id rest
        end
      else find_exercise student_id exercise_id rest
  | (_, SkillProgressRecord p) :: rest =>
      if String.eqb (SkillProgress.student_id p) student_id
      then Raise (KeyError "skills")
      else find_exercise student_id exercise_id rest
  end.

Definition track_progress (ag : Agent) (now : clock) (student : Student.t)
           (exercise_id : string) (completion_status : Q)
           (feedback : option string)
  : Agent * Student.t * result track_result :=
  match find_exercise (Student.id student) exercise_id (skill_records ag) with
  | Raise e => (ag, student, Raise e)
  | Ok None => (ag, student, Ok (ErrorPayload "Exercise not found"))
  | Ok (Some (skill, subject)) =>
      let progress_id := "progress_" ++ exercise_id ++ "_" ++ stamp now in
      let progress_record :=
        ProgressRecord.mk progress_id (Student.id student) exercise_id
          (Skill.id skill) (Skill.name skill) subject (isoformat now)
          completion_status feedback in
      match progress_records ag with
      | None => (ag, student, Raise (AttributeError "progress_records"))
      | Some stored =>
          let ag1 :=
            set_progress_records ag (dict_set progress_id progress_record stored) in
          let current_progress :=
            dict_get_default subject 0.0 (Student.progress student) in
          let progress_impact := Num.mul completion_status 0.05 in
          let new_progress :=
            Num.py_min (Num.add current_progress progress_impact) 1.0 in
          let student1 := Student.set_progress student subject new_progress in
          let ag2 :=
            _update_learning_history ag1 now student1 subject (Skill.id skill)
                                     completion_status feedback in
          let (ag3, r) :=
            _update_skill_gap ag2 student1 subject (Skill.id skill)
                              completion_status in
          match r with
          | Raise e => (ag3, student1, Raise e)
          | Ok _ =>
              (ag3, student1,
               Ok (Tracked
                     (ProgressResult.mk progress_id (Student.id student)
                        subject current_progress new_progress
                        (Skill.name skill) completion_status
                        (isoformat now))))
          end
      end
  end.

(** *** track_skill_progress *)

(** The search loop of [track_skill_progress]; [subject] is the variable of
    that name, [None] at first, and the loop stops once it is truthy. *)
Fixpoint find_subject (student_id skill_id : string)
         (records : list (string * record)) (subject : option string)
  : result (option string) :=
  match records with
  | [] => Ok subject
  | (_, AssessmentRecord a) :: rest =>
      let subject' :=
        if String.eqb (Assessment.student_id a) student_id
           && existsb (fun skill => String.eqb (Skill.id skill) skill_id)
                      (Assessment.skills a)
        then Some (Assessment.subject a)
        else subject in
      if truthy_opt subject' then Ok subject'
      else find_subject student_id skill_id rest subject'
  | (_, SkillProgressRecord p) :: rest =>
      if String.eqb (SkillProgress.student_id p) student_id
      then Raise (KeyError "skills")
      else if truthy_opt subject then Ok subject
      else find_subject student_id skill_id rest subject
  end.

Definition track_skill_progress (ag : Agent) (now : clock)
           (student : Student.t) (skill_id : string)
           (exercise_results : list ExerciseResult.t)
  : Agent * result SkillProgress.t :=
  let scores :=
    map (fun r => match ExerciseResult.score r with Some s => s | None => 0 end)
        exercise_results in
  let avg_score :=
    match scores with [] => 0 | _ => Num.mean scores end in
  let progress_level := Num.py_min 1.0 (Num.div avg_score 100) in
  let progress_record :=
    SkillProgress.mk (Student.id student) skill_id (isoformat now)
      (List.length exercise_results) avg_score progress_level
      (map ExerciseResult.id exercise_results) in
  let record_id :=
    "skill_progress_" ++ Student.id student ++ "_" ++ skill_id
      ++ "_" ++ stamp now in
  let ag1 :=
    set_skill_records ag
      (dict_set record_id (SkillProgressRecord progress_record)
                (skill_records ag)) in
  match find_subject (Student.id student) skill_id (skill_records ag1) None with
  | Raise e => (ag1, Raise e)
  | Ok subject =>
      match subject with
      | Some s =>
          if truthy s then
            let ag2 :=
              _update_learning_history ag1 now student s skill_id
                progress_level
                (Some ("Completed " ++ Str.of_nat (List.length exercise_results)
                         ++ " exercises with average score "
                         ++ Str.format_1f avg_score ++ "%")) in
            let (ag3, r) :=
              _update_skill_gap ag2 student s skill_id progress_level in
            match r with
            | Raise e => (ag3, Raise e)
            | Ok _ => (ag3, Ok progress_record)
            end
          else (ag1, Ok progress_record)
      | None => (ag1, Ok progress_record)
      end
  end.

(** *** generate_skill_development_plan *)

Definition generate_skill_development_plan (ag : Agent) (now : clock)
           (student : Student.t) (subject : string) : Agent * Plan.t :=
  let (ag1, skills) := identify_skills ag now student subject None in
  let prioritized_skills := sort_by_gap_desc skills in
  let top := firstn 5 prioritized_skills in
  let current := dict_get_default subject 0.0 (Student.progress student) in
  (ag1,
   Plan.mk (Student.id student) subject (isoformat now) current
     (Num.py_min 1.0 (Num.add current 0.3))
     (Z.of_nat (List.length top))
     (map Skill.id top)
     (map (fun p : nat * Skill.t =>
             Plan.mk_week (Z.of_nat (S (fst p))) (Skill.id (snd p))
                          (Skill.name (snd p)) [] 0.2)
          (combine (seq 0 (List.length top)) top))).

End Operations.

(** ** Calls, runs and reachable states *)

(** The public operations, as values, so that statements can range over
    "every operation". *)
Inductive call :=
| IdentifySkills (now : clock) (student : Student.t) (subject : string)
                 (content : option string)
| RecommendExercises (now : clock) (student : Student.t) (subject : string)
                     (count : Z) (content : option string)
| TrackProgress (now : clock) (student : Student.t) (exercise_id : string)
                (completion_status : Q) (feedback : option string)
| TrackSkillProgress (now : clock) (student : Student.t) (skill_id : string)
                     (exercise_results : list ExerciseResult.t)
| GeneratePlan (now : clock) (student : Student.t) (subject : string).

(** [progress_level] as [track_skill_progress] computes it. *)
Definition skill_progress_level (exercise_results : list ExerciseResult.t) : Q :=
  let scores :=
    map (fun r => match ExerciseResult.score r with Some s => s | None => 0 end)
        exercise_results in
  Num.py_min 1.0
    (Num.div (match scores with [] => 0 | _ => Num.mean scores end) 100).

(** The completion signal a call hands to gap adjustment, if it has one. *)
Definition signal (c : call) : option Q :=
  match c with
  | TrackProgress _ _ _ completion_status _ => Some completion_status
  | TrackSkillProgress _ _ _ exercise_results =>
      Some (skill_progress_level exercise_results)
  | _ => None
  end.

Section Runs.

Variable re_search : string -> string -> bool.
Variable random_choice : list string -> string.
Variable format_template : string -> string -> string -> string.
Variable str_of_history : subject_history -> string.

(** The state of the agent after a call, whether it returned or raised. *)
Definition run (ag : Agent) (c : call) : Agent :=
  match c with
  | IdentifySkills now student subject content =>
      fst (identify_skills re_search ag now student subject content)
  | RecommendExercises now student subject count content =>
      fst (recommend_exercises re_search random_choice format_template
             str_of_history ag now student subject count content)
  | TrackProgress now student exercise_id completion_status feedback =>
      fst (fst (track_progress ag now student exercise_id
                               completion_status feedback))
  | TrackSkillProgress now student skill_id exercise_results =>
      fst (track_skill_progress ag now student skill_id exercise_results)
  | GeneratePlan now student subject =>
      fst (generate_skill_development_plan re_search ag now student subject)
  end.

(** The states an agent can be in: created by [__init__] over whatever
    taxonomies were on disk, then driven by any calls. *)
Inductive Reachable : Agent -> Prop :=
| reach_init (taxonomies : list (string * taxonomy)) :
    Reachable (new_agent taxonomies)
| reach_call (ag : Agent) (c : call) :
    Reachable ag -> Reachable (run ag c).

End Runs.

(** ** Vocabulary of the specification *)

(** The skills held by a stored record. *)
Definition record_skills (r : string * record) : list Skill.t :=
  match snd r with
  | AssessmentRecord a => Assessment.skills a
  | SkillProgressRecord _ => []
  end.

(** All skills in the skill records store, in scan order. *)
Definition stored_skills (ag : Agent) : list Skill.t :=
  flat_map record_skills (skill_records ag).

Definition stored_gaps (ag : Agent) : list Q :=
  map Skill.gap_level (stored_skills ag).

(** A gap level the agent can hold: two decimals, not negative. *)
Definition storable (g : Q) : Prop := Num.on_grid g /\ 0 <= g.


Definition gaps_satisfy (P : Q -> Prop) (ag : Agent) : Prop :=
  Forall (fun skill => P (Skill.gap_level skill)) (stored_skills ag).

(** The record is an assessment of this student and subject holding a skill
    of this id: what [_update_skill_gap] looks for. *)
Definition gap_target (student_id subject skill_id : string) (r : string * record)
  : Prop :=
  match snd r with
  | AssessmentRecord a =>
      Assessment.student_id a = student_id
      /\ Assessment.subject a = subject
      /\ exists skill, In skill (Assessment.skills a) /\ Skill.id skill = skill_id
  | SkillProgressRecord _ => False
  end.

(** The record is a skill-progress record of this student. *)
Definition progress_of (student_id : string) (r : string * record) : Prop :=
  match snd r with
  | AssessmentRecord _ => False
  | SkillProgressRecord p => SkillProgress.student_id p = student_id
  end.

(** What one visit of [_update_skill_gap] does to a record. *)
Definition adjust_record (student_id subject skill_id : string)
           (completion_status : Q) (r : string * record) : string * record :=
  match snd r with
  | AssessmentRecord a =>
      if String.eqb (Assessment.student_id a) student_id
         && String.eqb (Assessment.subject a) subject
      then (fst r,
            AssessmentRecord
              (Assessment.set_skills a
                 (adjust_first skill_id completion_status (Assessment.skills a))))
      else r
  | SkillProgressRecord _ => r
  end.

(** The gap levels of the skills of this id in a record. *)
Definition gaps_of_id (skill_id : string) (r : string * record) : list Q :=
  map Skill.gap_level
      (filter (fun skill => String.eqb (Skill.id skill) skill_id)
              (record_skills r)).

(** "Only the first matching record is touched": in every later record that
    is also a target, the skill of that id comes out of [_update_skill_gap]
    with the gap level it had. *)
Definition first_match_only (ag : Agent) (student : Student.t)
           (subject skill_id : string) (completion_status : Q) : Prop :=
  let ag' := fst (_update_skill_gap ag student subject skill_id completion_status) in
  forall pre r post,
    skill_records ag = (pre ++ r :: post)%list ->
    Exists (gap_target (Student.id student) subject skill_id) pre ->
    gap_target (Student.id student) subject skill_id r ->
    exists r',
      nth_error (skill_records ag') (List.length pre) = Some r'
      /\ gaps_of_id skill_id r' = gaps_of_id skill_id r.

(** The difficulty formula in the words of the specification: the level
    factor is read off the level string as it is. *)
Definition level_factor (skill_level : string) : Q :=
  if String.eqb skill_level "beginner" then -0.1
  else if String.eqb skill_level "intermediate" then 0.0
  else if String.eqb skill_level "advanced" then 0.1
  else 0.0.

Definition clamp (x lo hi : Q) : Q := Qmin (Qmax x lo) hi.

Definition round_to_2 (x : Q) : Q :=
  inject_Z (Num.round_half_even (x * 100)) / 100.

Definition difficulty_formula (factor : string -> Q)
           (gap_level progress_level : Q) (skill_level : string)
           (previous_attempts : Z) : Q :=
  round_to_2
    (clamp (gap_level + 0.5 * progress_level + factor skill_level
            + Qmin (inject_Z previous_attempts * 0.05) 0.2)
           0.1 1.0).

(** The taxonomy entries in the order the nested loops visit them. *)
Definition entries (tax : taxonomy) : list (string * (string * SkillInfo.t)) :=
  flat_map (fun cat => map (pair (fst cat)) (snd cat)) tax.

(** The skill that content analysis appends for an entry. *)
Definition matched_skill (subject tier category skill_name : string)
           (info : SkillInfo.t) : Skill.t :=
  Skill.mk (skill_id_of subject skill_name) skill_name (Some category) 0.3
           (Some match SkillInfo.level info with Some l => l | None => tier end).

Definition same_name (skill_name : string) (skill : Skill.t) : Prop :=
  Str.lower (Skill.name skill) = Str.lower skill_name.

(** A skill dict with all five keys of the data model. *)
Definition has_all_fields (skill : Skill.t) : Prop :=
  Skill.category skill <> None /\ Skill.level skill <> None.

(** Order of the recommendation: larger gaps first. *)
Definition gap_ge (a b : Skill.t) : Prop :=
  Skill.gap_level b <= Skill.gap_level a.

Definition same_gap (g : Q) (skill : Skill.t) : bool :=
  Num.eqb (Skill.gap_level skill) g.

(** The exercise was generated from this skill. *)
Definition generated_from (e : Exercise.t) (skill : Skill.t) : Prop :=
  Exercise.skill_id e = Skill.id skill
  /\ Exercise.skill_name e = Skill.name skill.

(** The exercise id resolves to a skill of the student: some assessment
    record of the student holds a skill whose id, after ["exercise_"],
    prefixes it. *)
Definition resolves (ag : Agent) (student : Student.t) (exercise_id : string)
  : Prop :=
  exists key a skill,
    In (key, AssessmentRecord a) (skill_records ag)
    /\ Assessment.student_id a = Student.id student
    /\ In skill (Assessment.skills a)
    /\ Str.startswith exercise_id ("exercise_" ++ Skill.id skill) = true.


(** The precondition a call puts on its completion signal. *)
Definition signal_satisfies (ok : Q -> Prop) (c : call) : Prop :=
  match signal c with Some q => ok q | None => True end.

(** How one gap level may move under an adjustment with signal [c]. *)
Definition lowered_by (c : Q) (new old : Q) : Prop :=
  (new = old \/ new = adjust_gap old c) /\ new <= old.

(** The content matches a taxonomy entry: some keyword occurs in it,
    letter case ignored, or some pattern is found in it. *)
Definition content_matches (re_search : string -> string -> bool)
           (content : string) (info : SkillInfo.t) : Prop :=
  (exists keyword,
      In keyword (SkillInfo.keywords info)
      /\ Str.contains (Str.lower keyword) (Str.lower content) = true)
  \/ (exists pattern,
         In pattern (SkillInfo.patterns info)
         /\ re_search pattern content = true).

(** One step of content analysis, on an element of [entries]. *)
Definition analysis_step (re_search : string -> string -> bool)
           (subject tier content : string)
           (skills : list Skill.t) (e : string * (string * SkillInfo.t))
  : list Skill.t :=
  analyse_entry re_search subject tier content (fst e) skills (snd e).

(** Values used in the examples. *)
Definition no_match : string -> string -> bool := fun _ _ => false.
Definition first_choice : list string -> string := fun l => hd "" l.
Definition keep_template : string -> string -> string -> string :=
  fun template _ _ => template.
Definition blank_history : subject_history -> string := fun _ => "".

Definition noon : clock := mkClock "1700000000.0" "2023-11-14T22:13:20".
Definition later : clock := mkClock "1700000060.0" "2023-11-14T22:14:20".

Definition beginner : Student.t := Student.mk "s1" [("math", 0.2)] [].
Definition advanced_student : Student.t := Student.mk "s2" [("math", 0.8)] [].

Definition fresh : Agent := new_agent default_taxonomies.

Definition practice : string := "Let's practice addition: 2 + 3 = 5".

(** All skills of the canned table, and the gap levels it seeds. *)
Definition canned_skills : list Skill.t :=
  flat_map (fun by_subject => flat_map snd (snd by_subject)) skill_map.

Definition canned_gaps : list Q := map Skill.gap_level canned_skills.

(** Two skill dicts that differ at most in [gap_level]. *)
Definition same_but_gap (a b : Skill.t) : Prop :=
  Skill.id a = Skill.id b
  /\ Skill.name a = Skill.name b
  /\ Skill.category a = Skill.category b
  /\ Skill.level a = Skill.level b.

(** A skill as the canned table has it: no [category], no [level]. *)
Definition bare (skill : Skill.t) : Prop :=
  Skill.category skill = None /\ Skill.level skill = None.

(** The shape of the skill list during content analysis: the canned skills
    first, bare, then the matched ones with all their fields. *)
Definition canned_then_matched (seeds skills : list Skill.t) : Prop :=
  exists from_table matched,
    skills = (from_table ++ matched)%list
    /\ Forall2 (fun skill seed => same_but_gap skill seed /\ bare skill)
               from_table seeds
    /\ Forall has_all_fields matched.

(** The record [identify_skills] stores for the beginner in math at a given
    instant, and the store after one such call. *)
Definition beginner_assessment (now : clock) : string * record :=
  (assessment_id "s1" "math" now,
   AssessmentRecord
     (Assessment.mk "s1" "math" (isoformat now) 0.2 "beginner"
                    (_map_skills_for_subject "math" "beginner"))).

Definition one_assessment : Agent :=
  fst (identify_skills no_match fresh noon beginner "math" None).

(** The taxonomy entry of the addition skill. *)
Definition addition_entry : SkillInfo.t :=
  entry "beginner" "Ability to add numbers"
        ["add"; "sum"; "plus"; "addition"] ["\d+\s*\+\s*\d+"].

(** Exercise results with a score of 80 and with a score of -500. *)
Definition good_result : list ExerciseResult.t :=
  [ExerciseResult.mk (Some "e1") (Some 80)].


(** Two stored assessments of the same student and subject. *)
Definition two_assessments : Agent :=
  fst (identify_skills no_match
         (fst (identify_skills no_match fresh noon beginner "math" None))
         later beginner "math" None).

(** A student at the intermediate tier of math, an agent whose math
    taxonomy also has a statistics entry, and a content that matches that
    entry and the one for area: no identified skill then has a gap above
    0.4. *)
Definition intermediate_student : Student.t :=
  Student.mk "s3" [("math", 0.5)] [].

Definition statistics_agent : Agent :=
  new_agent
    [ ("math",
       (math_taxonomy
          ++ [ ("data",
                [ ("statistics",
                   entry "intermediate" "Ability to summarise data"
                         ["mean"; "median"] []) ]) ])%list) ].

Definition summary : string := "Find the mean area".

(** ** The rest of the agent, and its caller *)

Module Text.

(** [s.endswith(suffix)]. *)
Fixpoint endswith (s suffix : string) : bool :=
  String.eqb s suffix ||
  match s with
  | EmptyString => false
  | String _ rest => endswith rest suffix
  end.

(** [s.split(sep)[0]] for a non-empty [sep]: [s] up to the first occurrence
    of [sep], all of [s] when there is none. *)
Fixpoint before_first (sep s : string) : string :=
  if String.prefix sep s then EmptyString
  else match s with
       | EmptyString => EmptyString
       | String c rest => String c (before_first sep rest)
       end.

(** [s.split(c)] for a one-character separator. *)
Fixpoint split_char (sep : ascii) (s : string) : list string :=
  match s with
  | EmptyString => [EmptyString]
  | String c rest =>
      if Ascii.eqb c sep then EmptyString :: split_char sep rest
      else match split_char sep rest with
           | [] => [String c EmptyString]
           | piece :: pieces => String c piece :: pieces
           end
  end.

(** [c in s] for a character. *)
Fixpoint has_char (c : ascii) (s : string) : bool :=
  match s with
  | EmptyString => false
  | String d rest => Ascii.eqb d c || has_char c rest
  end.

(** [s] up to its first [c]. *)
Fixpoint up_to_char (c : ascii) (s : string) : string :=
  match s with
  | EmptyString => EmptyString
  | String d rest => if Ascii.eqb d c then EmptyString
                     else String d (up_to_char c rest)
  end.

End Text.

(** *** _load_skill_taxonomies *)

(** One name of [os.listdir(taxonomy_dir)] with what [open] and [json.load]
    make of the file: [None] when one of them raises [IOError] or
    [JSONDecodeError] (the error is printed and the file skipped).  A
    document that parses is taken to have the shape of a taxonomy. *)
Definition taxonomy_file := (string * option taxonomy)%type.

(** The file name [_create_default_taxonomies] gives to a subject. *)
Definition taxonomy_filename (subject : string) : string :=
  subject ++ "_taxonomy.json".

(** The body of the loop over the directory. *)
Definition load_taxonomy_file (taxonomies : list (string * taxonomy))
           (file : taxonomy_file) : list (string * taxonomy) :=
  let (filename, document) := file in
  if Text.endswith filename ".json" then
    let subject := Text.before_first "_taxonomy.json" filename in
    match document with
    | Some loaded => dict_set subject loaded taxonomies
    | None => taxonomies
    end
  else taxonomies.

(** The loop of [_load_skill_taxonomies] over a directory that exists;
    [__init__] starts it from the empty dict. *)
Definition _load_skill_taxonomies (files : list taxonomy_file)
           (taxonomies : list (string * taxonomy)) : list (string * taxonomy) :=
  fold_left load_taxonomy_file files taxonomies.

(** The file is a readable taxonomy document filed under this subject. *)
Definition provides (subject : string) (file : taxonomy_file) : bool :=
  Text.endswith (fst file) ".json"
  && String.eqb (Text.before_first "_taxonomy.json" (fst file)) subject
  && match snd file with Some _ => true | None => false end.

(** *** _get_skill_info with all its arguments, recommend_skill_exercises *)

(** What [_get_skill_info] returns: a dict of the canned table, or an entry
    of a taxonomy. *)
Inductive skill_lookup :=
| TableSkill (skill : Skill.t)
| TaxonomyEntry (info : SkillInfo.t).

(** The first branch of [_get_skill_info]: the tiers in order, the first
    canned skill of that id. *)
Definition find_canned (subject skill_id : string) : option Skill.t :=
  find (fun skill => String.eqb (Skill.id skill) skill_id)
       (flat_map (_map_skills_for_subject subject)
                 ["beginner"; "intermediate"; "advanced"]).

(** [None] and the empty string are both falsy, and a falsy argument of
    [_get_skill_info] is not looked at. *)
Definition or_empty (s : option string) : string :=
  match s with Some s' => s' | None => "" end.

Definition _get_skill_info_full (ag : Agent) (subject : string)
           (category skill_name skill_id : option string)
  : option skill_lookup :=
  match (if truthy_opt skill_id
         then find_canned subject (or_empty skill_id) else None) with
  | Some skill => Some (TableSkill skill)
  | None =>
      option_map TaxonomyEntry
        (_get_skill_info ag subject (or_empty category) (or_empty skill_name))
  end.

(** An element of the list [recommend_skill_exercises] builds. *)
Module SkillExercise.
Record t := mk {
  id : string;
  title : string;
  description : string;
  difficulty : Q;
  estimated_time : Z
}.
End SkillExercise.

Section SkillExercises.

(** [str] of a skill dict, which the description formats into its text. *)
Variable str_of_skill : Skill.t -> string.

(** One element of the list comprehension.  The call
    [_generate_exercise_description(skill_info, i, current_level)] binds the
    dict to [skill_name] and the number [i] to [skill_level], which equals
    neither level name; [_calculate_difficulty(current_level, i)] binds
    [current_level] to [gap_level] and [i] to [progress_level].  A taxonomy
    entry has no ["name"] key. *)
Definition skill_exercise (skill_id : string) (current_level : Q)
           (found : skill_lookup) (i : nat) : result SkillExercise.t :=
  match found with
  | TaxonomyEntry _ => Raise (KeyError "name")
  | TableSkill skill =>
      Ok (SkillExercise.mk
            ("exercise_" ++ skill_id ++ "_" ++ Str.of_nat i)
            (Skill.name skill ++ " Exercise " ++ Str.of_nat (i + 1))
            ("Challenge yourself with these advanced " ++ str_of_skill skill
               ++ " problems to master the skill.")
            (_calculate_difficulty current_level (inject_Z (Z.of_nat i))
                                   "beginner" 0)
            (15 + Z.of_nat i * 5)%Z)
  end.

Fixpoint skill_exercises (skill_id : string) (current_level : Q)
         (found : skill_lookup) (indices : list nat)
  : result (list SkillExercise.t) :=
  match indices with
  | [] => Ok []
  | i :: rest =>
      match skill_exercise skill_id current_level found i with
      | Raise e => Raise e
      | Ok exercise =>
          match skill_exercises skill_id current_level found rest with
          | Raise e => Raise e
          | Ok exercises => Ok (exercise :: exercises)
          end
      end
  end.

(** [recommend_skill_exercises]: the skill id is passed to [_get_skill_info]
    in the place of [category]. *)
Definition recommend_skill_exercises (ag : Agent) (student : Student.t)
           (subject skill_id : string) : result (list SkillExercise.t) :=
  match _get_skill_info_full ag subject (Some skill_id) None None with
  | None => Ok []
  | Some found =>
      skill_exercises skill_id
        (dict_get_default subject 0.0 (Student.progress student))
        found (seq 0 3)
  end.

End SkillExercises.

(** *** The chat front end (chainlit_app.py) *)

(** [message.content.split("_")[1]], the subject a button value such as
    ["skills_" ++ subject] is read back as; [None] is the [IndexError] of a
    message without underscore. *)
Definition subject_of_message (content : string) : option string :=
  nth_error (Text.split_char "_" content) 1.

(** The words the skill analysis puts beside a gap level. *)
Definition gap_description (gap_level : Q) : string :=
  if Num.ltb gap_level 0.3 then "Strong"
  else if Num.ltb gap_level 0.6 then "Moderate"
  else "Significant Gap".

(** The loop that fills [skills_by_category]. *)
Definition group_skill (groups : list (string * list Skill.t)) (skill : Skill.t)
  : list (string * list Skill.t) :=
  let category :=
    match Skill.category skill with Some c => c | None => "General" end in
  let groups :=
    if dict_mem category groups then groups else dict_set category [] groups in
  dict_set category (dict_get_default category [] groups ++ [skill])%list groups.

Definition skills_by_category (skills : list Skill.t)
  : list (string * list Skill.t) :=
  fold_left group_skill skills [].

(** The category a skill is shown under: [skill.get("category", "General")]. *)
Definition shown_category (skill : Skill.t) : string :=
  match Skill.category skill with Some c => c | None => "General" end.

(** ** Vocabulary of the further properties *)

(** The history entry of a skill, as [_get_learning_history] gives access
    to it. *)
Definition history_of (ag : Agent) (student : Student.t)
           (subject skill_id : string) : option SkillHistory.t :=
  dict_get skill_id (snd (_get_learning_history ag student subject)).

(** All history entries the agent holds. *)
Definition stored_histories (ag : Agent) : list SkillHistory.t :=
  flat_map (fun by_student =>
              flat_map (fun by_subject => map snd (snd by_subject))
                       (snd by_student))
           (match learning_histories ag with Some h => h | None => [] end).

(** An entry as the updates leave it: one completion per attempt, at least
    one, their mean as average, the time of the last attempt set. *)
Definition history_consistent (h : SkillHistory.t) : Prop :=
  SkillHistory.attempts h = Z.of_nat (List.length (SkillHistory.completions h))
  /\ SkillHistory.completions h <> []
  /\ SkillHistory.average_completion h = Num.mean (SkillHistory.completions h)
  /\ SkillHistory.last_attempt h <> None.

(** The exercise types the agent knows. *)
Definition exercise_types : list string :=
  [ "multiple_choice"; "matching"; "fill_in_blank"; "short_answer";
    "problem_solving"; "essay"; "project"; "research" ].

(** A sound exercise record. *)
Definition exercise_sound (subject : string) (e : Exercise.t) : Prop :=
  Exercise.subject e = subject
  /\ 0.1 <= Exercise.difficulty e <= 1
  /\ (5 <= Exercise.estimated_time_minutes e <= 90)%Z
  /\ In (Exercise.exercise_type e) exercise_types
  /\ (List.length (Exercise.resources e) = 2
      \/ List.length (Exercise.resources e) = 3)%nat.

(** Two records that differ at most in the gap levels of their skills. *)
Definition same_but_gaps (r' r : string * record) : Prop :=
  fst r' = fst r
  /\ match snd r', snd r with
     | AssessmentRecord a', AssessmentRecord a =>
         Assessment.student_id a' = Assessment.student_id a
         /\ Assessment.subject a' = Assessment.subject a
         /\ Assessment.timestamp a' = Assessment.timestamp a
         /\ Assessment.current_level a' = Assessment.current_level a
         /\ Assessment.tier a' = Assessment.tier a
         /\ Forall2 same_but_gap (Assessment.skills a') (Assessment.skills a)
     | SkillProgressRecord p', SkillProgressRecord p => p' = p
     | _, _ => False
     end.

(** The keys of the two kinds of record, as the agent forms them. *)
Definition key_matches_kind (r : string * record) : Prop :=
  match snd r with
  | AssessmentRecord _ => String.prefix "skill_assessment_" (fst r) = true
  | SkillProgressRecord _ => String.prefix "skill_progress_" (fst r) = true
  end.

(** A skill after content analysis, against the canned skill it started as:
    the same dict but for the gap level, which is the seeded one or
    [min(seeded, 0.2)]. *)
Definition lowered_from (skill seed : Skill.t) : Prop :=
  same_but_gap skill seed
  /\ (Skill.gap_level skill = Skill.gap_level seed
      \/ Skill.gap_level skill = Num.py_min (Skill.gap_level seed) 0.2)
  /\ Skill.gap_level skill <= Skill.gap_level seed.

(** The gap level of a skill that content analysis appended. *)
Definition matched_gap (skill : Skill.t) : Prop :=
  Skill.gap_level skill = 0.3 \/ Skill.gap_level skill = 0.2.

(** The nested lookup [learning_histories[f"history_{id}"][subject][skill]],
    each level defaulting to the empty dict. *)
Definition history_lookup (all : option histories)
           (student_id subject skill_id : string) : option SkillHistory.t :=
  dict_get skill_id
    (dict_get_default subject []
       (dict_get_default ("history_" ++ student_id) []
          (match all with Some h => h | None => [] end))).

(** All entries of a histories dict satisfy [P]. *)
Definition histories_satisfy (P : SkillHistory.t -> Prop)
           (all : option histories) : Prop :=
  Forall (fun by_student =>
            Forall (fun by_subject =>
                      Forall (fun entry => P (snd entry)) (snd by_subject))
                   (snd by_student))
         (match all with Some h => h | None => [] end).

(** The entry [_update_learning_history] writes, from the entry it found. *)
Definition attempt_recorded (now : clock) (old : option SkillHistory.t)
           (completion_status : Q) (feedback : option string) : SkillHistory.t :=
  let h := match old with
           | Some h => h
           | None => SkillHistory.mk 0 [] 0.0 None None
           end in
  let completions := (SkillHistory.completions h ++ [completion_status])%list in
  SkillHistory.mk
    (SkillHistory.attempts h + 1)%Z
    completions
    (Num.mean completions)
    (Some (isoformat now))
    (if truthy_opt feedback then
       Some (match SkillHistory.feedback h with Some l => l | None => [] end
             ++ [(isoformat now, or_empty feedback)])%list
     else SkillHistory.feedback h).

(** The agent after [identify_skills] and one [track_skill_progress] call
    with a score of 80 for the beginner in math. *)
Definition tracked_once : Agent :=
  run no_match first_choice keep_template blank_history one_assessment
      (TrackSkillProgress later beginner "math_fractions" good_result).

(** * Properties *)

(** ** Arithmetic *)

Module NumFacts.
Import Num.

Lemma add_correct a b : add a b == a + b.
Proof. apply Qred_correct. Qed.

Lemma sub_correct a b : sub a b == a - b.
Proof. apply Qred_correct. Qed.

Lemma mul_correct a b : mul a b == a * b.
Proof. apply Qred_correct. Qed.

Lemma div_correct a b : div a b == a / b.
Proof. apply Qred_correct. Qed.

Lemma ltb_lt a b : ltb a b = true <-> a < b.
Proof.
  unfold ltb. rewrite Qlt_alt. destruct (Qcompare a b); intuition congruence.
Qed.

Lemma ltb_ge a b : ltb a b = false <-> b <= a.
Proof.
  unfold ltb.
  destruct (Qcompare_spec a b) as [H | H | H]; split; intro; try congruence; try lra.
Qed.

Lemma py_min_spec a b :
  (b < a /\ py_min a b = b) \/ (a <= b /\ py_min a b = a).
Proof.
  unfold py_min. destruct (ltb b a) eqn:E.
  - left. split; [now apply ltb_lt | reflexivity].
  - right. split; [now apply ltb_ge | reflexivity].
Qed.

Lemma py_max_spec a b :
  (a < b /\ py_max a b = b) \/ (b <= a /\ py_max a b = a).
Proof.
  unfold py_max. destruct (ltb a b) eqn:E.
  - left. split; [now apply ltb_lt | reflexivity].
  - right. split; [now apply ltb_ge | reflexivity].
Qed.

Lemma py_min_eq_Qmin a b : py_min a b == Qmin a b.
Proof.
  destruct (py_min_spec a b) as [[H ->] | [H ->]].
  - symmetry. apply Q.min_r. lra.
  - symmetry. apply Q.min_l. lra.
Qed.

Lemma py_max_eq_Qmax a b : py_max a b == Qmax a b.
Proof.
  destruct (py_max_spec a b) as [[H ->] | [H ->]].
  - symmetry. apply Q.max_r. lra.
  - symmetry. apply Q.max_l. lra.
Qed.

(** The floor brackets its argument. *)
Lemma floor_bracket q :
  inject_Z (Qfloor q) <= q /\ q < inject_Z (Qfloor q) + 1.
Proof.
  split; [apply Qfloor_le |].
  pose proof (Qlt_floor q) as H. rewrite inject_Z_plus in H. exact H.
Qed.

Lemma round_half_even_cases q :
  round_half_even q = Qfloor q \/ round_half_even q = (Qfloor q + 1)%Z.
Proof.
  unfold round_half_even.
  destruct (Qcompare (q - inject_Z (Qfloor q)) (1 # 2)); auto.
  destruct (Z.even (Qfloor q)); auto.
Qed.

Lemma round_half_even_Z k : round_half_even (inject_Z k) = k.
Proof.
  unfold round_half_even. rewrite Qfloor_Z.
  destruct (Qcompare_spec (inject_Z k - inject_Z k) (1 # 2)) as [H | H | H];
    try reflexivity; exfalso; lra.
Qed.

Lemma round_half_even_mono p q :
  p <= q -> (round_half_even p <= round_half_even q)%Z.
Proof.
  intros Hpq.
  pose proof (Qfloor_resp_le _ _ Hpq) as Hf.
  destruct (Z.eq_dec (Qfloor p) (Qfloor q)) as [E | NE].
  - unfold round_half_even. rewrite <- E.
    destruct (Qcompare_spec (p - inject_Z (Qfloor p)) (1 # 2)) as [Hp | Hp | Hp];
      destruct (Qcompare_spec (q - inject_Z (Qfloor p)) (1 # 2)) as [Hq | Hq | Hq];
      try (destruct (Z.even (Qfloor p))); try lia; exfalso; lra.
  - destruct (round_half_even_cases p) as [-> | ->];
      destruct (round_half_even_cases q) as [-> | ->]; lia.
Qed.

Lemma round2_on_grid q : on_grid (round2 q).
Proof.
  exists (round_half_even (q * 100)). unfold round2. apply Qred_correct.
Qed.

Lemma round2_mono p q : p <= q -> round2 p <= round2 q.
Proof.
  intros H. unfold round2. rewrite !Qred_correct.
  assert (Hm : (round_half_even (p * 100) <= round_half_even (q * 100))%Z)
    by (apply round_half_even_mono; lra).
  rewrite Zle_Qle in Hm. unfold Qdiv.
  apply Qmult_le_compat_r; [exact Hm | discriminate].
Qed.

Lemma round2_grid q : on_grid q -> round2 q == q.
Proof.
  intros [k Hk]. unfold round2. rewrite Qred_correct.
  assert (E : q * 100 == inject_Z k) by (rewrite Hk; field).
  assert (R : round_half_even (q * 100) = k).
  { unfold round_half_even. rewrite (Qfloor_comp _ _ E), Qfloor_Z.
    destruct (Qcompare_spec (q * 100 - inject_Z k) (1 # 2)) as [H | H | H];
      try reflexivity; exfalso; lra. }
  rewrite R, Hk. reflexivity.
Qed.

(** Rounding does not cross a value that is itself on the grid. *)
Lemma round2_le_grid q g : on_grid g -> q <= g -> round2 q <= g.
Proof.
  intros Hg H. rewrite <- (round2_grid g Hg). now apply round2_mono.
Qed.

Lemma round2_ge_grid q g : on_grid g -> g <= q -> g <= round2 q.
Proof.
  intros Hg H. rewrite <- (round2_grid g Hg). now apply round2_mono.
Qed.

Lemma on_grid_Z k : on_grid (inject_Z k / 100).
Proof. exists k. reflexivity. Qed.

Lemma on_grid_eq p q : p == q -> on_grid p -> on_grid q.
Proof. intros E [k Hk]. exists k. now rewrite <- E. Qed.

Lemma round_half_even_comp p q :
  p == q -> round_half_even p = round_half_even q.
Proof.
  intros E. unfold round_half_even.
  rewrite (Qfloor_comp _ _ E).
  assert (E' : p - inject_Z (Qfloor q) == q - inject_Z (Qfloor q))
    by (rewrite E; reflexivity).
  now rewrite (Qcompare_comp _ _ E' _ _ (Qeq_refl (1 # 2))).
Qed.

(** A test for two decimals that computes. *)
Lemma on_grid_test q :
  (Qnum q * 100 mod Zpos (Qden q) = 0)%Z -> on_grid q.
Proof.
  destruct q as [n d]. simpl. intros H. exists (n * 100 / Zpos d)%Z.
  unfold Qeq, Qdiv, Qmult, Qinv, inject_Z. simpl.
  apply Z.div_exact in H; [| lia]. rewrite Z.mul_1_r. lia.
Qed.

Lemma sum_from_nonneg l acc :
  0 <= acc -> Forall (fun q => 0 <= q) l -> 0 <= fold_left add l acc.
Proof.
  intros Hacc H. revert acc Hacc.
  induction H as [| q l Hq Hl IH]; intros acc Hacc; simpl; [exact Hacc |].
  apply IH. rewrite add_correct. lra.
Qed.

Lemma mean_nonneg l : Forall (fun q => 0 <= q) l -> 0 <= mean l.
Proof.
  intros H. unfold mean. rewrite div_correct.
  assert (Hs : 0 <= sum l) by (apply sum_from_nonneg; [lra | exact H]).
  destruct l as [| q l]; [vm_compute; discriminate |].
  apply Qle_shift_div_l.
  - replace 0 with (inject_Z 0) by reflexivity. rewrite <- Zlt_Qlt.
    simpl List.length. lia.
  - lra.
Qed.

End NumFacts.

(** ** Dictionaries and the skill records store *)

Section DictFacts.

Context {V : Type}.

Lemma dict_get_In (k : string) (v : V) d :
  dict_get k d = Some v -> In (k, v) d.
Proof.
  induction d as [| [k' v'] d IH]; simpl; [discriminate |].
  destruct (String.eqb k' k) eqn:E.
  - apply String.eqb_eq in E. intros [= ->]. left. now subst.
  - intros H. right. now apply IH.
Qed.

Lemma dict_set_In (k : string) (v : V) d : In (k, v) (dict_set k v d).
Proof.
  induction d as [| [k' v'] d IH]; simpl; [now left |].
  destruct (String.eqb k' k) eqn:E.
  - apply String.eqb_eq in E. subst. now left.
  - now right.
Qed.

Lemma dict_set_Forall (Q : string * V -> Prop) k v d :
  Forall Q d -> Q (k, v) -> Forall Q (dict_set k v d).
Proof.
  intros Hd Hv. induction Hd as [| [k' v'] d Hx Hd IH]; simpl.
  - constructor; [exact Hv | constructor].
  - destruct (String.eqb k' k) eqn:E.
    + apply String.eqb_eq in E. subst. now constructor.
    + now constructor.
Qed.

Lemma dict_get_default_cases (k : string) (dflt : V) d :
  dict_get_default k dflt d = dflt \/ In (k, dict_get_default k dflt d) d.
Proof.
  unfold dict_get_default. destruct (dict_get k d) eqn:E; [right | now left].
  now apply dict_get_In.
Qed.

End DictFacts.

Lemma Forall_flat_map {A B : Type} (P : B -> Prop) (f : A -> list B) l :
  Forall P (flat_map f l) <-> Forall (fun a => Forall P (f a)) l.
Proof.
  induction l as [| a l IH]; simpl.
  - split; constructor.
  - rewrite Forall_app, IH. split.
    + intros [H1 H2]. now constructor.
    + intros H. inversion H; subst. now split.
Qed.

(** A property of all stored skills survives a store into [skill_records]
    of a record whose skills have it. *)
Lemma stored_skills_dict_set (P : Skill.t -> Prop) ag key r :
  Forall P (stored_skills ag) ->
  Forall P (record_skills (key, r)) ->
  Forall P (stored_skills (set_skill_records ag (dict_set key r (skill_records ag)))).
Proof.
  unfold stored_skills. simpl. rewrite !Forall_flat_map. intros H Hr.
  now apply dict_set_Forall.
Qed.

Lemma progress_of_dict_set student_id key p d :
  SkillProgress.student_id p = student_id ->
  Exists (progress_of student_id) (dict_set key (SkillProgressRecord p) d).
Proof.
  intros H. apply Exists_exists. exists (key, SkillProgressRecord p).
  split; [apply dict_set_In | exact H].
Qed.

(** ** What each operation does to the fields of the agent *)

Lemma get_learning_history_records ag student subject :
  skill_records (fst (_get_learning_history ag student subject)) = skill_records ag
  /\ progress_records (fst (_get_learning_history ag student subject))
     = progress_records ag
  /\ skill_taxonomies (fst (_get_learning_history ag student subject))
     = skill_taxonomies ag.
Proof. repeat split. Qed.

Lemma update_learning_history_records ag now student subject skill_id c fb :
  skill_records (_update_learning_history ag now student subject skill_id c fb)
  = skill_records ag
  /\ progress_records (_update_learning_history ag now student subject skill_id c fb)
     = progress_records ag.
Proof. repeat split. Qed.

Lemma update_skill_gap_fields ag student subject skill_id c :
  fst (_update_skill_gap ag student subject skill_id c)
  = set_skill_records ag
      (fst (update_gap_scan (Student.id student) subject skill_id c
                            (skill_records ag)))
  /\ snd (_update_skill_gap ag student subject skill_id c)
     = snd (update_gap_scan (Student.id student) subject skill_id c
                            (skill_records ag)).
Proof.
  unfold _update_skill_gap.
  destruct (update_gap_scan _ _ _ _ _) as [records r]. split; reflexivity.
Qed.

(** ** The scans meet the skill-progress records *)

Lemma update_gap_scan_meets_progress student_id subject skill_id c records :
  Exists (progress_of student_id) records ->
  snd (update_gap_scan student_id subject skill_id c records)
  = Raise (KeyError "subject").
Proof.
  induction records as [| [key [a | p]] rest IH]; intros H.
  - inversion H.
  - inversion H as [? ? Hx | ? ? Hx]; subst; [destruct Hx |].
    simpl. destruct (update_gap_scan _ _ _ _ rest) as [rest' r] eqn:E.
    simpl in *. now apply IH.
  - simpl. destruct (String.eqb (SkillProgress.student_id p) student_id) eqn:E.
    + reflexivity.
    + inversion H as [? ? Hx | ? ? Hx]; subst.
      * unfold progress_of in Hx. simpl in Hx.
        apply String.eqb_neq in E. contradiction.
      * destruct (update_gap_scan _ _ _ _ rest) as [rest' r] eqn:E'.
        simpl in *. now apply IH.
Qed.

Lemma find_subject_meets_progress student_id skill_id records :
  Exists (progress_of student_id) records ->
  forall subject,
    truthy_opt subject = false ->
    find_subject student_id skill_id records subject = Raise (KeyError "skills")
    \/ exists s,
        find_subject student_id skill_id records subject = Ok (Some s)
        /\ truthy s = true.
Proof.
  induction records as [| [key [a | p]] rest IH]; intros H subject Hs.
  - inversion H.
  - inversion H as [? ? Hx | ? ? Hx]; subst; [destruct Hx |].
    simpl.
    destruct (String.eqb (Assessment.student_id a) student_id
              && existsb (fun skill => String.eqb (Skill.id skill) skill_id)
                         (Assessment.skills a)).
    + destruct (truthy_opt (Some (Assessment.subject a))) eqn:T.
      * right. exists (Assessment.subject a). split; [reflexivity | exact T].
      * now apply IH.
    + rewrite Hs. now apply IH.
  - simpl. destruct (String.eqb (SkillProgress.student_id p) student_id) eqn:E.
    + now left.
    + rewrite Hs. inversion H as [? ? Hx | ? ? Hx]; subst.
      * unfold progress_of in Hx. simpl in Hx.
        apply String.eqb_neq in E. contradiction.
      * now apply IH.
Qed.

(** ** track_skill_progress *)

(** C3 (code defect).  [track_skill_progress] stores its record in
    [skill_records] before it scans that dict, and both scans index every
    record of the student with keys the record does not have: whatever the
    arguments and the state, the call ends in a [KeyError] and the computed
    record is never returned. *)
Theorem track_skill_progress_raises ag now student skill_id exercise_results :
  exists key,
    snd (track_skill_progress ag now student skill_id exercise_results)
    = Raise (KeyError key).
Proof.
  unfold track_skill_progress.
  set (progress_record := SkillProgress.mk _ _ _ _ _ _ _).
  set (record_id := ("skill_progress_" ++ _)%string).
  set (ag1 := set_skill_records ag _).
  assert (Hex : Exists (progress_of (Student.id student)) (skill_records ag1))
    by (apply progress_of_dict_set; reflexivity).
  destruct (find_subject_meets_progress _ skill_id _ Hex None eq_refl)
    as [-> | [s [-> Hs]]].
  - now exists "skills".
  - rewrite Hs.
    set (ag2 := _update_learning_history ag1 now student s skill_id _ _).
    pose proof (update_skill_gap_fields ag2 student s skill_id
                  (SkillProgress.progress_level progress_record)) as [_ Hr].
    simpl in Hr.
    destruct (_update_skill_gap ag2 student s skill_id _) as [ag3 r].
    simpl in Hr. subst r.
    rewrite (update_gap_scan_meets_progress _ _ _ _ _ Hex).
    now exists "subject".
Qed.

(** ** track_progress *)

Lemma find_exercise_unresolved ag student exercise_id :
  ~ resolves ag student exercise_id ->
  ~ Exists (progress_of (Student.id student)) (skill_records ag) ->
  find_exercise (Student.id student) exercise_id (skill_records ag) = Ok None.
Proof.
  unfold resolves. generalize (skill_records ag) as records.
  induction records as [| [key [a | p]] rest IH]; intros Hno Hpr.
  - reflexivity.
  - simpl.
    assert (Hrest :
              find_exercise (Student.id student) exercise_id rest = Ok None).
    { apply IH.
      - intros (k & a' & skill & Hin & H). apply Hno.
        exists k, a', skill. split; [now right | exact H].
      - intros H. apply Hpr. now right. }
    destruct (String.eqb (Assessment.student_id a) (Student.id student)) eqn:E;
      [| exact Hrest].
    destruct (find _ (Assessment.skills a)) as [skill |] eqn:F; [| exact Hrest].
    exfalso. apply Hno. apply find_some in F. destruct F as [Hin Hp].
    exists key, a, skill. apply String.eqb_eq in E.
    repeat split; [now left | exact E | exact Hin | exact Hp].
  - simpl.
    destruct (String.eqb (SkillProgress.student_id p) (Student.id student)) eqn:E.
    + exfalso. apply Hpr. left. apply String.eqb_eq in E. exact E.
    + apply IH.
      * intros (k & a' & skill & Hin & H). apply Hno.
        exists k, a', skill. split; [now right | exact H].
      * intros H. apply Hpr. now right.
Qed.

(** With no skill-progress record of the student in the store, an exercise
    id that does not resolve gets the error payload and nothing changes. *)
Lemma track_progress_not_found ag now student exercise_id c fb :
  ~ resolves ag student exercise_id ->
  ~ Exists (progress_of (Student.id student)) (skill_records ag) ->
  track_progress ag now student exercise_id c fb
  = (ag, student, Ok (ErrorPayload "Exercise not found")).
Proof.
  intros Hno Hpr. unfold track_progress.
  now rewrite (find_exercise_unresolved _ _ _ Hno Hpr).
Qed.

(** While [progress_records] is unset, [track_progress] changes nothing and
    never reports success. *)
Lemma track_progress_without_attribute ag now student exercise_id c fb :
  progress_records ag = None ->
  fst (track_progress ag now student exercise_id c fb) = (ag, student)
  /\ forall r, snd (track_progress ag now student exercise_id c fb)
               <> Ok (Tracked r).
Proof.
  intros Hnone. unfold track_progress.
  destruct (find_exercise _ _ _) as [[[skill subject] |] | e]; simpl.
  - rewrite Hnone. split; [reflexivity | discriminate].
  - split; [reflexivity | discriminate].
  - split; [reflexivity | discriminate].
Qed.

Lemma track_progress_records ag now student exercise_id c fb :
  progress_records ag = None ->
  fst (fst (track_progress ag now student exercise_id c fb)) = ag.
Proof.
  intros H.
  destruct (track_progress_without_attribute ag now student exercise_id c fb H)
    as [E _].
  now rewrite E.
Qed.

Lemma track_progress_skill_records ag now student exercise_id c fb :
  skill_records (fst (fst (track_progress ag now student exercise_id c fb)))
  = skill_records ag
  \/ exists subject skill_id,
      skill_records (fst (fst (track_progress ag now student exercise_id c fb)))
      = fst (update_gap_scan (Student.id student) subject skill_id c
                             (skill_records ag)).
Proof.
  unfold track_progress.
  destruct (find_exercise _ _ _) as [[[skill subject] |] | e]; simpl; auto.
  destruct (progress_records ag) as [stored |]; simpl; auto.
  right. exists subject, (Skill.id skill).
  match goal with
  | |- context [_update_skill_gap ?a ?s ?sub ?sk ?q] =>
      pose proof (update_skill_gap_fields a s sub sk q) as [Hf _];
      destruct (_update_skill_gap a s sub sk q) as [ag3 r]
  end.
  simpl in Hf. subst ag3. destruct r; reflexivity.
Qed.

Lemma track_skill_progress_skill_records ag now student skill_id results :
  let ag' := fst (track_skill_progress ag now student skill_id results) in
  progress_records ag' = progress_records ag
  /\ exists key p,
      let records1 := dict_set key (SkillProgressRecord p) (skill_records ag) in
      skill_records ag' = records1
      \/ exists subject,
          skill_records ag'
          = fst (update_gap_scan (Student.id student) subject skill_id
                                 (skill_progress_level results) records1).
Proof.
  unfold track_skill_progress, skill_progress_level.
  match goal with
  | |- context [dict_set ?k (SkillProgressRecord ?p) (skill_records ag)] =>
      set (key := k); set (p0 := p)
  end.
  destruct (find_subject _ _ _ _) as [[s |] | e];
    try (split; [reflexivity | exists key, p0; left; reflexivity]).
  destruct (truthy s);
    try (split; [reflexivity | exists key, p0; left; reflexivity]).
  match goal with
  | |- context [_update_skill_gap ?a ?st ?sub ?sk ?q] =>
      pose proof (update_skill_gap_fields a st sub sk q) as [Hf _];
      destruct (_update_skill_gap a st sub sk q) as [ag3 r]
  end.
  simpl in Hf. subst ag3.
  destruct r; (split; [reflexivity | exists key, p0; right; exists s; reflexivity]).
Qed.

(** ** Invariants of the reachable states *)

Lemma insert_by_gap_Forall (P : Skill.t -> Prop) s l :
  P s -> Forall P l -> Forall P (insert_by_gap s l).
Proof.
  intros Hs Hl. induction Hl as [| t l Ht Hl IH]; simpl.
  - now constructor.
  - destruct (Num.ltb _ _); repeat constructor; auto.
Qed.

Lemma sort_by_gap_desc_Forall (P : Skill.t -> Prop) l :
  Forall P l -> Forall P (sort_by_gap_desc l).
Proof.
  induction 1; simpl; [constructor | now apply insert_by_gap_Forall].
Qed.

Lemma canned_In subject tier skill :
  In skill (_map_skills_for_subject subject tier) -> In skill canned_skills.
Proof.
  unfold _map_skills_for_subject, canned_skills. intros Hin.
  destruct (dict_get_default_cases tier [] (dict_get_default subject [] skill_map))
    as [E | Ht]; [rewrite E in Hin; destruct Hin |].
  destruct (dict_get_default_cases subject [] skill_map) as [E | Hs];
    [rewrite E in Ht; destruct Ht |].
  apply in_flat_map. eexists. split; [exact Hs |]. simpl.
  apply in_flat_map. eexists. split; [exact Ht |]. exact Hin.
Qed.

Lemma canned_gap_In subject tier skill :
  In skill (_map_skills_for_subject subject tier) ->
  In (Skill.gap_level skill) canned_gaps.
Proof.
  intros H. unfold canned_gaps. apply in_map. eapply canned_In; eauto.
Qed.

Section GapInvariant.

Variable re_search : string -> string -> bool.
Variable random_choice : list string -> string.
Variable format_template : string -> string -> string -> string.
Variable str_of_history : subject_history -> string.

(** A property [P] of gap levels that the seeds have and that the two
    writes of the agent keep, the second one for the completion signals
    that satisfy [ok]. *)
Variable P : Q -> Prop.
Variable ok : Q -> Prop.
Hypothesis P_canned : Forall P canned_gaps.
Hypothesis P_matched : P 0.3.
Hypothesis P_lowered : forall g, P g -> P (Num.py_min g 0.2).
Hypothesis P_adjusted : forall g c, ok c -> P g -> P (adjust_gap g c).

Let good (skill : Skill.t) : Prop := P (Skill.gap_level skill).

Lemma lower_gap_of_named_good skill_name skills skills' :
  Forall good skills ->
  lower_gap_of_named skill_name skills = Some skills' ->
  Forall good skills'.
Proof.
  intros H. revert skills'. induction H as [| s l Hs Hl IH]; intros skills'; simpl.
  - discriminate.
  - destruct (String.eqb _ _).
    + intros [= <-]. constructor; [apply P_lowered; exact Hs | exact Hl].
    + destruct (lower_gap_of_named skill_name l) as [l' |]; simpl; [| discriminate].
      intros [= <-]. constructor; [exact Hs | now apply IH].
Qed.

Lemma analyse_entry_good subject tier content category skills item :
  Forall good skills ->
  Forall good (analyse_entry re_search subject tier content category skills item).
Proof.
  intros H. unfold analyse_entry. destruct item as [skill_name info].
  destruct (_ || _); [| exact H].
  destruct (lower_gap_of_named skill_name skills) as [skills' |] eqn:E.
  - eapply lower_gap_of_named_good; eauto.
  - apply Forall_app. split; [exact H |].
    constructor; [exact P_matched | constructor].
Qed.

Lemma analyse_content_good subject tier content tax skills :
  Forall good skills ->
  Forall good (analyse_content re_search subject tier content tax skills).
Proof.
  unfold analyse_content. revert skills.
  induction tax as [| cat tax IH]; intros skills H; simpl; [exact H |].
  apply IH. generalize dependent skills.
  induction (snd cat) as [| item items IHi]; intros skills H; simpl; [exact H |].
  apply IHi. now apply analyse_entry_good.
Qed.

Lemma identified_skills_good ag student subject content :
  Forall good (identified_skills re_search ag student subject content).
Proof.
  assert (Hbase : forall tier, Forall good (_map_skills_for_subject subject tier)).
  { intros tier. apply Forall_forall. intros skill Hin.
    apply canned_gap_In in Hin.
    rewrite Forall_forall in P_canned. now apply P_canned. }
  unfold identified_skills. destruct content as [c |]; [| apply Hbase].
  destruct (truthy c); [| apply Hbase].
  apply analyse_content_good, Hbase.
Qed.

Lemma adjust_first_good skill_id c skills :
  ok c -> Forall good skills -> Forall good (adjust_first skill_id c skills).
Proof.
  intros Hc H. induction H as [| s l Hs Hl IH]; simpl; [constructor |].
  destruct (String.eqb _ _); constructor; auto.
  now apply P_adjusted.
Qed.

Lemma update_gap_scan_good student_id subject skill_id c records :
  ok c ->
  Forall good (flat_map record_skills records) ->
  Forall good
    (flat_map record_skills
       (fst (update_gap_scan student_id subject skill_id c records))).
Proof.
  intros Hc. induction records as [| [key [a | p]] rest IH]; simpl; intros H.
  - constructor.
  - destruct (update_gap_scan _ _ _ _ rest) as [rest' r] eqn:E. simpl in *.
    apply Forall_app in H. destruct H as [Ha Hrest].
    apply Forall_app. split; [| now apply IH].
    destruct (_ && _); [| exact Ha].
    unfold record_skills in *. simpl in *. now apply adjust_first_good.
  - destruct (String.eqb _ _); [exact H |].
    destruct (update_gap_scan _ _ _ _ rest) as [rest' r] eqn:E. simpl in *.
    now apply IH.
Qed.

Lemma identify_skills_good ag now student subject content :
  gaps_satisfy P ag ->
  gaps_satisfy P (fst (identify_skills re_search ag now student subject content)).
Proof.
  intros H. unfold identify_skills. simpl.
  apply stored_skills_dict_set; [exact H |].
  apply identified_skills_good.
Qed.

(** Every call keeps [P] on all stored gap levels, provided its completion
    signal satisfies [ok]. *)
Lemma run_keeps_gaps ag c :
  signal_satisfies ok c ->
  gaps_satisfy P ag ->
  gaps_satisfy P (run re_search random_choice format_template str_of_history ag c).
Proof.
  intros Hc H. destruct c as [now student subject content
                             | now student subject count content
                             | now student exercise_id q fb
                             | now student skill_id results
                             | now student subject]; simpl.
  - now apply identify_skills_good.
  - unfold recommend_exercises.
    pose proof (identify_skills_good ag now student subject content H) as H1.
    unfold identify_skills in *. simpl in *.
    destruct (significant_gaps _) eqn:E; simpl; [| exact H1].
    apply (stored_skills_dict_set (fun s => P (Skill.gap_level s)) _ _ _ H1).
    unfold record_skills. simpl.
    apply sort_by_gap_desc_Forall. unfold candidate_skills. rewrite E.
    apply identified_skills_good.
  - unfold gaps_satisfy, stored_skills.
    destruct (track_progress_skill_records ag now student exercise_id q fb)
      as [-> | (subject & skill_id & ->)]; [exact H |].
    now apply update_gap_scan_good.
  - unfold gaps_satisfy, stored_skills.
    pose proof (track_skill_progress_skill_records ag now student skill_id results)
      as [_ (key & p & Hrec)].
    assert (H1 : Forall (fun s => P (Skill.gap_level s))
                   (flat_map record_skills
                      (dict_set key (SkillProgressRecord p) (skill_records ag)))).
    { apply (stored_skills_dict_set (fun s => P (Skill.gap_level s)) ag _ _ H).
      constructor. }
    destruct Hrec as [-> | [subject ->]]; [exact H1 |].
    now apply update_gap_scan_good.
  - unfold generate_skill_development_plan.
    pose proof (identify_skills_good ag now student subject None H) as H1.
    unfold identify_skills in *. simpl in *. exact H1.
Qed.

End GapInvariant.

(** ** Gap adjustment *)


Lemma adjust_gap_formula g c :
  adjust_gap g c == round_to_2 (Qmax 0 (g - c * 0.2)).
Proof.
  unfold adjust_gap, round_to_2, Num.round2. rewrite Qred_correct.
  rewrite (NumFacts.round_half_even_comp _ (Qmax 0 (g - c * 0.2) * 100));
    [reflexivity |].
  rewrite NumFacts.py_max_eq_Qmax, NumFacts.sub_correct, NumFacts.mul_correct.
  assert (E : 0.0 == 0) by reflexivity. now rewrite E.
Qed.

Lemma adjust_gap_on_grid g c : Num.on_grid (adjust_gap g c).
Proof. apply NumFacts.round2_on_grid. Qed.

Lemma adjust_gap_nonneg g c : 0 <= adjust_gap g c.
Proof.
  unfold adjust_gap.
  apply (NumFacts.round2_ge_grid _ 0); [exists 0%Z; reflexivity |].
  destruct (NumFacts.py_max_spec 0.0 (Num.sub g (Num.mul c 0.2)))
    as [[H ->] | [H ->]]; [| discriminate].
  assert (E : 0.0 == 0) by reflexivity. rewrite E in H. now apply Qlt_le_weak.
Qed.

(** On a storable gap level, a non-negative completion signal never raises
    the level. *)
Lemma adjust_gap_le g c : storable g -> 0 <= c -> adjust_gap g c <= g.
Proof.
  intros [Hgrid Hg] Hc. unfold adjust_gap.
  apply NumFacts.round2_le_grid; [exact Hgrid |].
  destruct (NumFacts.py_max_spec 0.0 (Num.sub g (Num.mul c 0.2)))
    as [[H ->] | [H ->]].
  - rewrite NumFacts.sub_correct, NumFacts.mul_correct. lra.
  - assert (E : 0.0 == 0) by reflexivity. now rewrite E.
Qed.


Lemma storable_test q :
  (Qnum q * 100 mod Zpos (Qden q) = 0)%Z -> (0 <=? Qnum q)%Z = true -> storable q.
Proof.
  intros Hg Hn. split; [now apply NumFacts.on_grid_test |].
  unfold Qle. simpl. apply Z.leb_le in Hn. lia.
Qed.

Lemma canned_gaps_storable : Forall storable canned_gaps.
Proof. repeat constructor; apply storable_test; reflexivity. Qed.


Lemma py_min_keeps (P : Q -> Prop) g : P 0.2 -> P g -> P (Num.py_min g 0.2).
Proof.
  intros H2 Hg. now destruct (NumFacts.py_min_spec g 0.2) as [[_ ->] | [_ ->]].
Qed.

Section Reachability.

Variable re_search : string -> string -> bool.
Variable random_choice : list string -> string.
Variable format_template : string -> string -> string -> string.
Variable str_of_history : subject_history -> string.

Let run := run re_search random_choice format_template str_of_history.
Let Reachable := Reachable re_search random_choice format_template str_of_history.

(** Whatever the calls and their arguments, the stored gap levels keep two
    decimals and stay non-negative. *)
Lemma run_keeps_storable ag c :
  gaps_satisfy storable ag -> gaps_satisfy storable (run ag c).
Proof.
  apply (run_keeps_gaps re_search random_choice format_template str_of_history
           storable (fun _ => True)).
  - exact canned_gaps_storable.
  - apply storable_test; reflexivity.
  - intros g Hg. apply py_min_keeps; [apply storable_test; reflexivity | exact Hg].
  - intros g q _ _. split; [apply adjust_gap_on_grid | apply adjust_gap_nonneg].
  - unfold signal_satisfies. now destruct (signal c).
Qed.

Lemma reachable_storable ag : Reachable ag -> gaps_satisfy storable ag.
Proof.
  induction 1 as [taxonomies | ag c _ IH].
  - constructor.
  - now apply run_keeps_storable.
Qed.



(** [__init__] leaves [progress_records] unset and no call sets it. *)
Lemma run_progress_records ag c :
  progress_records ag = None -> progress_records (run ag c) = None.
Proof.
  intros H. destruct c as [now student subject content
                          | now student subject count content
                          | now student exercise_id q fb
                          | now student skill_id results
                          | now student subject]; unfold run; simpl.
  - exact H.
  - unfold recommend_exercises, identify_skills. simpl.
    destruct (significant_gaps _); exact H.
  - now rewrite track_progress_records.
  - destruct (track_skill_progress_skill_records ag now student skill_id results)
      as [-> _]. exact H.
  - exact H.
Qed.

Lemma reachable_progress_records ag :
  Reachable ag -> progress_records ag = None.
Proof.
  induction 1 as [taxonomies | ag c _ IH]; [reflexivity |].
  now apply run_progress_records.
Qed.

(** In every reachable state [track_progress] changes nothing and never
    returns the success payload. *)
Lemma track_progress_never_tracks ag now student exercise_id c fb :
  Reachable ag ->
  fst (track_progress ag now student exercise_id c fb) = (ag, student)
  /\ forall r, snd (track_progress ag now student exercise_id c fb)
               <> Ok (Tracked r).
Proof.
  intros H. apply track_progress_without_attribute.
  now apply reachable_progress_records.
Qed.

End Reachability.

Lemma lowered_by_refl c l : Forall2 (lowered_by c) l l.
Proof.
  induction l as [| g l IH]; constructor; [| exact IH].
  split; [now left | apply Qle_refl].
Qed.

Lemma adjust_first_lowers skill_id c skills :
  0 <= c ->
  Forall (fun skill => storable (Skill.gap_level skill)) skills ->
  Forall2 (lowered_by c)
          (map Skill.gap_level (adjust_first skill_id c skills))
          (map Skill.gap_level skills).
Proof.
  intros Hc H. induction H as [| s l Hs Hl IH]; simpl; [constructor |].
  destruct (String.eqb _ _); simpl.
  - constructor; [| apply lowered_by_refl].
    split; [now right | now apply adjust_gap_le].
  - constructor; [| exact IH]. split; [now left | apply Qle_refl].
Qed.

Lemma update_gap_scan_lowers student_id subject skill_id c records :
  0 <= c ->
  Forall (fun skill => storable (Skill.gap_level skill))
         (flat_map record_skills records) ->
  Forall2 (lowered_by c)
    (map Skill.gap_level
         (flat_map record_skills
            (fst (update_gap_scan student_id subject skill_id c records))))
    (map Skill.gap_level (flat_map record_skills records)).
Proof.
  intros Hc. induction records as [| [key [a | p]] rest IH]; simpl; intros H.
  - constructor.
  - destruct (update_gap_scan _ _ _ _ rest) as [rest' r] eqn:E. simpl in *.
    apply Forall_app in H. destruct H as [Ha Hrest].
    rewrite !map_app. apply Forall2_app; [| now apply IH].
    unfold record_skills in *. simpl in *.
    destruct (_ && _); simpl; [now apply adjust_first_lowers |].
    apply lowered_by_refl.
  - destruct (String.eqb _ _); [apply lowered_by_refl |].
    destruct (update_gap_scan _ _ _ _ rest) as [rest' r] eqn:E. simpl in *.
    now apply IH.
Qed.

Lemma update_skill_gap_storable ag student subject skill_id c :
  gaps_satisfy storable ag ->
  gaps_satisfy storable (fst (_update_skill_gap ag student subject skill_id c)).
Proof.
  intros H. destruct (update_skill_gap_fields ag student subject skill_id c)
    as [-> _].
  unfold gaps_satisfy, stored_skills. simpl.
  apply (update_gap_scan_good storable (fun _ => True)); auto.
  intros g q _ _. split; [apply adjust_gap_on_grid | apply adjust_gap_nonneg].
Qed.

Lemma adjust_first_at skill_id c l1 skill l2 :
  Forall (fun s => Skill.id s <> skill_id) l1 ->
  Skill.id skill = skill_id ->
  adjust_first skill_id c (l1 ++ skill :: l2)
  = (l1 ++ Skill.set_gap_level skill
             (adjust_gap (Skill.gap_level skill) c) :: l2)%list.
Proof.
  intros Hl1 Hid. induction Hl1 as [| s l1 Hs _ IH]; simpl.
  - apply String.eqb_eq in Hid. now rewrite Hid.
  - apply String.eqb_neq in Hs. now rewrite Hs, IH.
Qed.

(** The record the scan leaves at the place of an assessment of the student
    and the subject that it reaches. *)
Lemma update_gap_scan_at student_id subject skill_id c pre key a post :
  ~ Exists (progress_of student_id) pre ->
  Assessment.student_id a = student_id ->
  Assessment.subject a = subject ->
  nth_error
    (fst (update_gap_scan student_id subject skill_id c
            (pre ++ (key, AssessmentRecord a) :: post)))
    (List.length pre)
  = Some (key,
          AssessmentRecord
            (Assessment.set_skills a
               (adjust_first skill_id c (Assessment.skills a)))).
Proof.
  intros Hno Hs Hsub.
  induction pre as [| [k [b | p]] pre IH]; cbn [app update_gap_scan].
  - apply String.eqb_eq in Hs, Hsub. rewrite Hs, Hsub. cbn [andb].
    destruct (update_gap_scan student_id subject skill_id c post).
    reflexivity.
  - destruct (update_gap_scan student_id subject skill_id c
                (pre ++ (key, AssessmentRecord a) :: post)) as [rest r].
    cbn [fst List.length nth_error] in *. apply IH.
    intros H. apply Hno. now right.
  - destruct (String.eqb (SkillProgress.student_id p) student_id) eqn:E.
    + exfalso. apply Hno. left. apply String.eqb_eq in E. exact E.
    + destruct (update_gap_scan student_id subject skill_id c
                  (pre ++ (key, AssessmentRecord a) :: post)) as [rest r].
      cbn [fst List.length nth_error] in *. apply IH.
      intros H. apply Hno. now right.
Qed.

(** C7.  Gap adjustment writes [round(max(0.0, gap - completion * 0.2), 2)]
    into the first skill of the given id of a record: after
    [_update_skill_gap], every assessment of the student and the subject
    that the scan reaches holds, at the place of that skill, the same skill
    with exactly this gap level, which is not above the old one.  In every
    state the agent can reach, and for every completion status in [0, 1],
    any number of repeated adjustments moves each stored gap level either
    not at all or to that value, and never upwards; a gap of 0.5 adjusted
    with completion 1.0 becomes 0.3. *)
Theorem gap_adjustment_never_increases
        (re_search : string -> string -> bool)
        (random_choice : list string -> string)
        (format_template : string -> string -> string -> string)
        (str_of_history : subject_history -> string)
        ag student subject skill_id c :
  Reachable re_search random_choice format_template str_of_history ag ->
  0 <= c <= 1 ->
  let adjust a := fst (_update_skill_gap a student subject skill_id c) in
  (forall g, adjust_gap g c == round_to_2 (Qmax 0 (g - c * 0.2)))
  /\ (forall l1 skill l2,
        Forall (fun s => Skill.id s <> skill_id) l1 ->
        Skill.id skill = skill_id ->
        adjust_first skill_id c (l1 ++ skill :: l2)
        = (l1 ++ Skill.set_gap_level skill
                   (adjust_gap (Skill.gap_level skill) c) :: l2)%list)
  /\ (forall n,
        Forall2 (lowered_by c)
                (stored_gaps (Nat.iter (S n) adjust ag))
                (stored_gaps (Nat.iter n adjust ag)))
  /\ (forall pre key a post l1 skill l2,
        skill_records ag = (pre ++ (key, AssessmentRecord a) :: post)%list ->
        ~ Exists (progress_of (Student.id student)) pre ->
        Assessment.student_id a = Student.id student ->
        Assessment.subject a = subject ->
        Assessment.skills a = (l1 ++ skill :: l2)%list ->
        Forall (fun s => Skill.id s <> skill_id) l1 ->
        Skill.id skill = skill_id ->
        exists skill',
          nth_error (skill_records (adjust ag)) (List.length pre)
          = Some (key,
                  AssessmentRecord
                    (Assessment.set_skills a (l1 ++ skill' :: l2)%list))
          /\ same_but_gap skill' skill
          /\ Skill.gap_level skill'
             == round_to_2 (Qmax 0 (Skill.gap_level skill - c * 0.2))
          /\ Skill.gap_level skill' <= Skill.gap_level skill)
  /\ adjust_gap 0.5 1 == 0.3.
Proof.
  intros Hreach [Hc0 Hc1] adjust. split; [| split; [| split; [| split]]].
  - intros g. apply adjust_gap_formula.
  - intros l1 skill l2 Hl1 Hid.
    induction Hl1 as [| s l1 Hs _ IH]; simpl.
    + apply String.eqb_eq in Hid. now rewrite Hid.
    + apply String.eqb_neq in Hs. now rewrite Hs, IH.
  - intros n.
    assert (Hst : gaps_satisfy storable (Nat.iter n adjust ag)).
    { induction n as [| n IH]; simpl.
      - eapply reachable_storable; eauto.
      - now apply update_skill_gap_storable. }
    simpl. unfold adjust at 1.
    destruct (update_skill_gap_fields (Nat.iter n adjust ag) student subject
                                      skill_id c) as [-> _].
    unfold stored_gaps, stored_skills. simpl.
    now apply update_gap_scan_lowers.
  - intros pre key a post l1 skill l2 Hrec Hno Hs Hsub Hskills Hl1 Hid.
    exists (Skill.set_gap_level skill (adjust_gap (Skill.gap_level skill) c)).
    split; [| split; [| split]].
    + unfold adjust.
      destruct (update_skill_gap_fields ag student subject skill_id c)
        as [-> _].
      cbn [skill_records set_skill_records]. rewrite Hrec.
      rewrite (update_gap_scan_at _ _ skill_id c pre key a post Hno Hs Hsub).
      now rewrite Hskills, (adjust_first_at skill_id c l1 skill l2 Hl1 Hid).
    + repeat split.
    + cbn [Skill.gap_level Skill.set_gap_level]. apply adjust_gap_formula.
    + cbn [Skill.gap_level Skill.set_gap_level].
      apply adjust_gap_le; [| exact Hc0].
      pose proof (reachable_storable _ _ _ _ ag Hreach) as Hst.
      unfold gaps_satisfy, stored_skills in Hst. rewrite Forall_forall in Hst.
      apply Hst. apply in_flat_map.
      exists (key, AssessmentRecord a). split.
      * rewrite Hrec. apply in_or_app. right. now left.
      * unfold record_skills. cbn [snd]. rewrite Hskills.
        apply in_or_app. right. now left.
  - reflexivity.
Qed.

(** ** The range of the gap levels *)

Lemma nonneg_scores_signal exercise_results :
  Forall (fun r => 0 <= match ExerciseResult.score r with
                        | Some s => s | None => 0 end) exercise_results ->
  0 <= skill_progress_level exercise_results.
Proof.
  intros H. unfold skill_progress_level.
  set (scores := map _ exercise_results).
  assert (Hs : Forall (fun q => 0 <= q) scores)
    by (subst scores; now apply Forall_map).
  assert (Havg : 0 <= match scores with [] => 0 | _ => Num.mean scores end).
  { destruct scores; [apply Qle_refl | now apply NumFacts.mean_nonneg]. }
  match goal with
  | |- 0 <= Num.py_min ?a ?b =>
      destruct (NumFacts.py_min_spec a b) as [[_ ->] | [_ ->]]
  end.
  - rewrite NumFacts.div_correct. apply Qle_shift_div_l; [reflexivity | lra].
  - discriminate.
Qed.


(** ** The difficulty of an exercise *)

Lemma level_factor_lookup s :
  dict_get_default s 0.0 level_factors = level_factor s.
Proof.
  unfold dict_get_default, level_factors, level_factor. cbn [dict_get].
  rewrite (String.eqb_sym "beginner"), (String.eqb_sym "intermediate"),
    (String.eqb_sym "advanced").
  destruct (String.eqb s "beginner"); [reflexivity |].
  destruct (String.eqb s "intermediate"); [reflexivity |].
  destruct (String.eqb s "advanced"); reflexivity.
Qed.

(** C5 (as amended).  The computed difficulty is
    [round(clamp(gap + 0.5 * progress + level_factor + min(attempts * 0.05,
    0.2), 0.1, 1.0), 2)] with the level factor read off the lower-cased level
    string (-0.1 beginner, 0.0 intermediate, +0.1 advanced, 0.0 otherwise),
    and it always lies between 0.1 and 1.0. *)
Theorem calculate_difficulty_formula_bounds g p skill_level attempts :
  _calculate_difficulty g p skill_level attempts
  == difficulty_formula (fun l => level_factor (Str.lower l))
                        g p skill_level attempts
  /\ 0.1 <= _calculate_difficulty g p skill_level attempts <= 1.0.
Proof.
  unfold _calculate_difficulty. rewrite level_factor_lookup.
  set (x := Num.add _ _). split.
  - unfold difficulty_formula, round_to_2, clamp, Num.round2.
    rewrite Qred_correct.
    match goal with
    | |- inject_Z (Num.round_half_even ?a) / _
         == inject_Z (Num.round_half_even ?b) / _ =>
        rewrite (NumFacts.round_half_even_comp a b); [reflexivity |]
    end.
    rewrite NumFacts.py_min_eq_Qmin, NumFacts.py_max_eq_Qmax.
    subst x. rewrite !NumFacts.add_correct, NumFacts.py_min_eq_Qmin,
      !NumFacts.mul_correct.
    assert (E : p * 0.5 == 0.5 * p) by ring. now rewrite E.
  - assert (Hlo : 0.1 <= Num.py_min (Num.py_max x 0.1) 1.0).
    { destruct (NumFacts.py_min_spec (Num.py_max x 0.1) 1.0) as [[_ ->] | [_ ->]];
        [discriminate |].
      destruct (NumFacts.py_max_spec x 0.1) as [[_ ->] | [H ->]];
        [apply Qle_refl | exact H]. }
    assert (Hhi : Num.py_min (Num.py_max x 0.1) 1.0 <= 1.0).
    { destruct (NumFacts.py_min_spec (Num.py_max x 0.1) 1.0) as [[_ ->] | [H ->]];
        [apply Qle_refl | exact H]. }
    split.
    + apply NumFacts.round2_ge_grid; [exists 10%Z; reflexivity | exact Hlo].
    + apply NumFacts.round2_le_grid; [exists 100%Z; reflexivity | exact Hhi].
Qed.

(** ** Which records gap adjustment touches *)

Lemma adjust_first_split skill_id c skills :
  (exists skill, In skill skills /\ Skill.id skill = skill_id) ->
  exists l1 skill l2,
    skills = (l1 ++ skill :: l2)%list
    /\ Forall (fun s => Skill.id s <> skill_id) l1
    /\ Skill.id skill = skill_id
    /\ adjust_first skill_id c skills
       = (l1 ++ Skill.set_gap_level skill
                  (adjust_gap (Skill.gap_level skill) c) :: l2)%list.
Proof.
  induction skills as [| s rest IH]; intros (skill & Hin & Hid).
  - destruct Hin.
  - simpl. destruct (String.eqb (Skill.id s) skill_id) eqn:E.
    + apply String.eqb_eq in E. exists [], s, rest. repeat split; auto.
    + apply String.eqb_neq in E. destruct Hin as [-> | Hin]; [contradiction |].
      destruct IH as (l1 & s' & l2 & -> & Hl1 & Hs' & Hadj);
        [now exists skill |].
      exists (s :: l1), s', l2. rewrite Hadj. repeat split; auto.
Qed.

Lemma adjust_first_absent skill_id c skills :
  Forall (fun s => Skill.id s <> skill_id) skills ->
  adjust_first skill_id c skills = skills.
Proof.
  induction 1 as [| s rest Hs _ IH]; simpl; [reflexivity |].
  apply String.eqb_neq in Hs. now rewrite Hs, IH.
Qed.

Lemma update_gap_scan_prefix student_id subject skill_id c pre rest :
  ~ Exists (progress_of student_id) pre ->
  fst (update_gap_scan student_id subject skill_id c (pre ++ rest))
  = (map (adjust_record student_id subject skill_id c) pre
     ++ fst (update_gap_scan student_id subject skill_id c rest))%list.
Proof.
  induction pre as [| [key [a | p]] pre IH]; intros Hno; simpl.
  - reflexivity.
  - destruct (update_gap_scan _ _ _ _ (pre ++ rest)) as [rest' r] eqn:E.
    simpl. f_equal.
    + unfold adjust_record. simpl. now destruct (_ && _).
    + apply IH. intros H. apply Hno. now right.
  - destruct (String.eqb (SkillProgress.student_id p) student_id) eqn:Es.
    + exfalso. apply Hno. left. apply String.eqb_eq in Es. exact Es.
    + destruct (update_gap_scan _ _ _ _ (pre ++ rest)) as [rest' r] eqn:E.
      simpl. f_equal. apply IH. intros H. apply Hno. now right.
Qed.

(** C2 (as amended).  [_update_skill_gap] visits the records in order, and
    each record it visits that is an assessment of the student and the
    subject has the gap level of its first skill with the given id adjusted,
    whether or not an earlier record was already adjusted: the [break] ends
    the loop over the skills of one record, not the scan of the records.
    Records of other students or subjects are left as they are.  (A record
    is visited when no skill-progress record of the student stands at or
    before it.) *)
Theorem update_skill_gap_adjusts_every_match
        ag student subject skill_id c pre r post :
  skill_records ag = (pre ++ r :: post)%list ->
  ~ Exists (progress_of (Student.id student)) (pre ++ [r]) ->
  let ag' := fst (_update_skill_gap ag student subject skill_id c) in
  let visit := adjust_record (Student.id student) subject skill_id c in
  (exists post', skill_records ag' = (map visit pre ++ visit r :: post')%list)
  /\ (gap_target (Student.id student) subject skill_id r ->
      exists a l1 skill l2,
        snd r = AssessmentRecord a
        /\ Assessment.skills a = (l1 ++ skill :: l2)%list
        /\ Forall (fun s => Skill.id s <> skill_id) l1
        /\ Skill.id skill = skill_id
        /\ visit r
           = (fst r,
              AssessmentRecord
                (Assessment.set_skills a
                   (l1 ++ Skill.set_gap_level skill
                            (adjust_gap (Skill.gap_level skill) c) :: l2)%list)))
  /\ (forall a,
        snd r = AssessmentRecord a ->
        Assessment.student_id a <> Student.id student
        \/ Assessment.subject a <> subject ->
        visit r = r).
Proof.
  intros Hrec Hno ag' visit. split; [| split].
  - subst ag'.
    destruct (update_skill_gap_fields ag student subject skill_id c) as [-> _].
    simpl. rewrite Hrec.
    rewrite update_gap_scan_prefix
      by (intros H; apply Hno; apply Exists_app; now left).
    assert (Hr : ~ progress_of (Student.id student) r)
      by (intros H; apply Hno; apply Exists_app; right; now left).
    destruct r as [key [a | p]]; simpl.
    + destruct (update_gap_scan _ _ _ _ post) as [post' res]. simpl.
      exists post'. f_equal. f_equal. subst visit.
      unfold adjust_record. simpl. now destruct (_ && _).
    + unfold progress_of in Hr. simpl in Hr. apply String.eqb_neq in Hr.
      rewrite Hr. destruct (update_gap_scan _ _ _ _ post) as [post' res].
      simpl. now exists post'.
  - intros Ht. destruct r as [key [a | p]]; [| destruct Ht].
    destruct Ht as (Hs & Hsub & Hskill). simpl in Hs, Hsub, Hskill.
    destruct (adjust_first_split skill_id c _ Hskill)
      as (l1 & skill & l2 & Hsk & Hl1 & Hid & Hadj).
    exists a, l1, skill, l2. repeat split; auto.
    subst visit. unfold adjust_record. simpl.
    apply String.eqb_eq in Hs, Hsub. now rewrite Hs, Hsub, Hadj.
  - intros a Ha Hdiff. subst visit. unfold adjust_record. rewrite Ha.
    destruct Hdiff as [H | H]; apply String.eqb_neq in H; rewrite H;
      [reflexivity | now rewrite andb_false_r].
Qed.

(** ** The fields of the identified skills *)

Lemma canned_skills_bare : Forall bare canned_skills.
Proof. repeat constructor. Qed.

Lemma lower_gap_of_named_same skill_name skills skills' :
  lower_gap_of_named skill_name skills = Some skills' ->
  Forall2 same_but_gap skills' skills.
Proof.
  assert (Hrefl : forall l, Forall2 same_but_gap l l)
    by (induction l; constructor; auto; repeat split).
  revert skills'. induction skills as [| s rest IH]; intros skills'; simpl.
  - discriminate.
  - destruct (String.eqb _ _).
    + intros [= <-]. constructor; [repeat split | apply Hrefl].
    + destruct (lower_gap_of_named skill_name rest) as [rest' |]; [| discriminate].
      intros [= <-]. constructor; [repeat split | now apply IH].
Qed.

Section Fields.

Variable re_search : string -> string -> bool.

Lemma analyse_entry_shape seeds subject tier content category skills item :
  canned_then_matched seeds skills ->
  canned_then_matched seeds
    (analyse_entry re_search subject tier content category skills item).
Proof.
  intros (ft & m & -> & Hft & Hm). unfold analyse_entry.
  destruct item as [skill_name info].
  destruct (_ || _); [| now exists ft, m].
  destruct (lower_gap_of_named skill_name (ft ++ m)) as [skills' |] eqn:E.
  - apply lower_gap_of_named_same in E.
    apply Forall2_app_inv_r in E. destruct E as (ft' & m' & Hft' & Hm' & ->).
    exists ft', m'. split; [reflexivity | split].
    + clear - Hft Hft'. revert seeds Hft.
      induction Hft' as [| a b la lb Hab _ IH]; intros seeds Hft.
      * exact Hft.
      * inversion Hft as [| ? seed ? seeds' [Hsame Hbare] Hrest]; subst.
        constructor; [| now apply IH].
        destruct Hab as (Hi & Hn & Hc & Hl).
        destruct Hsame as (Hi' & Hn' & Hc' & Hl').
        destruct Hbare as [Hb1 Hb2].
        repeat split; congruence.
    + clear - Hm Hm'. induction Hm' as [| a b la lb Hab _ IH].
      * constructor.
      * inversion Hm as [| ? ? [Hc Hl] Hrest]; subst.
        constructor; [| now apply IH].
        destruct Hab as (_ & _ & Hc' & Hl'). split; congruence.
  - exists ft, (m ++ [matched_skill subject tier category skill_name info])%list.
    split; [now rewrite app_assoc | split; [exact Hft |]].
    apply Forall_app. split; [exact Hm |].
    constructor; [split; discriminate | constructor].
Qed.

Lemma analyse_content_shape seeds subject tier content tax skills :
  canned_then_matched seeds skills ->
  canned_then_matched seeds
    (analyse_content re_search subject tier content tax skills).
Proof.
  unfold analyse_content. revert skills.
  induction tax as [| cat tax IH]; intros skills H; simpl; [exact H |].
  apply IH. generalize dependent skills.
  induction (snd cat) as [| item items IHi]; intros skills H; simpl; [exact H |].
  apply IHi. now apply analyse_entry_shape.
Qed.

End Fields.

(** C10 (as amended).  The list returned by [identify_skills] is the canned
    skills of the (subject, tier) pair, in order, followed by the skills
    matched in the content.  Every skill has [id], [name] and [gap_level];
    the matched skills also carry [category] and [level]; the canned skills
    carry neither of the two. *)
Theorem identify_skills_fields
        (re_search : string -> string -> bool) ag now student subject content :
  let tier := tier_of (dict_get_default subject 0.0 (Student.progress student)) in
  exists from_table matched,
    snd (identify_skills re_search ag now student subject content)
    = (from_table ++ matched)%list
    /\ Forall2 (fun skill seed => same_but_gap skill seed /\ bare skill)
               from_table (_map_skills_for_subject subject tier)
    /\ Forall has_all_fields matched.
Proof.
  intros tier.
  assert (Hseed : canned_then_matched
                    (_map_skills_for_subject subject tier)
                    (_map_skills_for_subject subject tier)).
  { exists (_map_skills_for_subject subject tier), []. rewrite app_nil_r.
    split; [reflexivity | split; [| constructor]].
    assert (Hb : Forall bare (_map_skills_for_subject subject tier)).
    { apply Forall_forall. intros skill Hin. apply canned_In in Hin.
      pose proof canned_skills_bare as Hall. rewrite Forall_forall in Hall.
      now apply Hall. }
    induction Hb as [| s l Hs _ IH]; constructor; auto.
    split; [repeat split | exact Hs]. }
  unfold identify_skills, identified_skills. simpl. fold tier.
  destruct content as [c |]; [| exact Hseed].
  destruct (truthy c); [| exact Hseed].
  now apply analyse_content_shape.
Qed.

(** ** Content analysis *)

Lemma lower_gap_of_named_found skill_name l1 skill l2 :
  Forall (fun s => ~ same_name skill_name s) l1 ->
  same_name skill_name skill ->
  lower_gap_of_named skill_name (l1 ++ skill :: l2)
  = Some (l1 ++ Skill.set_gap_level skill
                  (Num.py_min (Skill.gap_level skill) 0.2) :: l2)%list.
Proof.
  intros Hl1 Hs. induction Hl1 as [| s l1 Hns _ IH]; simpl.
  - unfold same_name in Hs. apply String.eqb_eq in Hs. now rewrite Hs.
  - unfold same_name in Hns. apply String.eqb_neq in Hns. now rewrite Hns, IH.
Qed.

Lemma lower_gap_of_named_none skill_name skills :
  Forall (fun s => ~ same_name skill_name s) skills ->
  lower_gap_of_named skill_name skills = None.
Proof.
  induction 1 as [| s l Hns _ IH]; simpl; [reflexivity |].
  unfold same_name in Hns. apply String.eqb_neq in Hns. now rewrite Hns, IH.
Qed.

(** A skill of another name goes through a step untouched. *)
Lemma lower_gap_of_named_keeps skill_name skills skills' skill :
  lower_gap_of_named skill_name skills = Some skills' ->
  ~ same_name skill_name skill ->
  In skill skills -> In skill skills'.
Proof.
  revert skills'. induction skills as [| s rest IH]; intros skills' E Hn Hin;
    simpl in E; [discriminate |].
  destruct (String.eqb (Str.lower (Skill.name s)) (Str.lower skill_name)) eqn:Es.
  - injection E as <-. destruct Hin as [-> | Hin]; [| now right].
    apply String.eqb_eq in Es. contradiction.
  - destruct (lower_gap_of_named skill_name rest) as [rest' |]; [| discriminate].
    injection E as <-. destruct Hin as [-> | Hin]; [now left | right].
    now apply IH.
Qed.

Section ContentAnalysis.

Variable re_search : string -> string -> bool.

Lemma content_matches_iff content info :
  keyword_found content info || pattern_found re_search content info = true
  <-> content_matches re_search content info.
Proof.
  unfold keyword_found, pattern_found, content_matches.
  rewrite orb_true_iff, !existsb_exists. reflexivity.
Qed.

Lemma analyse_content_entries subject tier content tax skills :
  analyse_content re_search subject tier content tax skills
  = fold_left (analysis_step re_search subject tier content) (entries tax) skills.
Proof.
  unfold analyse_content, entries. revert skills.
  induction tax as [| cat tax IH]; intros skills; simpl; [reflexivity |].
  rewrite fold_left_app, IH. f_equal.
  generalize skills. induction (snd cat) as [| item items IHi]; intros acc; simpl.
  - reflexivity.
  - now rewrite IHi.
Qed.

Lemma analysis_step_keeps subject tier content skills e skill :
  ~ same_name (fst (snd e)) skill ->
  In skill skills ->
  In skill (analysis_step re_search subject tier content skills e).
Proof.
  intros Hn Hin. unfold analysis_step, analyse_entry.
  destruct e as [category [skill_name info]]. simpl in *.
  destruct (_ || _); [| exact Hin].
  destruct (lower_gap_of_named skill_name skills) as [skills' |] eqn:E.
  - eapply lower_gap_of_named_keeps; eauto.
  - apply in_or_app. now left.
Qed.

Lemma analysis_keeps subject tier content es skills skill :
  Forall (fun e => ~ same_name (fst (snd e)) skill) es ->
  In skill skills ->
  In skill (fold_left (analysis_step re_search subject tier content) es skills).
Proof.
  intros H. revert skills. induction H as [| e es He _ IH]; intros skills Hin.
  - exact Hin.
  - simpl. apply IH. now apply analysis_step_keeps.
Qed.

Lemma analysis_step_matched subject tier content skills category skill_name info :
  content_matches re_search content info ->
  analysis_step re_search subject tier content skills
                (category, (skill_name, info))
  = match lower_gap_of_named skill_name skills with
    | Some skills' => skills'
    | None =>
        (skills ++ [matched_skill subject tier category skill_name info])%list
    end.
Proof.
  intros H. apply content_matches_iff in H.
  unfold analysis_step, analyse_entry. simpl. now rewrite H.
Qed.

End ContentAnalysis.

(** C6.  When [identify_skills] is given content, it goes through the
    taxonomy entries of the subject in order; at an entry that matches the
    content (a keyword occurs in it, or a pattern is found in it, letter case
    ignored), the first skill of that name (letter case ignored) already in
    the list gets [min(gap_level, 0.2)], and if there is none a skill with gap
    level 0.3, the category of the entry and its level (the tier when the
    entry has none) is appended; the list after the last entry is returned.
    With the default math taxonomy and the content "Let's practice
    addition: 2 + 3 = 5", the list returned for the subject math holds, for
    every student, the addition skill with gap 0.3 (no canned skill has that
    name). *)
Theorem identify_skills_content_analysis (re_search : string -> string -> bool) :
  (forall ag now student subject content pre category skill_name info post,
      truthy content = true ->
      entries (dict_get_default (Str.lower subject) [] (skill_taxonomies ag))
      = (pre ++ (category, (skill_name, info)) :: post)%list ->
      content_matches re_search content info ->
      let tier := tier_of (dict_get_default subject 0.0 (Student.progress student)) in
      let step := analysis_step re_search subject tier content in
      let before := fold_left step pre (_map_skills_for_subject subject tier) in
      let after := step before (category, (skill_name, info)) in
      (forall l1 skill l2,
          before = (l1 ++ skill :: l2)%list ->
          Forall (fun s => ~ same_name skill_name s) l1 ->
          same_name skill_name skill ->
          after = (l1 ++ Skill.set_gap_level skill
                           (Num.py_min (Skill.gap_level skill) 0.2) :: l2)%list)
      /\ (Forall (fun s => ~ same_name skill_name s) before ->
          after = (before
                   ++ [Skill.mk (skill_id_of subject skill_name) skill_name
                          (Some category) 0.3
                          (Some match SkillInfo.level info with
                                | Some l => l
                                | None => tier
                                end)])%list)
      /\ snd (identify_skills re_search ag now student subject (Some content))
         = fold_left step post after)
  /\ (forall ag now student,
        dict_get_default "math" [] (skill_taxonomies ag) = math_taxonomy ->
        In (Skill.mk "math_addition" "addition" (Some "arithmetic") 0.3
                     (Some "beginner"))
           (snd (identify_skills re_search ag now student "math" (Some practice)))).
Proof.
  assert (General :
    forall ag now student subject content pre category skill_name info post,
      truthy content = true ->
      entries (dict_get_default (Str.lower subject) [] (skill_taxonomies ag))
      = (pre ++ (category, (skill_name, info)) :: post)%list ->
      content_matches re_search content info ->
      let tier := tier_of (dict_get_default subject 0.0 (Student.progress student)) in
      let step := analysis_step re_search subject tier content in
      let before := fold_left step pre (_map_skills_for_subject subject tier) in
      let after := step before (category, (skill_name, info)) in
      (forall l1 skill l2,
          before = (l1 ++ skill :: l2)%list ->
          Forall (fun s => ~ same_name skill_name s) l1 ->
          same_name skill_name skill ->
          after = (l1 ++ Skill.set_gap_level skill
                           (Num.py_min (Skill.gap_level skill) 0.2) :: l2)%list)
      /\ (Forall (fun s => ~ same_name skill_name s) before ->
          after = (before
                   ++ [Skill.mk (skill_id_of subject skill_name) skill_name
                          (Some category) 0.3
                          (Some match SkillInfo.level info with
                                | Some l => l
                                | None => tier
                                end)])%list)
      /\ snd (identify_skills re_search ag now student subject (Some content))
         = fold_left step post after).
  { intros ag now student subject content pre category skill_name info post
           Hc Hent Hm tier step before after.
    split; [| split].
    - intros l1 skill l2 Hb Hl1 Hs. subst after step.
      rewrite analysis_step_matched by exact Hm.
      now rewrite Hb, lower_gap_of_named_found.
    - intros Hnone. subst after step.
      rewrite analysis_step_matched by exact Hm.
      now rewrite lower_gap_of_named_none.
    - unfold identify_skills, identified_skills. simpl. rewrite Hc.
      rewrite analyse_content_entries, Hent, fold_left_app. reflexivity. }
  split; [exact General |].
  intros ag now student Htax.
  assert (Hent : entries (dict_get_default (Str.lower "math") []
                                           (skill_taxonomies ag))
                 = ([] ++ ("arithmetic", ("addition", addition_entry))
                       :: tl (entries math_taxonomy))%list)
    by (change (Str.lower "math") with "math"; rewrite Htax; reflexivity).
  destruct (General ag now student "math" practice []
              "arithmetic" "addition" addition_entry
              (tl (entries math_taxonomy)) eq_refl Hent)
    as (_ & Happend & ->).
  { left. exists "add". split; [now left | reflexivity]. }
  apply analysis_keeps.
  - repeat constructor; unfold same_name; simpl; discriminate.
  - rewrite Happend.
    + apply in_or_app. right. now left.
    + simpl fold_left. apply Forall_forall. intros skill Hin.
      apply canned_In in Hin.
      assert (Hall : Forall (fun s => ~ same_name "addition" s) canned_skills)
        by (repeat constructor; unfold same_name; simpl; discriminate).
      rewrite Forall_forall in Hall. now apply Hall.
Qed.

(** ** The ranking of the recommendation *)

Lemma eqb_eq_Q a b : Num.eqb a b = true <-> a == b.
Proof.
  unfold Num.eqb. rewrite Qeq_alt. destruct (Qcompare a b); intuition congruence.
Qed.

Lemma insert_by_gap_perm s l : Permutation (s :: l) (insert_by_gap s l).
Proof.
  induction l as [| t l IH]; simpl; [reflexivity |].
  destruct (Num.ltb _ _); [| reflexivity].
  rewrite perm_swap. now constructor.
Qed.

Lemma sort_by_gap_desc_perm l : Permutation l (sort_by_gap_desc l).
Proof.
  induction l as [| s l IH]; simpl; [reflexivity |].
  rewrite <- insert_by_gap_perm. now constructor.
Qed.

Lemma insert_by_gap_sorted s l :
  StronglySorted gap_ge l -> StronglySorted gap_ge (insert_by_gap s l).
Proof.
  induction 1 as [| t l Hl IH Ht]; simpl.
  - repeat constructor.
  - destruct (Num.ltb (Skill.gap_level s) (Skill.gap_level t)) eqn:E.
    + constructor; [exact IH |].
      apply insert_by_gap_Forall; [| exact Ht].
      apply NumFacts.ltb_lt in E. unfold gap_ge. lra.
    + apply NumFacts.ltb_ge in E. constructor; [now constructor |].
      constructor; [exact E |].
      eapply Forall_impl; [| exact Ht]. unfold gap_ge. intros u Hu. lra.
Qed.

Lemma sort_by_gap_desc_sorted l : StronglySorted gap_ge (sort_by_gap_desc l).
Proof.
  induction l as [| s l IH]; simpl; [constructor |].
  now apply insert_by_gap_sorted.
Qed.

(** Skills of equal gap keep their order: the sort is stable. *)
Lemma insert_by_gap_stable g s l :
  filter (same_gap g) (insert_by_gap s l) = filter (same_gap g) (s :: l).
Proof.
  induction l as [| t l IH]; [reflexivity |].
  simpl insert_by_gap.
  destruct (Num.ltb (Skill.gap_level s) (Skill.gap_level t)) eqn:E;
    [| reflexivity].
  apply NumFacts.ltb_lt in E.
  cbn [filter]. cbn [filter] in IH. rewrite IH.
  destruct (same_gap g t) eqn:Et, (same_gap g s) eqn:Es; try reflexivity.
  exfalso. unfold same_gap in *. apply eqb_eq_Q in Et, Es. lra.
Qed.

Lemma sort_by_gap_desc_stable g l :
  filter (same_gap g) (sort_by_gap_desc l) = filter (same_gap g) l.
Proof.
  induction l as [| s l IH]; simpl; [reflexivity |].
  rewrite insert_by_gap_stable. simpl. now rewrite IH.
Qed.

Lemma exercises_from_skills ag student subject content history index targets
      (random_choice : list string -> string)
      (format_template : string -> string -> string -> string)
      (str_of_history : subject_history -> string) :
  Forall2 generated_from
          (exercises_from random_choice format_template str_of_history
                          ag student subject content history index targets)
          targets.
Proof.
  revert index. induction targets as [| skill rest IH]; intros index; simpl.
  - constructor.
  - constructor; [split; reflexivity | apply IH].
Qed.

Lemma recommend_exercises_targets
      (re_search : string -> string -> bool)
      (random_choice : list string -> string)
      (format_template : string -> string -> string -> string)
      (str_of_history : subject_history -> string)
      ag now student subject count content :
  Forall2 generated_from
    (snd (recommend_exercises re_search random_choice format_template
            str_of_history ag now student subject count content))
    (target_skills
       (snd (identify_skills re_search ag now student subject content)) count).
Proof.
  unfold recommend_exercises, identify_skills, target_skills. simpl.
  apply exercises_from_skills.
Qed.

(** C8 (as amended).  For a count that is not negative,
    [recommend_exercises] returns at most [count] exercises; they are
    generated, one each and in order, from the first [count] candidates in
    the ranking, where the candidates are the identified skills with
    [gap_level > 0.4], or all identified skills when there is none, and the
    ranking orders them by descending gap level and keeps skills of equal
    gap level in their earlier order. *)
Theorem recommend_exercises_selection
        (re_search : string -> string -> bool)
        (random_choice : list string -> string)
        (format_template : string -> string -> string -> string)
        (str_of_history : subject_history -> string)
        ag now student subject count content :
  (0 <= count)%Z ->
  let exercises :=
    snd (recommend_exercises re_search random_choice format_template
           str_of_history ag now student subject count content) in
  let skills := snd (identify_skills re_search ag now student subject content) in
  let candidates := candidate_skills skills in
  (Z.of_nat (List.length exercises) <= count)%Z
  /\ (forall skill,
        In skill (significant_gaps skills)
        <-> In skill skills /\ 0.4 < Skill.gap_level skill)
  /\ (significant_gaps skills <> [] -> candidates = significant_gaps skills)
  /\ (significant_gaps skills = [] -> candidates = skills)
  /\ exists ranked,
      Permutation candidates ranked
      /\ StronglySorted gap_ge ranked
      /\ (forall g, filter (same_gap g) ranked = filter (same_gap g) candidates)
      /\ Forall2 generated_from exercises (firstn (Z.to_nat count) ranked).
Proof.
  intros Hcount exercises skills candidates.
  pose proof (recommend_exercises_targets re_search random_choice
                format_template str_of_history ag now student subject
                count content) as Hgen.
  fold exercises skills in Hgen. unfold target_skills, slice_to in Hgen.
  fold candidates in Hgen.
  assert (Hle : (0 <=? count)%Z = true) by now apply Z.leb_le.
  rewrite Hle in Hgen.
  split; [| split; [| split; [| split]]].
  - apply Forall2_length in Hgen. rewrite Hgen, length_firstn. lia.
  - intros skill. unfold significant_gaps. rewrite filter_In.
    now rewrite NumFacts.ltb_lt.
  - intros Hsome. subst candidates. unfold candidate_skills.
    destruct (significant_gaps skills); [now destruct Hsome | reflexivity].
  - intros Hnone. subst candidates. unfold candidate_skills.
    now rewrite Hnone.
  - exists (sort_by_gap_desc candidates). repeat split.
    + apply sort_by_gap_desc_perm.
    + apply sort_by_gap_desc_sorted.
    + intros g. apply sort_by_gap_desc_stable.
    + exact Hgen.
Qed.

(** ** The success path of track_progress, were the attribute there *)

Lemma update_gap_scan_returns student_id subject skill_id c records :
  ~ Exists (progress_of student_id) records ->
  update_gap_scan student_id subject skill_id c records
  = (map (adjust_record student_id subject skill_id c) records, Ok tt).
Proof.
  induction records as [| [key [a | p]] rest IH]; intros Hno; simpl.
  - reflexivity.
  - rewrite IH by (intros H; apply Hno; now right).
    unfold adjust_record. simpl. now destruct (_ && _).
  - destruct (String.eqb (SkillProgress.student_id p) student_id) eqn:E.
    + exfalso. apply Hno. left. apply String.eqb_eq in E. exact E.
    + now rewrite IH by (intros H; apply Hno; now right).
Qed.

(** If something outside the class has set [progress_records], and the scan
    meets no skill-progress record of the student, a resolved exercise id is
    tracked as the specification says: the entry is stored, the progress of
    the subject becomes [min(previous + completion * 0.05, 1.0)], the gap of
    the skill is adjusted in every assessment of the student and subject, and
    both progress values are returned. *)
Lemma track_progress_with_attribute
      ag now student exercise_id c fb stored skill subject :
  progress_records ag = Some stored ->
  find_exercise (Student.id student) exercise_id (skill_records ag)
  = Ok (Some (skill, subject)) ->
  ~ Exists (progress_of (Student.id student)) (skill_records ag) ->
  let previous := dict_get_default subject 0.0 (Student.progress student) in
  let new := Num.py_min (Num.add previous (Num.mul c 0.05)) 1.0 in
  let progress_id := "progress_" ++ exercise_id ++ "_" ++ stamp now in
  exists ag',
    track_progress ag now student exercise_id c fb
    = (ag', Student.set_progress student subject new,
       Ok (Tracked (ProgressResult.mk progress_id (Student.id student) subject
                      previous new (Skill.name skill) c (isoformat now))))
    /\ skill_records ag'
       = map (adjust_record (Student.id student) subject (Skill.id skill) c)
             (skill_records ag)
    /\ progress_records ag'
       = Some (dict_set progress_id
                 (ProgressRecord.mk progress_id (Student.id student) exercise_id
                    (Skill.id skill) (Skill.name skill) subject (isoformat now)
                    c fb)
                 stored).
Proof.
  intros Hattr Hfind Hno previous new progress_id.
  unfold track_progress. rewrite Hfind, Hattr.
  match goal with
  | |- context [_update_skill_gap ?a ?st ?sub ?sk ?q] =>
      pose proof (update_skill_gap_fields a st sub sk q) as [Hf Hr];
      destruct (_update_skill_gap a st sub sk q) as [ag3 r]
  end.
  simpl in Hf, Hr. rewrite (update_gap_scan_returns _ _ _ _ _ Hno) in Hf, Hr.
  simpl in Hf, Hr. subst ag3 r.
  eexists. split; [reflexivity | split; reflexivity].
Qed.

(** * The statements at concrete inputs *)

(** C1 (code defect).  After one [identify_skills] call for the beginner in
    math, the exercise id ["exercise_math_fractions_0"] resolves to the
    fractions skill.  [track_progress] then reaches
    [self.progress_records[progress_id] = ...], an attribute that [__init__]
    never creates: it raises [AttributeError], stores no entry, leaves
    [student.progress], the learning histories and the gap levels as they
    were, and returns nothing. *)
Theorem track_progress_resolved_raises :
  resolves one_assessment beginner "exercise_math_fractions_0"
  /\ track_progress one_assessment later beginner "exercise_math_fractions_0"
                    1 (Some "done")
     = (one_assessment, beginner, Raise (AttributeError "progress_records")).
Proof.
  split; [| reflexivity].
  exists (assessment_id "s1" "math" noon),
         (Assessment.mk "s1" "math" (isoformat noon) 0.2 "beginner"
                        (_map_skills_for_subject "math" "beginner")),
         (canned "math_fractions" "Fractions" 0.5).
  repeat split; [now left | right; now left].
Qed.

(** C4 (code defect).  After [identify_skills] and one
    [track_skill_progress] call for the same student, the skill records hold
    a skill-progress record of the student.  No stored assessment resolves
    ["exercise_history_0"], yet [track_progress] does not return the
    "Exercise not found" payload: its scan indexes the skill-progress record
    with ["skills"] and raises [KeyError].  The state is left unchanged. *)
Theorem track_progress_unresolved_raises :
  let ag := fst (track_skill_progress one_assessment later beginner
                                      "math_fractions" good_result) in
  ~ resolves ag beginner "exercise_history_0"
  /\ track_progress ag later beginner "exercise_history_0" 1 None
     = (ag, beginner, Raise (KeyError "skills")).
Proof.
  split; [| reflexivity].
  intros (key & a & skill & Hin & _ & Hskill & Hprefix).
  vm_compute in Hin. destruct Hin as [E | [E | []]]; [| discriminate E].
  injection E as _ <-. vm_compute in Hskill.
  destruct Hskill as [<- | [<- | [<- | []]]]; discriminate Hprefix.
Qed.

(** C2, counterexample.  With two stored assessments of the beginner in math,
    adjusting the fractions gap changes the second record too. *)
Lemma update_skill_gap_reaches_duplicates :
  ~ first_match_only two_assessments beginner "math" "math_fractions" 1.
Proof.
  intros H.
  assert (Htarget : forall now,
             gap_target "s1" "math" "math_fractions" (beginner_assessment now)).
  { intros now. repeat split.
    exists (canned "math_fractions" "Fractions" 0.5).
    split; [right; now left | reflexivity]. }
  destruct (H [beginner_assessment noon] (beginner_assessment later) []
              eq_refl (Exists_cons_hd _ _ _ (Htarget noon)) (Htarget later))
    as (r' & Hnth & Hgaps).
  vm_compute in Hnth. injection Hnth as <-.
  vm_compute in Hgaps. discriminate Hgaps.
Qed.

Lemma update_skill_gap_adjusts_every_match_witness :
  skill_records two_assessments
  = ([beginner_assessment noon] ++ beginner_assessment later :: [])%list
  /\ ~ Exists (progress_of (Student.id beginner))
              ([beginner_assessment noon] ++ [beginner_assessment later])
  /\ exists post',
      skill_records
        (fst (_update_skill_gap two_assessments beginner "math"
                                "math_fractions" 1))
      = (map (adjust_record "s1" "math" "math_fractions" 1)
             [beginner_assessment noon]
         ++ adjust_record "s1" "math" "math_fractions" 1
                          (beginner_assessment later) :: post')%list.
Proof.
  assert (H1 : skill_records two_assessments
               = ([beginner_assessment noon]
                  ++ beginner_assessment later :: [])%list) by reflexivity.
  assert (H2 : ~ Exists (progress_of (Student.id beginner))
                        ([beginner_assessment noon] ++ [beginner_assessment later])).
  { intros H. apply Exists_exists in H. destruct H as (x & Hin & Hp).
    simpl in Hin. destruct Hin as [<- | [<- | []]]; exact Hp. }
  split; [exact H1 | split; [exact H2 |]].
  exact (proj1 (update_skill_gap_adjusts_every_match
                  two_assessments beginner "math" "math_fractions" 1
                  [beginner_assessment noon] (beginner_assessment later) []
                  H1 H2)).
Defined.

(** C5, counterexample.  The level string ["Beginner"] is not one of the
    three the formula names, yet the code gives it the beginner factor. *)
Lemma difficulty_level_ignores_case :
  ~ (_calculate_difficulty 0.5 0 "Beginner" 0
     == difficulty_formula level_factor 0.5 0 "Beginner" 0).
Proof. vm_compute. discriminate. Qed.

Lemma identify_skills_content_analysis_witness :
  truthy practice = true
  /\ content_matches no_match practice addition_entry
  /\ snd (identify_skills no_match fresh noon beginner "math" (Some practice))
     = fold_left (analysis_step no_match "math" "beginner" practice)
                 (tl (entries math_taxonomy))
                 (_map_skills_for_subject "math" "beginner"
                  ++ [Skill.mk "math_addition" "addition" (Some "arithmetic")
                               0.3 (Some "beginner")])%list.
Proof.
  assert (M : content_matches no_match practice addition_entry)
    by (left; exists "add"; split; [now left | reflexivity]).
  split; [reflexivity | split; [exact M |]].
  destruct (proj1 (identify_skills_content_analysis no_match)
                  fresh noon beginner "math" practice []
                  "arithmetic" "addition" addition_entry
                  (tl (entries math_taxonomy)) eq_refl eq_refl M)
    as (_ & Happend & Hret).
  rewrite Hret, Happend; [reflexivity |].
  repeat constructor; unfold same_name; simpl; discriminate.
Defined.

Lemma gap_adjustment_never_increases_witness :
  Reachable no_match first_choice keep_template blank_history two_assessments
  /\ 0 <= 1 <= 1
  /\ Forall2 (lowered_by 1)
             (stored_gaps (fst (_update_skill_gap two_assessments beginner
                                                  "math" "math_fractions" 1)))
             (stored_gaps two_assessments)
  /\ exists skill',
      nth_error
        (skill_records (fst (_update_skill_gap two_assessments beginner
                                               "math" "math_fractions" 1)))
        0
      = Some (assessment_id "s1" "math" noon,
              AssessmentRecord
                (Assessment.mk "s1" "math" (isoformat noon) 0.2 "beginner"
                   [ canned "math_basic_arithmetic" "Basic Arithmetic" 0.2;
                     skill';
                     canned "math_decimals" "Decimals" 0.4 ]))
      /\ same_but_gap skill' (canned "math_fractions" "Fractions" 0.5)
      /\ Skill.gap_level skill' == round_to_2 (Qmax 0 (0.5 - 1 * 0.2))
      /\ Skill.gap_level skill' <= 0.5.
Proof.
  assert (R : Reachable no_match first_choice keep_template blank_history
                        two_assessments).
  { exact (reach_call _ _ _ _ _ (IdentifySkills later beginner "math" None)
             (reach_call _ _ _ _ _ (IdentifySkills noon beginner "math" None)
                (reach_init _ _ _ _ default_taxonomies))). }
  assert (C : 0 <= 1 <= 1) by (split; discriminate).
  pose proof (gap_adjustment_never_increases
                no_match first_choice keep_template blank_history
                two_assessments beginner "math" "math_fractions" 1 R C)
    as (_ & _ & Hiter & Hat & _).
  split; [exact R | split; [exact C | split; [exact (Hiter 0%nat) |]]].
  apply (Hat [] (assessment_id "s1" "math" noon)
             (Assessment.mk "s1" "math" (isoformat noon) 0.2 "beginner"
                            (_map_skills_for_subject "math" "beginner"))
             [beginner_assessment later]
             [canned "math_basic_arithmetic" "Basic Arithmetic" 0.2]
             (canned "math_fractions" "Fractions" 0.5)
             [canned "math_decimals" "Decimals" 0.4]);
    try reflexivity.
  - intros H. inversion H.
  - constructor; [discriminate | constructor].
Defined.

(** C8, counterexample.  With [count = -1] the slice drops the last of the
    two candidates of the advanced student and one exercise comes back,
    which is more than [count]. *)
Lemma recommend_exercises_negative_count :
  ~ (Z.of_nat (List.length
                 (snd (recommend_exercises no_match first_choice keep_template
                         blank_history fresh noon advanced_student "math"
                         (-1) None)))
     <= -1)%Z.
Proof. vm_compute. intros H. now apply H. Qed.

Lemma recommend_exercises_selection_witness :
  (0 <= 3)%Z
  /\ map (fun skill => (Skill.id skill, Skill.gap_level skill))
         (snd (identify_skills no_match statistics_agent noon
                 intermediate_student "math" (Some summary)))
     = [ ("math_algebra", 0.3); ("math_geometry", 0.4);
         ("math_statistics", 0.2); ("math_area", 0.3) ]
  /\ significant_gaps
       (snd (identify_skills no_match statistics_agent noon
               intermediate_student "math" (Some summary)))
     = []
  /\ map Exercise.skill_id
         (snd (recommend_exercises no_match first_choice keep_template
                 blank_history statistics_agent noon intermediate_student
                 "math" 3 (Some summary)))
     = ["math_geometry"; "math_algebra"; "math_area"]
  /\ candidate_skills
       (snd (identify_skills no_match statistics_agent noon
               intermediate_student "math" (Some summary)))
     = snd (identify_skills no_match statistics_agent noon
              intermediate_student "math" (Some summary))
  /\ exists ranked,
      Permutation
        (candidate_skills
           (snd (identify_skills no_match statistics_agent noon
                   intermediate_student "math" (Some summary))))
        ranked
      /\ StronglySorted gap_ge ranked
      /\ (forall g,
            filter (same_gap g) ranked
            = filter (same_gap g)
                (candidate_skills
                   (snd (identify_skills no_match statistics_agent noon
                           intermediate_student "math" (Some summary)))))
      /\ Forall2 generated_from
           (snd (recommend_exercises no_match first_choice keep_template
                   blank_history statistics_agent noon intermediate_student
                   "math" 3 (Some summary)))
           (firstn (Z.to_nat 3) ranked).
Proof.
  assert (H : (0 <= 3)%Z) by discriminate.
  pose proof (recommend_exercises_selection
                no_match first_choice keep_template blank_history
                statistics_agent noon intermediate_student "math" 3
                (Some summary) H)
    as (_ & _ & _ & Hfallback & Hranked).
  split; [exact H |].
  split; [reflexivity |].
  split; [reflexivity |].
  split; [reflexivity |].
  split; [exact (Hfallback eq_refl) | exact Hranked].
Defined.



(** C10, counterexample.  Without content the beginner in math gets the three
    canned skills, and the first of them has no category. *)
Lemma canned_skills_lack_fields :
  ~ Forall has_all_fields
           (snd (identify_skills no_match fresh noon beginner "math" None)).
Proof.
  intros H. inversion H as [| skill rest [Hcategory _] _]; subst.
  now apply Hcategory.
Qed.

(** * Further properties of the agent *)

(** ** Lookups after stores *)

Section DictLookups.

Context {V : Type}.

Lemma dict_get_set_same (k : string) (v : V) d :
  dict_get k (dict_set k v d) = Some v.
Proof.
  induction d as [| [k' v'] d IH]; simpl.
  - now rewrite String.eqb_refl.
  - destruct (String.eqb k' k) eqn:E; simpl; now rewrite E.
Qed.

Lemma dict_get_set_other (k k' : string) (v : V) d :
  k' <> k -> dict_get k' (dict_set k v d) = dict_get k' d.
Proof.
  intros Hne. induction d as [| [k0 v0] d IH]; simpl.
  - assert (E : String.eqb k k' = false) by (apply String.eqb_neq; congruence).
    now rewrite E.
  - destruct (String.eqb k0 k) eqn:E; simpl.
    + apply String.eqb_eq in E. subst k0.
      assert (E' : String.eqb k k' = false) by (apply String.eqb_neq; congruence).
      now rewrite E'.
    + now rewrite IH.
Qed.

Lemma dict_set_keys (k : string) (v : V) d :
  map fst (dict_set k v d)
  = (if dict_mem k d then map fst d else map fst d ++ [k])%list.
Proof.
  unfold dict_mem.
  induction d as [| [k' v'] d IH]; cbn [dict_set dict_get map fst app];
    [reflexivity |].
  destruct (String.eqb k' k); cbn [map fst]; [reflexivity |].
  rewrite IH. now destruct (dict_get k d).
Qed.


Lemma dict_set_length (k : string) (v : V) d :
  List.length (dict_set k v d)
  = (List.length d + (if dict_mem k d then 0 else 1))%nat.
Proof.
  unfold dict_mem. induction d as [| [k' v'] d IH]; simpl; [reflexivity |].
  destruct (String.eqb k' k); simpl; [lia |].
  rewrite IH. destruct (dict_get k d); lia.
Qed.


Lemma dict_mem_set (k : string) (v : V) d : dict_mem k (dict_set k v d) = true.
Proof. unfold dict_mem. now rewrite dict_get_set_same. Qed.

Lemma dict_get_default_set_same (k : string) (v dflt : V) d :
  dict_get_default k dflt (dict_set k v d) = v.
Proof. unfold dict_get_default. now rewrite dict_get_set_same. Qed.

End DictLookups.

(** ** identify_skills *)

(** X1.  [identify_skills] files what it returns: afterwards the skill
    records hold, under the assessment id of the call, a record with the
    student, the subject, the progress level read, its tier and the very
    list of skills returned; every other key holds what it held; the store
    has grown by one record, or by none when the id was already in use; the
    taxonomies, the histories and [progress_records] are untouched. *)
Theorem identify_skills_files_its_result
        (re_search : string -> string -> bool) ag now student subject content :
  let key := assessment_id (Student.id student) subject now in
  let level := dict_get_default subject 0.0 (Student.progress student) in
  let ag' := fst (identify_skills re_search ag now student subject content) in
  let skills := snd (identify_skills re_search ag now student subject content) in
  dict_get key (skill_records ag')
  = Some (AssessmentRecord
            (Assessment.mk (Student.id student) subject (isoformat now)
                           level (tier_of level) skills))
  /\ (forall other,
        other <> key ->
        dict_get other (skill_records ag') = dict_get other (skill_records ag))
  /\ List.length (skill_records ag')
     = (List.length (skill_records ag)
        + (if dict_mem key (skill_records ag) then 0 else 1))%nat
  /\ skill_taxonomies ag' = skill_taxonomies ag
  /\ learning_histories ag' = learning_histories ag
  /\ progress_records ag' = progress_records ag.
Proof.
  intros key level ag' skills. subst ag' skills. unfold identify_skills. simpl.
  repeat split.
  - apply dict_get_set_same.
  - intros other Hne. now apply dict_get_set_other.
  - apply dict_set_length.
Qed.

Lemma unknown_subject_has_no_canned_skills subject tier :
  subject <> "math" -> subject <> "science" ->
  _map_skills_for_subject subject tier = [].
Proof.
  intros Hm Hs. unfold _map_skills_for_subject, dict_get_default, skill_map.
  cbn [dict_get].
  assert (Em : String.eqb "math" subject = false)
    by (apply String.eqb_neq; congruence).
  assert (Es : String.eqb "science" subject = false)
    by (apply String.eqb_neq; congruence).
  now rewrite Em, Es.
Qed.

(** X2.  The canned table knows the subjects ["math"] and ["science"], spelt
    exactly so.  For any other subject (["Math"], as the chat front end
    spells it, included) and no content, [identify_skills] returns the empty
    list, [recommend_exercises] returns no exercise whatever the count, and
    the development plan has no week. *)
Theorem unknown_subject_yields_nothing
        (re_search : string -> string -> bool)
        (random_choice : list string -> string)
        (format_template : string -> string -> string -> string)
        (str_of_history : subject_history -> string)
        ag now student subject content count :
  subject <> "math" -> subject <> "science" ->
  truthy_opt content = false ->
  snd (identify_skills re_search ag now student subject content) = []
  /\ snd (recommend_exercises re_search random_choice format_template
            str_of_history ag now student subject count content) = []
  /\ Plan.timeline
       (snd (generate_skill_development_plan re_search ag now student subject))
     = []
  /\ Plan.duration_weeks
       (snd (generate_skill_development_plan re_search ag now student subject))
     = 0%Z.
Proof.
  intros Hm Hs Hc.
  assert (Hid : forall c, truthy_opt c = false ->
                  identified_skills re_search ag student subject c = []).
  { intros c Hf. unfold identified_skills.
    rewrite (unknown_subject_has_no_canned_skills _ _ Hm Hs).
    destruct c as [c |]; [| reflexivity]. simpl in Hf. now rewrite Hf. }
  repeat split.
  - unfold identify_skills. simpl. now apply Hid.
  - unfold recommend_exercises, identify_skills. simpl.
    rewrite (Hid content Hc). simpl. unfold slice_to.
    destruct (0 <=? count)%Z; simpl; [now rewrite firstn_nil | reflexivity].
  - unfold generate_skill_development_plan, identify_skills.
    now rewrite (Hid None eq_refl).
  - unfold generate_skill_development_plan, identify_skills.
    now rewrite (Hid None eq_refl).
Qed.

Lemma unknown_subject_yields_nothing_witness :
  "Math" <> "math" /\ "Math" <> "science" /\ truthy_opt None = false
  /\ snd (recommend_exercises no_match first_choice keep_template blank_history
            fresh noon (Student.mk "demo" [("Math", 0.6)] []) "Math" 3 None)
     = [].
Proof.
  assert (H1 : "Math" <> "math") by discriminate.
  assert (H2 : "Math" <> "science") by discriminate.
  assert (H3 : truthy_opt None = false) by reflexivity.
  split; [exact H1 | split; [exact H2 | split; [exact H3 |]]].
  exact (proj1 (proj2 (unknown_subject_yields_nothing
                         no_match first_choice keep_template blank_history
                         fresh noon (Student.mk "demo" [("Math", 0.6)] [])
                         "Math" None 3 H1 H2 H3))).
Defined.

Lemma py_min_02_idempotent g :
  Num.py_min (Num.py_min g 0.2) 0.2 = Num.py_min g 0.2.
Proof.
  unfold Num.py_min at 2 3. destruct (Num.ltb 0.2 g) eqn:E.
  - reflexivity.
  - unfold Num.py_min. now rewrite E.
Qed.

Lemma lowered_from_refl seed : lowered_from seed seed.
Proof. repeat split; auto. apply Qle_refl. Qed.

Lemma lower_gap_of_named_lowers skill_name skills skills' :
  lower_gap_of_named skill_name skills = Some skills' ->
  Forall2 (fun s' s =>
             same_but_gap s' s
             /\ (Skill.gap_level s' = Skill.gap_level s
                 \/ Skill.gap_level s' = Num.py_min (Skill.gap_level s) 0.2))
          skills' skills.
Proof.
  assert (Hrefl : forall l,
             Forall2 (fun s' s =>
                        same_but_gap s' s
                        /\ (Skill.gap_level s' = Skill.gap_level s
                            \/ Skill.gap_level s'
                               = Num.py_min (Skill.gap_level s) 0.2)) l l)
    by (induction l; constructor; auto; repeat split; auto).
  revert skills'. induction skills as [| s rest IH]; intros skills'; simpl.
  - discriminate.
  - destruct (String.eqb _ _).
    + intros [= <-]. constructor; [| apply Hrefl]. repeat split. now right.
    + destruct (lower_gap_of_named skill_name rest) as [rest' |]; [| discriminate].
      intros [= <-]. constructor; [| now apply IH]. repeat split. now left.
Qed.

Section Lowering.

Variable re_search : string -> string -> bool.

Lemma analyse_entry_lowers seeds subject tier content category skills item :
  (exists from_table matched,
      skills = (from_table ++ matched)%list
      /\ Forall2 lowered_from from_table seeds
      /\ Forall matched_gap matched) ->
  exists from_table matched,
    analyse_entry re_search subject tier content category skills item
    = (from_table ++ matched)%list
    /\ Forall2 lowered_from from_table seeds
    /\ Forall matched_gap matched.
Proof.
  intros (ft & m & -> & Hft & Hm). unfold analyse_entry.
  destruct item as [skill_name info].
  destruct (_ || _); [| now exists ft, m].
  destruct (lower_gap_of_named skill_name (ft ++ m)) as [skills' |] eqn:E.
  - apply lower_gap_of_named_lowers in E.
    apply Forall2_app_inv_r in E. destruct E as (ft' & m' & Hft' & Hm' & ->).
    exists ft', m'. split; [reflexivity | split].
    + clear - Hft Hft'. revert seeds Hft.
      induction Hft' as [| a b la lb Hab _ IH]; intros seeds Hft.
      * exact Hft.
      * inversion Hft as [| ? seed ? seeds' Hlow Hrest]; subst.
        constructor; [| now apply IH].
        destruct Hab as ((Hi & Hn & Hc & Hl) & Hg).
        destruct Hlow as ((Hi' & Hn' & Hc' & Hl') & Hg' & Hle).
        split; [repeat split; congruence | split].
        -- destruct Hg as [-> | ->]; [exact Hg' |].
           destruct Hg' as [-> | ->]; [now right |].
           right. apply py_min_02_idempotent.
        -- destruct Hg as [-> | ->]; [exact Hle |].
           destruct (NumFacts.py_min_spec (Skill.gap_level b) 0.2)
             as [[H ->] | [H ->]]; [| exact Hle].
           apply Qlt_le_weak in H. now apply (Qle_trans _ _ _ H).
    + clear - Hm Hm'. induction Hm' as [| a b la lb Hab _ IH].
      * constructor.
      * inversion Hm as [| ? ? Hb Hrest]; subst.
        constructor; [| now apply IH].
        unfold matched_gap in *.
        destruct Hab as (_ & [-> | ->]); [exact Hb |].
        destruct Hb as [-> | ->]; now right.
  - exists ft, (m ++ [matched_skill subject tier category skill_name info])%list.
    split; [now rewrite app_assoc | split; [exact Hft |]].
    apply Forall_app. split; [exact Hm |].
    constructor; [now left | constructor].
Qed.

Lemma analyse_content_lowers seeds subject tier content tax skills :
  (exists from_table matched,
      skills = (from_table ++ matched)%list
      /\ Forall2 lowered_from from_table seeds
      /\ Forall matched_gap matched) ->
  exists from_table matched,
    analyse_content re_search subject tier content tax skills
    = (from_table ++ matched)%list
    /\ Forall2 lowered_from from_table seeds
    /\ Forall matched_gap matched.
Proof.
  unfold analyse_content. revert skills.
  induction tax as [| cat tax IH]; intros skills H; simpl; [exact H |].
  apply IH. generalize dependent skills.
  induction (snd cat) as [| item items IHi]; intros skills H; simpl; [exact H |].
  apply IHi. now apply analyse_entry_lowers.
Qed.

End Lowering.

(** X3.  Content analysis never raises a gap level and never drops or
    reorders a canned skill: the list returned by [identify_skills] starts
    with the canned skills of the tier, each with its seeded gap level or
    [min(seeded, 0.2)], and goes on with the matched skills, whose gap level
    is 0.3 or, when a later entry of the same name matched again, 0.2. *)
Theorem content_analysis_only_lowers
        (re_search : string -> string -> bool) ag now student subject content :
  let tier := tier_of (dict_get_default subject 0.0 (Student.progress student)) in
  exists from_table matched,
    snd (identify_skills re_search ag now student subject content)
    = (from_table ++ matched)%list
    /\ Forall2 lowered_from from_table (_map_skills_for_subject subject tier)
    /\ Forall matched_gap matched.
Proof.
  intros tier.
  assert (Hseed : exists from_table matched,
             _map_skills_for_subject subject tier = (from_table ++ matched)%list
             /\ Forall2 lowered_from from_table
                        (_map_skills_for_subject subject tier)
             /\ Forall matched_gap matched).
  { exists (_map_skills_for_subject subject tier), []. rewrite app_nil_r.
    split; [reflexivity | split; [| constructor]].
    induction (_map_skills_for_subject subject tier); constructor; auto.
    apply lowered_from_refl. }
  unfold identify_skills, identified_skills. simpl. fold tier.
  destruct content as [c |]; [| exact Hseed].
  destruct (truthy c); [| exact Hseed].
  now apply analyse_content_lowers.
Qed.

(** ** Learning histories *)

Lemma dict_get_default_unset {V : Type} (k k' : string) (dflt : V) d :
  dict_mem k d = false ->
  dict_get_default k' dflt (dict_set k dflt d) = dict_get_default k' dflt d.
Proof.
  unfold dict_mem, dict_get_default. intros Hk.
  destruct (String.eqb k' k) eqn:E.
  - apply String.eqb_eq in E. subst k'. rewrite dict_get_set_same.
    now destruct (dict_get k d).
  - apply String.eqb_neq in E. now rewrite dict_get_set_other.
Qed.

Lemma history_key_inj a b : "history_" ++ a = "history_" ++ b -> a = b.
Proof. simpl. now intros [= ->]. Qed.

(** [_get_learning_history] returns the nested lookup, leaves behind a dict
    in which that lookup finds what was returned, and changes no lookup by
    creating the missing levels. *)
Lemma get_learning_history_lookup ag student subject :
  let all := match learning_histories ag with Some h => h | None => [] end in
  let key := "history_" ++ Student.id student in
  snd (_get_learning_history ag student subject)
  = dict_get_default subject [] (dict_get_default key [] all)
  /\ (exists all',
        learning_histories (fst (_get_learning_history ag student subject))
        = Some all'
        /\ dict_get_default subject [] (dict_get_default key [] all')
           = snd (_get_learning_history ag student subject)
        /\ forall student_id subject' skill_id,
            history_lookup (Some all') student_id subject' skill_id
            = history_lookup (learning_histories ag) student_id subject' skill_id).
Proof.
  intros all key. unfold _get_learning_history, history_lookup.
  cbn [fst snd learning_histories set_learning_histories].
  fold all. fold key.
  assert (Hall : forall k,
             dict_get_default k []
               (if dict_mem key all then all else dict_set key [] all)
             = dict_get_default k ([] : list (string * subject_history)) all).
  { intros k. destruct (dict_mem key all) eqn:E; [reflexivity |].
    now apply dict_get_default_unset. }
  set (all1 := if dict_mem key all then all else dict_set key [] all) in *.
  set (mine := dict_get_default key [] all1).
  assert (Hmine : forall s,
             dict_get_default s []
               (if dict_mem subject mine then mine else dict_set subject [] mine)
             = dict_get_default s ([] : subject_history) mine).
  { intros s. destruct (dict_mem subject mine) eqn:E; [reflexivity |].
    now apply dict_get_default_unset. }
  set (mine1 := if dict_mem subject mine then mine else dict_set subject [] mine)
    in *.
  split.
  - rewrite Hmine. subst mine. now rewrite Hall.
  - exists (dict_set key mine1 all1). split; [reflexivity | split].
    + now rewrite dict_get_default_set_same.
    + intros student_id subject' skill_id.
      destruct (String.eqb ("history_" ++ student_id) key) eqn:E.
      * apply String.eqb_eq in E. rewrite E, dict_get_default_set_same, Hmine.
        subst mine. now rewrite Hall.
      * apply String.eqb_neq in E. unfold dict_get_default at 2.
        rewrite dict_get_set_other by exact E.
        fold (dict_get_default ("history_" ++ student_id) [] all1).
        now rewrite Hall.
Qed.

Lemma history_of_lookup ag student subject skill_id :
  history_of ag student subject skill_id
  = history_lookup (learning_histories ag) (Student.id student) subject skill_id.
Proof.
  unfold history_of, history_lookup.
  now destruct (get_learning_history_lookup ag student subject) as [-> _].
Qed.

Lemma update_learning_history_histories ag now student subject skill_id c fb :
  let history := snd (_get_learning_history ag student subject) in
  let key := "history_" ++ Student.id student in
  exists all',
    learning_histories (fst (_get_learning_history ag student subject))
    = Some all'
    /\ learning_histories
         (_update_learning_history ag now student subject skill_id c fb)
       = Some (dict_set key
                 (dict_set subject
                    (dict_set skill_id
                       (attempt_recorded now (dict_get skill_id history) c fb)
                       (if dict_mem skill_id history then history
                        else dict_set skill_id
                               (SkillHistory.mk 0 [] 0.0 None None) history))
                    (dict_get_default key [] all'))
                 all').
Proof.
  intros history key.
  destruct (get_learning_history_lookup ag student subject)
    as [_ (all' & Hall' & _)].
  exists all'. split; [exact Hall' |].
  subst history. unfold _update_learning_history.
  destruct (_get_learning_history ag student subject) as [ag1 h].
  cbn [fst snd] in *. unfold set_learning_histories.
  cbn [learning_histories]. rewrite Hall'. fold key.
  f_equal. f_equal. f_equal. f_equal.
  unfold attempt_recorded, dict_mem, dict_get_default.
  destruct (dict_get skill_id h) as [old |] eqn:Eh.
  - rewrite Eh. destruct fb; reflexivity.
  - rewrite dict_get_set_same. destruct fb; reflexivity.
Qed.

(** X4.  After [_update_learning_history] the entry of the skill holds one
    attempt more than before (one, when there was no entry), the completion
    status appended to the completions, their mean as average, the time of
    the call as last attempt, and the feedback appended when it is not
    empty; the entries of every other student, subject or skill, and the
    skill records, are what they were. *)
Theorem update_learning_history_records_attempt
        ag now student subject skill_id c fb :
  let ag' := _update_learning_history ag now student subject skill_id c fb in
  history_of ag' student subject skill_id
  = Some (attempt_recorded now (history_of ag student subject skill_id) c fb)
  /\ (forall student' subject' skill_id',
        (Student.id student', subject', skill_id')
        <> (Student.id student, subject, skill_id) ->
        history_of ag' student' subject' skill_id'
        = history_of ag student' subject' skill_id')
  /\ skill_records ag' = skill_records ag.
Proof.
  intros ag'. subst ag'.
  destruct (update_learning_history_histories ag now student subject
              skill_id c fb) as (all' & Hall' & Hupd).
  destruct (get_learning_history_lookup ag student subject)
    as [_ (all2 & Hall2 & Hsnd & Hsame)].
  rewrite Hall' in Hall2. injection Hall2 as <-.
  set (key := "history_" ++ Student.id student) in *.
  set (history := snd (_get_learning_history ag student subject)) in *.
  split; [| split].
  - rewrite history_of_lookup. unfold history_lookup. rewrite Hupd. fold key.
    now rewrite !dict_get_default_set_same, dict_get_set_same.
  - intros student' subject' skill_id' Hne.
    rewrite !history_of_lookup. rewrite <- Hsame.
    unfold history_lookup. rewrite Hupd.
    destruct (String.eqb ("history_" ++ Student.id student') key) eqn:Ek.
    + apply String.eqb_eq in Ek. rewrite Ek, dict_get_default_set_same.
      destruct (String.eqb subject' subject) eqn:Es.
      * apply String.eqb_eq in Es. subst subject'.
        rewrite dict_get_default_set_same, Hsnd.
        assert (Hsk : skill_id' <> skill_id).
        { intros ->. apply Hne. apply history_key_inj in Ek. now rewrite Ek. }
        rewrite dict_get_set_other by exact Hsk.
        destruct (dict_mem skill_id history); [reflexivity |].
        now rewrite dict_get_set_other.
      * apply String.eqb_neq in Es. unfold dict_get_default at 1.
        rewrite dict_get_set_other by exact Es. reflexivity.
    + apply String.eqb_neq in Ek. unfold dict_get_default at 2.
      rewrite dict_get_set_other by exact Ek. reflexivity.
  - reflexivity.
Qed.




(** ** The invariant of the learning histories *)

Lemma attempt_recorded_consistent now old c fb :
  (forall h, old = Some h ->
             SkillHistory.attempts h
             = Z.of_nat (List.length (SkillHistory.completions h))) ->
  history_consistent (attempt_recorded now old c fb).
Proof.
  intros Hold. unfold history_consistent, attempt_recorded. simpl.
  repeat split.
  - rewrite length_app. simpl.
    destruct old as [h |]; [rewrite (Hold h eq_refl) | simpl]; lia.
  - destruct (SkillHistory.completions _); discriminate.
  - discriminate.
Qed.

Lemma dict_set_overwrite {V : Type} (k : string) (v v' : V) d :
  dict_set k v (dict_set k v' d) = dict_set k v d.
Proof.
  induction d as [| [k0 v0] d IH]; simpl.
  - now rewrite String.eqb_refl.
  - destruct (String.eqb k0 k) eqn:E; simpl; rewrite E; [reflexivity |].
    now rewrite IH.
Qed.

Section HistoryInvariant.

Variable P : SkillHistory.t -> Prop.

Lemma histories_default_ok (all : histories) key :
  histories_satisfy P (Some all) ->
  Forall (fun by_subject : string * subject_history =>
            Forall (fun entry => P (snd entry)) (snd by_subject))
         (dict_get_default key [] all).
Proof.
  unfold histories_satisfy. intros H.
  destruct (dict_get_default_cases key [] all) as [-> | Hin].
  - constructor.
  - rewrite Forall_forall in H. exact (H _ Hin).
Qed.

Lemma subject_default_ok (mine : list (string * subject_history)) subject :
  Forall (fun by_subject : string * subject_history =>
            Forall (fun entry => P (snd entry)) (snd by_subject)) mine ->
  Forall (fun entry : string * SkillHistory.t => P (snd entry))
         (dict_get_default subject [] mine).
Proof.
  intros H. destruct (dict_get_default_cases subject [] mine) as [-> | Hin].
  - constructor.
  - rewrite Forall_forall in H. exact (H _ Hin).
Qed.

Lemma get_learning_history_keeps ag student subject :
  histories_satisfy P (learning_histories ag) ->
  histories_satisfy P
    (learning_histories (fst (_get_learning_history ag student subject)))
  /\ Forall (fun entry : string * SkillHistory.t => P (snd entry))
            (snd (_get_learning_history ag student subject)).
Proof.
  intros H.
  assert (H0 : histories_satisfy P
                 (Some match learning_histories ag with
                       | Some h => h | None => [] end))
    by (unfold histories_satisfy in *; exact H).
  unfold _get_learning_history.
  cbn [fst snd learning_histories set_learning_histories].
  set (all := match learning_histories ag with Some h => h | None => [] end) in *.
  set (key := "history_" ++ Student.id student).
  assert (H1 : histories_satisfy P
                 (Some (if dict_mem key all then all else dict_set key [] all))).
  { destruct (dict_mem key all); [exact H0 |].
    unfold histories_satisfy in *.
    apply dict_set_Forall; [exact H0 | constructor]. }
  set (all1 := if dict_mem key all then all else dict_set key [] all) in *.
  pose proof (histories_default_ok all1 key H1) as Hmine.
  set (mine := dict_get_default key [] all1) in *.
  assert (H2 : Forall (fun by_subject : string * subject_history =>
                         Forall (fun entry => P (snd entry)) (snd by_subject))
                      (if dict_mem subject mine then mine
                       else dict_set subject [] mine)).
  { destruct (dict_mem subject mine); [exact Hmine |].
    apply dict_set_Forall; [exact Hmine | constructor]. }
  split.
  - unfold histories_satisfy in *. apply dict_set_Forall; [exact H1 | exact H2].
  - now apply subject_default_ok.
Qed.

Hypothesis P_recorded :
  forall now old c fb,
    (forall h, old = Some h -> P h) -> P (attempt_recorded now old c fb).

Lemma update_learning_history_keeps ag now student subject skill_id c fb :
  histories_satisfy P (learning_histories ag) ->
  histories_satisfy P
    (learning_histories
       (_update_learning_history ag now student subject skill_id c fb)).
Proof.
  intros H.
  destruct (get_learning_history_keeps ag student subject H) as [Hfst Hsnd].
  destruct (update_learning_history_histories ag now student subject
              skill_id c fb) as (all' & Hall' & ->).
  rewrite Hall' in Hfst.
  set (history := snd (_get_learning_history ag student subject)) in *.
  assert (Hnew : Forall (fun entry : string * SkillHistory.t => P (snd entry))
                   (dict_set skill_id
                      (attempt_recorded now (dict_get skill_id history) c fb)
                      (if dict_mem skill_id history then history
                       else dict_set skill_id
                              (SkillHistory.mk 0 [] 0.0 None None) history))).
  { assert (E : dict_set skill_id
                  (attempt_recorded now (dict_get skill_id history) c fb)
                  (if dict_mem skill_id history then history
                   else dict_set skill_id
                          (SkillHistory.mk 0 [] 0.0 None None) history)
                = dict_set skill_id
                    (attempt_recorded now (dict_get skill_id history) c fb)
                    history).
    { destruct (dict_mem skill_id history); [reflexivity |].
      apply dict_set_overwrite. }
    rewrite E. apply dict_set_Forall; [exact Hsnd |].
    cbn [snd]. apply P_recorded. intros h Hh.
    apply dict_get_In in Hh. rewrite Forall_forall in Hsnd.
    exact (Hsnd _ Hh). }
  unfold histories_satisfy.
  apply dict_set_Forall; [exact Hfst |]. cbn [snd].
  apply dict_set_Forall; [now apply histories_default_ok | exact Hnew].
Qed.

End HistoryInvariant.

Lemma history_lookup_satisfies (P : SkillHistory.t -> Prop) all
      student_id subject skill_id h :
  histories_satisfy P all ->
  history_lookup all student_id subject skill_id = Some h -> P h.
Proof.
  unfold history_lookup. intros H Hh.
  assert (H0 : histories_satisfy P
                 (Some match all with Some a => a | None => [] end))
    by (unfold histories_satisfy in *; exact H).
  pose proof (histories_default_ok P _ ("history_" ++ student_id) H0) as H1.
  pose proof (subject_default_ok P _ subject H1) as H2.
  apply dict_get_In in Hh. rewrite Forall_forall in H2. exact (H2 _ Hh).
Qed.

Section HistoryRuns.

Variable re_search : string -> string -> bool.
Variable random_choice : list string -> string.
Variable format_template : string -> string -> string -> string.
Variable str_of_history : subject_history -> string.

Variable P : SkillHistory.t -> Prop.
Hypothesis P_recorded :
  forall now old c fb,
    (forall h, old = Some h -> P h) -> P (attempt_recorded now old c fb).

Lemma run_keeps_histories ag c :
  histories_satisfy P (learning_histories ag) ->
  histories_satisfy P
    (learning_histories
       (run re_search random_choice format_template str_of_history ag c)).
Proof.
  intros H. destruct c as [now student subject content
                          | now student subject count content
                          | now student exercise_id q fb
                          | now student skill_id results
                          | now student subject]; cbn [run].
  - exact H.
  - unfold recommend_exercises, identify_skills.
    match goal with
    | |- context [_get_learning_history ?a student subject] =>
        assert (Ha : learning_histories a = learning_histories ag)
          by (destruct (significant_gaps _); reflexivity);
        pose proof (get_learning_history_keeps P a student subject) as Hk;
        rewrite Ha in Hk; destruct (Hk H) as [Hfst _];
        destruct (_get_learning_history a student subject) as [ag3 h]
    end.
    exact Hfst.
  - unfold track_progress.
    destruct (find_exercise _ _ _) as [[[skill subject] |] | e];
      cbn [fst]; try exact H.
    destruct (progress_records ag) as [stored |]; cbn [fst]; [| exact H].
    match goal with
    | |- context [_update_skill_gap ?a ?st ?sub ?sk ?qq] =>
        pose proof (update_skill_gap_fields a st sub sk qq) as [Hf _];
        destruct (_update_skill_gap a st sub sk qq) as [ag3 r]
    end.
    cbn [fst] in Hf. subst ag3.
    assert (Hgoal : histories_satisfy P
              (learning_histories
                 (_update_learning_history
                    (set_progress_records ag
                       (dict_set ("progress_" ++ exercise_id ++ "_" ++ stamp now)
                          (ProgressRecord.mk
                             ("progress_" ++ exercise_id ++ "_" ++ stamp now)
                             (Student.id student) exercise_id (Skill.id skill)
                             (Skill.name skill) subject (isoformat now) q fb)
                          stored))
                    now
                    (Student.set_progress student subject
                       (Num.py_min
                          (Num.add (dict_get_default subject 0.0
                                      (Student.progress student))
                                   (Num.mul q 0.05)) 1.0))
                    subject (Skill.id skill) q fb)))
      by (apply update_learning_history_keeps; [exact P_recorded | exact H]).
    destruct r; exact Hgoal.
  - unfold track_skill_progress.
    destruct (find_subject _ _ _ _) as [[s |] | e]; cbn [fst]; try exact H.
    destruct (truthy s); cbn [fst]; [| exact H].
    match goal with
    | |- context [_update_skill_gap ?a ?st ?sub ?sk ?qq] =>
        pose proof (update_skill_gap_fields a st sub sk qq) as [Hf _];
        destruct (_update_skill_gap a st sub sk qq) as [ag3 r];
        assert (Hgoal : histories_satisfy P (learning_histories a))
          by (apply update_learning_history_keeps; [exact P_recorded | exact H])
    end.
    cbn [fst] in Hf. subst ag3. destruct r; exact Hgoal.
  - exact H.
Qed.

End HistoryRuns.

(** X6.  In every state the agent can reach, every learning-history entry
    that a lookup finds has exactly one completion per attempt and at least
    one attempt, carries the mean of its completions as average, and has its
    last attempt set. *)
Theorem reachable_histories_consistent
        (re_search : string -> string -> bool)
        (random_choice : list string -> string)
        (format_template : string -> string -> string -> string)
        (str_of_history : subject_history -> string)
        ag student subject skill_id h :
  Reachable re_search random_choice format_template str_of_history ag ->
  history_of ag student subject skill_id = Some h ->
  history_consistent h.
Proof.
  intros Hreach Hh. rewrite history_of_lookup in Hh.
  apply (history_lookup_satisfies history_consistent _ _ _ _ _) with (2 := Hh).
  clear Hh. induction Hreach as [taxonomies | ag c _ IH].
  - constructor.
  - apply run_keeps_histories; [| exact IH].
    intros now old q fb Hold. apply attempt_recorded_consistent.
    intros h0 Hh0. now destruct (Hold h0 Hh0) as [Ha _].
Qed.

Lemma reachable_histories_consistent_witness :
  Reachable no_match first_choice keep_template blank_history tracked_once
  /\ exists h,
      history_of tracked_once beginner "math" "math_fractions" = Some h
      /\ history_consistent h.
Proof.
  assert (R : Reachable no_match first_choice keep_template blank_history
                        tracked_once).
  { exact (reach_call _ _ _ _ _
             (TrackSkillProgress later beginner "math_fractions" good_result)
             (reach_call _ _ _ _ _ (IdentifySkills noon beginner "math" None)
                (reach_init _ _ _ _ default_taxonomies))). }
  split; [exact R |].
  destruct (history_of tracked_once beginner "math" "math_fractions")
    as [h |] eqn:E; [| vm_compute in E; discriminate E].
  exists h. split; [reflexivity |].
  exact (reachable_histories_consistent
           no_match first_choice keep_template blank_history
           tracked_once beginner "math" "math_fractions" h R E).
Defined.

(** ** The parts of an exercise *)

Lemma existsb_eqb_In (p : string) l :
  existsb (String.eqb p) l = true <-> In p l.
Proof.
  rewrite existsb_exists. split.
  - intros (x & Hin & E). apply String.eqb_eq in E. now subst.
  - intros H. exists p. split; [exact H | apply String.eqb_refl].
Qed.

Lemma known_level_cases (level : string) :
  (level = "beginner" \/ level = "intermediate" \/ level = "advanced")
  \/ (dict_get level level_appropriate = None
      /\ dict_get level default_types = None).
Proof.
  destruct (String.eqb "beginner" level) eqn:E1;
    [apply String.eqb_eq in E1; auto |].
  destruct (String.eqb "intermediate" level) eqn:E2;
    [apply String.eqb_eq in E2; auto |].
  destruct (String.eqb "advanced" level) eqn:E3;
    [apply String.eqb_eq in E3; auto |].
  right. unfold level_appropriate, default_types. cbn [dict_get].
  now rewrite E1, E2, E3.
Qed.

Lemma determine_exercise_type_cases skill student :
  let level := match Skill.level skill with Some l => l | None => "beginner" end in
  let suited := dict_get_default level [] level_appropriate in
  let chosen := _determine_exercise_type skill student in
  (exists preferred,
      dict_get "exercise_type" (Student.preferences student) = Some preferred
      /\ preferred <> "" /\ In preferred suited /\ chosen = preferred)
  \/ ((forall preferred,
          dict_get "exercise_type" (Student.preferences student) = Some preferred ->
          preferred = "" \/ ~ In preferred suited)
      /\ chosen = dict_get_default level "multiple_choice" default_types).
Proof.
  intros level suited chosen. subst chosen. unfold _determine_exercise_type.
  fold level. fold suited.
  destruct (dict_get "exercise_type" (Student.preferences student))
    as [preferred |]; [| right; split; [discriminate | reflexivity]].
  destruct (truthy preferred) eqn:T; simpl.
  - destruct (existsb (String.eqb preferred) suited) eqn:E.
    + left. exists preferred. apply existsb_eqb_In in E.
      unfold truthy in T. apply negb_true_iff, String.eqb_neq in T.
      repeat split; auto.
    + right. split; [| reflexivity]. intros p [= <-]. right.
      rewrite <- existsb_eqb_In. now rewrite E.
  - right. split; [| reflexivity]. intros p [= <-]. left.
    unfold truthy in T. apply negb_false_iff in T. now apply String.eqb_eq.
Qed.

(** X7.  The exercise type chosen for a skill is always one of the eight
    types the agent knows.  For the three level names it is a type suited to
    the level: the student's preferred type when that is suited, the default
    of the level otherwise.  For any other level string no preference is
    honoured and the type is ["multiple_choice"]. *)
Theorem exercise_type_fits_level skill student :
  let level := match Skill.level skill with Some l => l | None => "beginner" end in
  let chosen := _determine_exercise_type skill student in
  In chosen exercise_types
  /\ (forall suited,
        dict_get level level_appropriate = Some suited -> In chosen suited)
  /\ (forall preferred suited,
        dict_get "exercise_type" (Student.preferences student) = Some preferred ->
        dict_get level level_appropriate = Some suited ->
        In preferred suited ->
        chosen = preferred)
  /\ (dict_get level level_appropriate = None -> chosen = "multiple_choice").
Proof.
  intros level chosen.
  pose proof (determine_exercise_type_cases skill student) as Hcases.
  cbv zeta in Hcases. fold level chosen in Hcases.
  assert (Hsuited : forall suited,
             dict_get level level_appropriate = Some suited ->
             dict_get_default level [] level_appropriate = suited)
    by (intros suited E; unfold dict_get_default; now rewrite E).
  assert (Hnone : dict_get level level_appropriate = None ->
                  dict_get_default level [] level_appropriate = [])
    by (intros E; unfold dict_get_default; now rewrite E).
  destruct (known_level_cases level) as [Hknown | [Hno Hnod]].
  - assert (Hdefault :
              In (dict_get_default level "multiple_choice" default_types)
                 (dict_get_default level [] level_appropriate)
              /\ incl (dict_get_default level [] level_appropriate)
                      exercise_types
              /\ dict_get level level_appropriate <> None
              /\ ~ In "" (dict_get_default level [] level_appropriate)).
    { destruct Hknown as [-> | [-> | ->]]; repeat split;
        try (simpl; tauto); try discriminate;
        try (intros x Hx; simpl in Hx; simpl; tauto);
        try (simpl; intros H; repeat (destruct H as [H | H]; try discriminate H);
             exact H). }
    destruct Hdefault as (Hd & Hincl & Hsome & Hblank).
    repeat split.
    + destruct Hcases as [(p & _ & _ & Hin & ->) | [_ ->]];
        apply Hincl; assumption.
    + intros suited E. rewrite <- (Hsuited suited E).
      destruct Hcases as [(p & _ & _ & Hin & ->) | [_ ->]]; assumption.
    + intros preferred suited Ep E Hin.
      destruct Hcases as [(p & Ep' & _ & _ & ->) | [Hnot _]]; [congruence |].
      exfalso. rewrite <- (Hsuited suited E) in Hin.
      destruct (Hnot preferred Ep) as [-> | Hn]; [now apply Hblank | now apply Hn].
    + intros E. contradiction.
  - repeat split.
    + destruct Hcases as [(p & _ & _ & Hin & _) | [_ ->]].
      * rewrite (Hnone Hno) in Hin. destruct Hin.
      * unfold dict_get_default. rewrite Hnod. simpl. tauto.
    + intros suited E. congruence.
    + intros preferred suited _ E. congruence.
    + intros _. destruct Hcases as [(p & _ & _ & Hin & _) | [_ ->]].
      * rewrite (Hnone Hno) in Hin. destruct Hin.
      * unfold dict_get_default. now rewrite Hnod.
Qed.

Lemma exercise_type_fits_level_witness :
  dict_get "exercise_type" [("exercise_type", "problem_solving")]
  = Some "problem_solving"
  /\ _determine_exercise_type
       (Skill.mk "math_algebra" "Algebra" None 0.3 (Some "intermediate"))
       (Student.mk "s3" [] [("exercise_type", "problem_solving")])
     = "problem_solving".
Proof.
  split; [reflexivity |].
  exact (proj1 (proj2 (proj2 (exercise_type_fits_level
           (Skill.mk "math_algebra" "Algebra" None 0.3 (Some "intermediate"))
           (Student.mk "s3" [] [("exercise_type", "problem_solving")]))))
           "problem_solving"
           ["short_answer"; "multiple_choice"; "problem_solving"]
           eq_refl eq_refl (or_intror (or_intror (or_introl eq_refl)))).
Defined.

Lemma py_int_floor q : 0 <= q -> Num.py_int q = Qfloor q.
Proof.
  destruct q as [n d]. unfold Num.py_int, Qfloor, Qle. simpl. intros H.
  apply Z.quot_div_nonneg; lia.
Qed.

Lemma py_int_between (lo hi : Z) q :
  (0 <= lo)%Z -> inject_Z lo <= q -> q <= inject_Z hi ->
  (lo <= Num.py_int q <= hi)%Z.
Proof.
  intros Hlo H1 H2.
  assert (Hq : 0 <= q).
  { apply Qle_trans with (inject_Z lo); [| exact H1].
    change 0 with (inject_Z 0). now rewrite <- Zle_Qle. }
  rewrite (py_int_floor q Hq). split.
  - rewrite <- (Qfloor_Z lo). now apply Qfloor_resp_le.
  - rewrite <- (Qfloor_Z hi). now apply Qfloor_resp_le.
Qed.

Lemma base_time_cases exercise_type :
  exists base : Z,
    dict_get_default exercise_type 10 base_times = inject_Z base
    /\ (5 <= base <= 45)%Z.
Proof.
  destruct (dict_get_default_cases exercise_type 10 base_times) as [-> | Hin].
  - exists 10%Z. split; [reflexivity | lia].
  - set (v := dict_get_default exercise_type 10 base_times) in *.
    simpl in Hin.
    repeat (destruct Hin as [Hin | Hin];
            [injection Hin as _ <-; eexists; split; [reflexivity | lia] |]).
    destruct Hin.
Qed.

Lemma estimated_time_range difficulty exercise_type :
  0 <= difficulty <= 1 ->
  exists base : Z,
    dict_get_default exercise_type 10 base_times = inject_Z base
    /\ (5 <= base <= 45)%Z
    /\ (base <= _calculate_estimated_time difficulty exercise_type <= 2 * base)%Z.
Proof.
  intros [H0 H1]. destruct (base_time_cases exercise_type) as (base & E & Hb).
  exists base. split; [exact E | split; [exact Hb |]].
  unfold _calculate_estimated_time. rewrite E.
  assert (Hbq : 0 <= inject_Z base)
    by (change 0 with (inject_Z 0); rewrite <- Zle_Qle; lia).
  apply py_int_between; [lia | |];
    rewrite NumFacts.mul_correct, NumFacts.add_correct.
  - apply Qle_trans with (1 * inject_Z base); [rewrite Qmult_1_l; apply Qle_refl |].
    rewrite (Qmult_comm (inject_Z base)).
    apply Qmult_le_compat_r; [lra | exact Hbq].
  - rewrite inject_Z_mult, (Qmult_comm (inject_Z base)).
    apply Qmult_le_compat_r; [| exact Hbq].
    change (inject_Z 2) with 2. lra.
Qed.

(** X8.  For a difficulty between 0 and 1 the estimated time is the whole
    number of minutes of [base * (1 + difficulty)]: at least the base time of
    the exercise type and at most twice that, where the base time is between
    5 and 45 minutes (10 for a type the table does not know). *)
Theorem estimated_time_bounds difficulty exercise_type :
  0 <= difficulty <= 1 ->
  exists base : Z,
    dict_get_default exercise_type 10 base_times = inject_Z base
    /\ (5 <= base <= 45)%Z
    /\ (base <= _calculate_estimated_time difficulty exercise_type <= 2 * base)%Z
    /\ (dict_get exercise_type base_times = None -> base = 10%Z).
Proof.
  intros H. destruct (estimated_time_range difficulty exercise_type H)
    as (base & E & Hb & Ht).
  exists base. repeat split; try tauto; try lia.
  intros Hnone. unfold dict_get_default in E. rewrite Hnone in E.
  change 10 with (inject_Z 10) in E. injection E as E. lia.
Qed.

Lemma estimated_time_bounds_witness :
  0 <= 0.5 <= 1 /\ (25 <= _calculate_estimated_time 0.5 "essay" <= 50)%Z.
Proof.
  assert (H : 0 <= 0.5 <= 1) by (split; discriminate).
  split; [exact H |].
  destruct (estimated_time_bounds 0.5 "essay" H) as (base & E & _ & Ht & _).
  change (dict_get_default "essay" 10 base_times) with (inject_Z 25) in E.
  injection E as E. subst base. exact Ht.
Defined.

(** ** What recommend_exercises returns and leaves behind *)

Lemma prefix_append (a b : string) : String.prefix a (a ++ b) = true.
Proof.
  induction a as [| c a IH]; simpl.
  - now destruct b.
  - destruct (Ascii.ascii_dec c c) as [_ | N]; [exact IH | contradiction].
Qed.

Lemma in_firstn {A : Type} (x : A) n l : In x (firstn n l) -> In x l.
Proof.
  revert l. induction n as [| n IH]; intros l H; simpl in H; [destruct H |].
  destruct l as [| y l]; [destruct H |].
  destruct H as [<- | H]; [now left | right; now apply IH].
Qed.

Lemma Forall2_left_In {A B : Type} (R : A -> B -> Prop) (P : A -> Prop) l1 l2 :
  (forall a b, In b l2 -> R a b -> P a) -> Forall2 R l1 l2 -> Forall P l1.
Proof.
  intros H F. induction F as [| a b l1 l2 Hab _ IH]; constructor.
  - apply (H a b); [now left | exact Hab].
  - apply IH. intros a' b' Hin. apply H. now right.
Qed.

Lemma in_slice_to {A : Type} (x : A) count l : In x (slice_to count l) -> In x l.
Proof. unfold slice_to. destruct (0 <=? count)%Z; apply in_firstn. Qed.

Lemma calculate_difficulty_range g p skill_level attempts :
  0.1 <= _calculate_difficulty g p skill_level attempts <= 1.
Proof.
  unfold _calculate_difficulty.
  set (x := Num.add _ _).
  assert (Hlo : 0.1 <= Num.py_min (Num.py_max x 0.1) 1.0).
  { destruct (NumFacts.py_min_spec (Num.py_max x 0.1) 1.0) as [[_ ->] | [_ ->]];
      [discriminate |].
    destruct (NumFacts.py_max_spec x 0.1) as [[_ ->] | [H ->]];
      [apply Qle_refl | exact H]. }
  assert (Hhi : Num.py_min (Num.py_max x 0.1) 1.0 <= 1.0).
  { destruct (NumFacts.py_min_spec (Num.py_max x 0.1) 1.0) as [[_ ->] | [H ->]];
      [apply Qle_refl | exact H]. }
  split.
  - apply NumFacts.round2_ge_grid; [exists 10%Z; reflexivity | exact Hlo].
  - apply NumFacts.round2_le_grid; [exists 100%Z; reflexivity |].
    apply Qle_trans with 1.0; [exact Hhi | discriminate].
Qed.

Lemma determine_exercise_type_known skill student :
  In (_determine_exercise_type skill student) exercise_types.
Proof.
  pose proof (determine_exercise_type_cases skill student) as H.
  cbv zeta in H.
  set (level := match Skill.level skill with
                | Some l => l | None => "beginner" end) in *.
  assert (Hsuited : incl (dict_get_default level [] level_appropriate)
                         exercise_types).
  { destruct (dict_get_default_cases level [] level_appropriate) as [-> | Hin];
      [intros x [] |].
    set (v := dict_get_default level [] level_appropriate) in *.
    simpl in Hin.
    repeat (destruct Hin as [Hin | Hin];
            [injection Hin as _ <-; intros x Hx; simpl in Hx; simpl; tauto |]).
    destruct Hin. }
  assert (Hdefault : In (dict_get_default level "multiple_choice" default_types)
                        exercise_types).
  { destruct (dict_get_default_cases level "multiple_choice" default_types)
      as [-> | Hin]; [simpl; tauto |].
    set (v := dict_get_default level "multiple_choice" default_types) in *.
    simpl in Hin.
    repeat (destruct Hin as [Hin | Hin];
            [injection Hin as _ <-; simpl; tauto |]).
    destruct Hin. }
  destruct H as [(p & _ & _ & Hin & ->) | [_ ->]]; auto.
Qed.

Lemma skill_resources_length subject skill_name skill_level :
  (List.length (_get_skill_resources subject skill_name skill_level) = 2
   \/ List.length (_get_skill_resources subject skill_name skill_level) = 3)%nat.
Proof.
  unfold _get_skill_resources. destruct (_ || _); simpl; auto.
Qed.

Section Recommendation.

Variable re_search : string -> string -> bool.
Variable random_choice : list string -> string.
Variable format_template : string -> string -> string -> string.
Variable str_of_history : subject_history -> string.

Lemma exercises_from_sound ag student subject content history index targets :
  Forall2 (fun e skill =>
             exercise_sound subject e
             /\ Str.startswith (Exercise.id e) ("exercise_" ++ Skill.id skill)
                = true)
          (exercises_from random_choice format_template str_of_history
                          ag student subject content history index targets)
          targets.
Proof.
  revert index. induction targets as [| skill rest IH]; intros index; simpl.
  - constructor.
  - constructor; [| apply IH]. split.
    + unfold exercise_sound, exercise_for. cbn [Exercise.subject
        Exercise.difficulty Exercise.estimated_time_minutes
        Exercise.exercise_type Exercise.resources].
      pose proof (calculate_difficulty_range
                    (Skill.gap_level skill)
                    (dict_get_default subject 0 (Student.progress student))
                    (match Skill.level skill with
                     | Some l => l | None => "beginner" end)
                    (match dict_get (Skill.id skill) history with
                     | Some h => SkillHistory.attempts h
                     | None => 0%Z
                     end)) as [Hlo Hhi].
      split; [reflexivity | split; [split; assumption | split; [| split]]].
      * match goal with
        | |- (_ <= _calculate_estimated_time ?d ?t <= _)%Z =>
            destruct (estimated_time_range d t) as (base & _ & Hb & Ht)
        end.
        -- split; [| exact Hhi]. apply Qle_trans with 0.1; [discriminate | exact Hlo].
        -- lia.
      * apply determine_exercise_type_known.
      * apply skill_resources_length.
    + unfold exercise_for, Str.startswith. cbn [Exercise.id].
      change ("exercise_" ++ Skill.id skill ++ "_" ++ Str.of_nat index)
        with ("exercise_" ++ (Skill.id skill ++ "_" ++ Str.of_nat index)).
      assert (E : "exercise_" ++ (Skill.id skill ++ "_" ++ Str.of_nat index)
                  = ("exercise_" ++ Skill.id skill)
                    ++ ("_" ++ Str.of_nat index)).
      { simpl. repeat f_equal. }
      rewrite E. apply prefix_append.
Qed.

Lemma recommend_exercises_result ag now student subject count content :
  let skills := snd (identify_skills re_search ag now student subject content) in
  exists ag3 history,
    snd (recommend_exercises re_search random_choice format_template
           str_of_history ag now student subject count content)
    = exercises_from random_choice format_template str_of_history
                     ag3 student subject content history 0
                     (target_skills skills count).
Proof.
  unfold recommend_exercises, identify_skills, target_skills.
  cbn [fst snd].
  match goal with
  | |- context [_get_learning_history ?a student subject] =>
      destruct (_get_learning_history a student subject) as [ag3 h]
  end.
  now exists ag3, h.
Qed.

(** The record that [recommend_exercises] leaves under the assessment id. *)
Lemma recommend_exercises_records ag now student subject count content :
  let key := assessment_id (Student.id student) subject now in
  let level := dict_get_default subject 0.0 (Student.progress student) in
  let skills := snd (identify_skills re_search ag now student subject content) in
  let stored := match significant_gaps skills with
                | [] => sort_by_gap_desc skills
                | _ => skills
                end in
  skill_records
    (fst (recommend_exercises re_search random_choice format_template
            str_of_history ag now student subject count content))
  = dict_set key
      (AssessmentRecord
         (Assessment.mk (Student.id student) subject (isoformat now)
                        level (tier_of level) stored))
      (skill_records ag).
Proof.
  unfold recommend_exercises, identify_skills. cbn [fst snd].
  unfold candidate_skills.
  destruct (significant_gaps _) eqn:E; cbn [fst snd skill_records
    set_skill_records _get_learning_history set_learning_histories].
  - now rewrite dict_set_overwrite.
  - reflexivity.
Qed.

End Recommendation.

(** X9.  Every exercise [recommend_exercises] returns is for the subject
    asked, has a difficulty between 0.1 and 1.0, an estimated time between 5
    and 90 minutes, one of the eight exercise types and two or three
    resources. *)
Theorem recommended_exercises_sound
        (re_search : string -> string -> bool)
        (random_choice : list string -> string)
        (format_template : string -> string -> string -> string)
        (str_of_history : subject_history -> string)
        ag now student subject count content :
  Forall (exercise_sound subject)
         (snd (recommend_exercises re_search random_choice format_template
                 str_of_history ag now student subject count content)).
Proof.
  destruct (recommend_exercises_result re_search random_choice format_template
              str_of_history ag now student subject count content)
    as (ag3 & history & ->).
  pose proof (exercises_from_sound random_choice format_template str_of_history
                ag3 student subject content history 0
                (target_skills
                   (snd (identify_skills re_search ag now student subject content))
                   count)) as H.
  apply (Forall2_left_In _ _ _ _ (fun e skill _ He => proj1 He) H).
Qed.

(** X10.  The number of exercises is exactly [min(count, n)] for a count that
    is not negative and [max(0, n + count)] for a negative one, where [n] is
    the number of candidate skills; there is no candidate only when no skill
    was identified. *)
Theorem recommend_exercises_count
        (re_search : string -> string -> bool)
        (random_choice : list string -> string)
        (format_template : string -> string -> string -> string)
        (str_of_history : subject_history -> string)
        ag now student subject count content :
  let exercises :=
    snd (recommend_exercises re_search random_choice format_template
           str_of_history ag now student subject count content) in
  let skills := snd (identify_skills re_search ag now student subject content) in
  let n := Z.of_nat (List.length (candidate_skills skills)) in
  Z.of_nat (List.length exercises)
  = (if 0 <=? count then Z.min count n else Z.max 0 (n + count))%Z
  /\ (candidate_skills skills = [] <-> skills = []).
Proof.
  intros exercises skills n. split.
  - subst exercises.
    destruct (recommend_exercises_result re_search random_choice format_template
                str_of_history ag now student subject count content)
      as (ag3 & history & ->).
    pose proof (exercises_from_sound random_choice format_template
                  str_of_history ag3 student subject content history 0
                  (target_skills
                     (snd (identify_skills re_search ag now student subject
                                           content)) count)) as H.
    apply Forall2_length in H. rewrite H. fold skills.
    unfold target_skills, slice_to.
    assert (Hlen : List.length (sort_by_gap_desc (candidate_skills skills))
                   = List.length (candidate_skills skills))
      by (symmetry; apply Permutation_length, sort_by_gap_desc_perm).
    destruct (0 <=? count)%Z eqn:E; rewrite length_firstn, Hlen; subst n.
    + apply Z.leb_le in E. lia.
    + apply Z.leb_gt in E. lia.
  - unfold candidate_skills. destruct (significant_gaps skills) eqn:E.
    + reflexivity.
    + split; [discriminate |]. intros Hs. rewrite Hs in E. discriminate E.
Qed.

(** X11.  Every exercise id that [recommend_exercises] hands out resolves in
    the state it leaves: the skill records then hold an assessment of the
    student with a skill whose id, after ["exercise_"], prefixes the id of
    the exercise. *)
Theorem recommended_exercises_resolve
        (re_search : string -> string -> bool)
        (random_choice : list string -> string)
        (format_template : string -> string -> string -> string)
        (str_of_history : subject_history -> string)
        ag now student subject count content :
  let after :=
    fst (recommend_exercises re_search random_choice format_template
           str_of_history ag now student subject count content) in
  Forall (fun e => resolves after student (Exercise.id e))
         (snd (recommend_exercises re_search random_choice format_template
                 str_of_history ag now student subject count content)).
Proof.
  intros after.
  pose proof (recommend_exercises_records re_search random_choice
                format_template str_of_history ag now student subject
                count content) as Hrec.
  cbv zeta in Hrec. fold after in Hrec.
  destruct (recommend_exercises_result re_search random_choice format_template
              str_of_history ag now student subject count content)
    as (ag3 & history & ->).
  set (skills := snd (identify_skills re_search ag now student subject content))
    in *.
  set (stored := match significant_gaps skills with
                 | [] => sort_by_gap_desc skills
                 | _ => skills
                 end) in *.
  assert (Hstored : forall skill,
             In skill (target_skills skills count) -> In skill stored).
  { intros skill Hin. unfold target_skills in Hin. apply in_slice_to in Hin.
    apply (Permutation_in _ (Permutation_sym (sort_by_gap_desc_perm _))) in Hin.
    subst stored. unfold candidate_skills in Hin.
    destruct (significant_gaps skills) eqn:E.
    - apply (Permutation_in _ (sort_by_gap_desc_perm _)). exact Hin.
    - rewrite <- E in Hin. unfold significant_gaps in Hin.
      apply filter_In in Hin. tauto. }
  pose proof (exercises_from_sound random_choice format_template str_of_history
                ag3 student subject content history 0
                (target_skills skills count)) as H.
  apply (Forall2_left_In _ _ _ _) with (2 := H).
  intros e skill Hin [_ Hp].
  eexists _, _, skill. split; [| split; [| split]].
  - rewrite Hrec. apply dict_set_In.
  - reflexivity.
  - now apply Hstored.
  - exact Hp.
Qed.

(** X12.  A recommendation is also a write: afterwards the skill records
    hold, under the assessment id of the call, a record whose skills are the
    identified ones, in the order identified when some gap exceeds 0.4 and
    sorted by descending gap otherwise; every other key holds what it held,
    and no history entry has changed. *)
Theorem recommend_exercises_files_assessment
        (re_search : string -> string -> bool)
        (random_choice : list string -> string)
        (format_template : string -> string -> string -> string)
        (str_of_history : subject_history -> string)
        ag now student subject count content :
  let key := assessment_id (Student.id student) subject now in
  let after :=
    fst (recommend_exercises re_search random_choice format_template
           str_of_history ag now student subject count content) in
  let skills := snd (identify_skills re_search ag now student subject content) in
  (exists a,
      dict_get key (skill_records after) = Some (AssessmentRecord a)
      /\ Assessment.student_id a = Student.id student
      /\ Assessment.subject a = subject
      /\ Permutation skills (Assessment.skills a)
      /\ (significant_gaps skills <> [] -> Assessment.skills a = skills)
      /\ (significant_gaps skills = [] ->
          Assessment.skills a = sort_by_gap_desc skills))
  /\ (forall other,
        other <> key ->
        dict_get other (skill_records after) = dict_get other (skill_records ag))
  /\ (forall student' subject' skill_id,
        history_of after student' subject' skill_id
        = history_of ag student' subject' skill_id).
Proof.
  intros key after skills.
  pose proof (recommend_exercises_records re_search random_choice
                format_template str_of_history ag now student subject
                count content) as Hrec.
  cbv zeta in Hrec. fold after key skills in Hrec.
  split; [| split].
  - eexists. rewrite Hrec, dict_get_set_same. split; [reflexivity |].
    cbn [Assessment.student_id Assessment.subject Assessment.skills].
    repeat split.
    + destruct (significant_gaps skills);
        [apply sort_by_gap_desc_perm | reflexivity].
    + intros H. now destruct (significant_gaps skills).
    + intros H. now rewrite H.
  - intros other Hne. rewrite Hrec. now apply dict_get_set_other.
  - intros student' subject' skill_id. rewrite !history_of_lookup.
    subst after. unfold recommend_exercises, identify_skills. cbn [fst snd].
    match goal with
    | |- context [_get_learning_history ?a student subject] =>
        assert (Ha : learning_histories a = learning_histories ag)
          by (destruct (significant_gaps _); reflexivity);
        destruct (get_learning_history_lookup a student subject)
          as [_ (all' & Hall' & _ & Hsame)];
        destruct (_get_learning_history a student subject) as [ag3 h]
    end.
    cbn [fst] in *. rewrite Hall', Hsame, Ha. reflexivity.
Qed.

(** ** The development plan *)

Lemma combine_seq_fst {A B : Type} (f : nat -> B) (l : list A) start :
  map (fun p : nat * A => f (fst p)) (combine (seq start (List.length l)) l)
  = map f (seq start (List.length l)).
Proof.
  revert start. induction l as [| a l IH]; intros start; simpl; [reflexivity |].
  now rewrite IH.
Qed.

Lemma combine_seq_snd {A B : Type} (g : A -> B) (l : list A) start :
  map (fun p : nat * A => g (snd p)) (combine (seq start (List.length l)) l)
  = map g l.
Proof.
  revert start. induction l as [| a l IH]; intros start; simpl; [reflexivity |].
  now rewrite IH.
Qed.

Lemma firstn_sorted {A : Type} (R : A -> A -> Prop) n l :
  StronglySorted R l -> StronglySorted R (firstn n l).
Proof.
  intros H. revert n. induction H as [| a l Hl IH Ha]; intros [| n]; simpl;
    try constructor.
  - apply IH.
  - apply Forall_forall. intros x Hx. rewrite Forall_forall in Ha.
    apply Ha. revert Hx. clear. revert l.
    induction n as [| n IHn]; intros l Hx; simpl in Hx; [destruct Hx |].
    destruct l as [| y l]; [destruct Hx |].
    destruct Hx as [<- | Hx]; [now left | right; now apply IHn].
Qed.

(** X13.  The development plan schedules the skills identified without
    content, largest gap first and skills of equal gap in their identified
    order, one per week: it has [min(5, number of skills)] weeks, numbered
    from 1, its duration is that number, its priority list names the skills
    of the weeks in order, every week aims at an improvement of 0.2, and the
    target level is [min(1.0, current + 0.3)].  The call leaves the agent as
    [identify_skills] without content does. *)
Theorem development_plan_shape
        (re_search : string -> string -> bool) ag now student subject :
  let plan :=
    snd (generate_skill_development_plan re_search ag now student subject) in
  let skills := snd (identify_skills re_search ag now student subject None) in
  let scheduled := firstn 5 (sort_by_gap_desc skills) in
  let weeks := Nat.min 5 (List.length skills) in
  let current := dict_get_default subject 0.0 (Student.progress student) in
  List.length (Plan.timeline plan) = weeks
  /\ Plan.duration_weeks plan = Z.of_nat weeks
  /\ map Plan.week_no (Plan.timeline plan)
     = map (fun i => Z.of_nat (S i)) (seq 0 weeks)
  /\ map Plan.week_skill_id (Plan.timeline plan) = map Skill.id scheduled
  /\ map Plan.week_skill_name (Plan.timeline plan) = map Skill.name scheduled
  /\ Plan.priority_skills plan = map Skill.id scheduled
  /\ StronglySorted gap_ge scheduled
  /\ (forall g, filter (same_gap g) (sort_by_gap_desc skills)
                = filter (same_gap g) skills)
  /\ Forall (fun week => Plan.target_improvement week = 0.2) (Plan.timeline plan)
  /\ Plan.current_level plan = current
  /\ Plan.target_level plan == Qmin 1 (current + 0.3)
  /\ fst (generate_skill_development_plan re_search ag now student subject)
     = fst (identify_skills re_search ag now student subject None).
Proof.
  intros plan skills scheduled weeks current.
  assert (Hlen : List.length scheduled = weeks).
  { subst scheduled weeks. rewrite length_firstn.
    now rewrite <- (Permutation_length (sort_by_gap_desc_perm skills)). }
  subst plan. unfold generate_skill_development_plan, identify_skills.
  cbn [fst snd Plan.timeline Plan.duration_weeks Plan.priority_skills
       Plan.current_level Plan.target_level].
  unfold identify_skills in skills. cbn [snd] in skills.
  fold skills. fold scheduled. fold current.
  repeat split.
  - now rewrite length_map, length_combine, length_seq, Nat.min_id.
  - now rewrite Hlen.
  - rewrite map_map. cbn [Plan.week_no].
    rewrite (combine_seq_fst (fun i => Z.of_nat (S i))). now rewrite Hlen.
  - rewrite map_map. cbn [Plan.week_skill_id].
    apply (combine_seq_snd Skill.id).
  - rewrite map_map. cbn [Plan.week_skill_name].
    apply (combine_seq_snd Skill.name).
  - apply firstn_sorted, sort_by_gap_desc_sorted.
  - intros g. apply sort_by_gap_desc_stable.
  - apply Forall_map. apply Forall_forall. now intros.
  - rewrite NumFacts.py_min_eq_Qmin, NumFacts.add_correct.
    assert (E : 1.0 == 1) by reflexivity. now rewrite E.
Qed.

(** ** recommend_skill_exercises *)

(** X14.  [recommend_skill_exercises] passes the skill id to
    [_get_skill_info] where the category is expected and gives it neither a
    skill name nor a skill id, so the lookup finds nothing: whatever the
    state, the student, the subject and the skill id, the function returns
    the empty list, and the code that builds its exercises is never run. *)
Theorem recommend_skill_exercises_is_empty
        (str_of_skill : Skill.t -> string) ag student subject skill_id :
  _get_skill_info_full ag subject (Some skill_id) None None = None
  /\ recommend_skill_exercises str_of_skill ag student subject skill_id = Ok [].
Proof.
  assert (H : _get_skill_info_full ag subject (Some skill_id) None None = None).
  { unfold _get_skill_info_full, _get_skill_info. cbn [truthy_opt or_empty].
    destruct (dict_get subject (skill_taxonomies ag)) as [tax |];
      [| reflexivity].
    assert (T : truthy "" = false) by reflexivity.
    rewrite T, andb_false_r. reflexivity. }
  split; [exact H |].
  unfold recommend_skill_exercises. now rewrite H.
Qed.

(** ** What gap adjustment changes, and where it leads *)

Lemma same_but_gap_refl skill : same_but_gap skill skill.
Proof. repeat split. Qed.

Lemma same_but_gaps_refl r : same_but_gaps r r.
Proof.
  split; [reflexivity |]. destruct (snd r) as [a | p]; [| reflexivity].
  repeat split. induction (Assessment.skills a); constructor;
    [apply same_but_gap_refl | assumption].
Qed.

Lemma adjust_first_same skill_id c skills :
  Forall2 same_but_gap (adjust_first skill_id c skills) skills.
Proof.
  induction skills as [| skill rest IH]; simpl; [constructor |].
  destruct (String.eqb (Skill.id skill) skill_id).
  - constructor; [repeat split |].
    clear. induction rest; constructor; [apply same_but_gap_refl | assumption].
  - constructor; [apply same_but_gap_refl | exact IH].
Qed.

Lemma adjust_record_same student_id subject skill_id c r :
  same_but_gaps (adjust_record student_id subject skill_id c r) r.
Proof.
  destruct r as [key [a | p]]; unfold adjust_record; cbn [snd fst].
  - destruct (String.eqb (Assessment.student_id a) student_id
              && String.eqb (Assessment.subject a) subject).
    + split; [reflexivity |]. cbn [snd Assessment.set_skills
        Assessment.student_id Assessment.subject Assessment.timestamp
        Assessment.current_level Assessment.tier Assessment.skills].
      repeat split. apply adjust_first_same.
    + apply same_but_gaps_refl.
  - apply same_but_gaps_refl.
Qed.

Lemma update_gap_scan_records student_id subject skill_id c records :
  Forall2 (fun r' r => r' = r
                       \/ r' = adjust_record student_id subject skill_id c r)
          (fst (update_gap_scan student_id subject skill_id c records))
          records.
Proof.
  induction records as [| [key [a | p]] rest IH]; simpl.
  - constructor.
  - destruct (update_gap_scan student_id subject skill_id c rest)
      as [rest' r]. cbn [fst] in *.
    constructor; [| exact IH]. right. unfold adjust_record. cbn [snd fst].
    now destruct (String.eqb (Assessment.student_id a) student_id
                  && String.eqb (Assessment.subject a) subject).
  - destruct (String.eqb (SkillProgress.student_id p) student_id).
    + cbn [fst]. constructor; [now left |].
      clear. induction rest; constructor; [now left | assumption].
    + destruct (update_gap_scan student_id subject skill_id c rest)
        as [rest' r]. cbn [fst] in *.
      constructor; [now left | exact IH].
Qed.

Lemma same_but_gaps_keys records' records :
  Forall2 same_but_gaps records' records -> map fst records' = map fst records.
Proof.
  intros H. induction H as [| r' r l' l [Hk _] _ IH]; [reflexivity |].
  simpl. now rewrite Hk, IH.
Qed.

(** X15.  Whatever its arguments and whether it returns or raises,
    [_update_skill_gap] touches nothing but gap levels: the store keeps its
    records in number, order and keys, every record comes out either as it
    was or with the first skill of the given id adjusted (and then only in an
    assessment of this student and subject), so it differs from the one
    before at most in the gap levels of its skills; the taxonomies, the
    learning histories and the progress records are left alone. *)
Theorem update_skill_gap_changes_only_gaps ag student subject skill_id c :
  let ag' := fst (_update_skill_gap ag student subject skill_id c) in
  Forall2 (fun r' r =>
             r' = r
             \/ r' = adjust_record (Student.id student) subject skill_id c r)
          (skill_records ag') (skill_records ag)
  /\ Forall2 same_but_gaps (skill_records ag') (skill_records ag)
  /\ map fst (skill_records ag') = map fst (skill_records ag)
  /\ skill_taxonomies ag' = skill_taxonomies ag
  /\ learning_histories ag' = learning_histories ag
  /\ progress_records ag' = progress_records ag.
Proof.
  intros ag'. subst ag'.
  destruct (update_skill_gap_fields ag student subject skill_id c) as [-> _].
  cbn [skill_records set_skill_records skill_taxonomies learning_histories
       progress_records].
  pose proof (update_gap_scan_records (Student.id student) subject skill_id c
                (skill_records ag)) as H.
  assert (Hsame : Forall2 same_but_gaps
            (fst (update_gap_scan (Student.id student) subject skill_id c
                    (skill_records ag)))
            (skill_records ag)).
  { revert H. apply Forall2_impl. intros r' r [-> | ->];
      [apply same_but_gaps_refl | apply adjust_record_same]. }
  repeat split; try assumption.
  now apply same_but_gaps_keys.
Qed.

Lemma round_to_2_comp p q : p == q -> round_to_2 p == round_to_2 q.
Proof.
  intros E. unfold round_to_2.
  assert (E' : p * 100 == q * 100) by now rewrite E.
  now rewrite (NumFacts.round_half_even_comp _ _ E').
Qed.

Lemma round_to_2_grid q : Num.on_grid q -> round_to_2 q == q.
Proof.
  intros H. rewrite <- (NumFacts.round2_grid q H) at 2.
  unfold Num.round2. now rewrite Qred_correct.
Qed.

Lemma adjust_gap_comp g g' c : g == g' -> adjust_gap g c == adjust_gap g' c.
Proof.
  intros E. rewrite !adjust_gap_formula. apply round_to_2_comp.
  now rewrite E.
Qed.

Lemma on_grid_comp p q : p == q -> Num.on_grid p -> Num.on_grid q.
Proof. intros E [k Hk]. exists k. now rewrite <- E. Qed.

Lemma on_grid_step g n :
  Num.on_grid g -> Num.on_grid (Qmax 0 (g - 0.2 * inject_Z n)).
Proof.
  intros [k Hk].
  destruct (Q.max_spec 0 (g - 0.2 * inject_Z n)) as [[_ E] | [_ E]].
  - apply (on_grid_comp (inject_Z (k + - (20 * n)) / 100)).
    + rewrite E, Hk. rewrite inject_Z_plus, inject_Z_opp, inject_Z_mult.
      change (inject_Z 20) with 20. field.
    + now exists (k + - (20 * n))%Z.
  - apply (on_grid_comp (inject_Z 0 / 100)); [now rewrite E |].
    now exists 0%Z.
Qed.

Lemma full_completions_iter g n :
  storable g ->
  Nat.iter n (fun x => adjust_gap x 1) g
  == Qmax 0 (g - 0.2 * inject_Z (Z.of_nat n)).
Proof.
  intros [Hgrid Hpos]. induction n as [| n IH].
  - simpl. assert (E : g - 0.2 * inject_Z 0 == g) by (simpl; ring).
    rewrite E. symmetry. apply Q.max_r. exact Hpos.
  - cbn [Nat.iter]. rewrite (adjust_gap_comp _ _ 1 IH).
    rewrite adjust_gap_formula.
    assert (E : Qmax 0 (Qmax 0 (g - 0.2 * inject_Z (Z.of_nat n)) - 1 * 0.2)
                == Qmax 0 (g - 0.2 * inject_Z (Z.of_nat (S n)))).
    { rewrite Nat2Z.inj_succ. unfold Z.succ. rewrite inject_Z_plus.
      set (m := inject_Z (Z.of_nat n)).
      destruct (Q.max_spec 0 (g - 0.2 * m)) as [[H1 E1] | [H1 E1]];
        destruct (Q.max_spec 0 (g - 0.2 * (m + inject_Z 1)))
          as [[H2 E2] | [H2 E2]];
        destruct (Q.max_spec 0 (Qmax 0 (g - 0.2 * m) - 1 * 0.2))
          as [[H3 E3] | [H3 E3]];
        rewrite ?E3, ?E2; rewrite ?E1 in *;
        change (inject_Z 1) with 1 in *; try lra. }
    rewrite (round_to_2_comp _ _ E). apply round_to_2_grid.
    now apply on_grid_step.
Qed.

(** X16.  On a gap level the agent can hold (two decimals, not negative), a
    completion of 0 changes nothing, and [n] full completions in a row take
    it to [max(0, gap - 0.2 n)] exactly, with no rounding drift: a gap of at
    most 1 is cleared after five full completions and stays cleared. *)
Theorem full_completions_clear_gap g :
  storable g ->
  adjust_gap g 0 == g
  /\ (forall n, Nat.iter n (fun x => adjust_gap x 1) g
                == Qmax 0 (g - 0.2 * inject_Z (Z.of_nat n)))
  /\ (g <= 1 ->
      forall n, (5 <= n)%nat -> Nat.iter n (fun x => adjust_gap x 1) g == 0).
Proof.
  intros Hg. split; [| split].
  - rewrite adjust_gap_formula.
    assert (E : Qmax 0 (g - 0 * 0.2) == g).
    { assert (E0 : g - 0 * 0.2 == g) by ring. rewrite E0.
      apply Q.max_r. apply Hg. }
    rewrite (round_to_2_comp _ _ E). apply round_to_2_grid. apply Hg.
  - intros n. now apply full_completions_iter.
  - intros Hle n Hn. rewrite (full_completions_iter g n Hg).
    apply Q.max_l.
    assert (H5 : 5 <= inject_Z (Z.of_nat n)).
    { change 5 with (inject_Z 5). rewrite <- Zle_Qle. lia. }
    lra.
Qed.

Lemma full_completions_clear_gap_witness :
  storable 0.7
  /\ Nat.iter 2 (fun x => adjust_gap x 1) 0.7
     == Qmax 0 (0.7 - 0.2 * inject_Z (Z.of_nat 2)).
Proof.
  assert (H : storable 0.7) by (apply storable_test; reflexivity).
  split; [exact H |].
  exact (proj1 (proj2 (full_completions_clear_gap 0.7 H)) 2%nat).
Defined.

(** ** The outcomes of track_progress and track_skill_progress *)

Lemma find_exercise_cases student exercise_id records :
  match find_exercise (Student.id student) exercise_id records with
  | Ok None =>
      ~ Exists (progress_of (Student.id student)) records
      /\ ~ (exists key a skill,
              In (key, AssessmentRecord a) records
              /\ Assessment.student_id a = Student.id student
              /\ In skill (Assessment.skills a)
              /\ Str.startswith exercise_id ("exercise_" ++ Skill.id skill)
                 = true)
  | Ok (Some (skill, subject)) =>
      exists key a,
        In (key, AssessmentRecord a) records
        /\ Assessment.student_id a = Student.id student
        /\ In skill (Assessment.skills a)
        /\ Str.startswith exercise_id ("exercise_" ++ Skill.id skill) = true
  | Raise e =>
      e = KeyError "skills"
      /\ Exists (progress_of (Student.id student)) records
  end.
Proof.
  induction records as [| [key [a | p]] rest IH]; cbn [find_exercise].
  - split; [intros H; inversion H | intros (k & a & s & [] & _)].
  - assert (Hrest :
      (String.eqb (Assessment.student_id a) (Student.id student) = false
       \/ find (fun skill =>
                  Str.startswith exercise_id ("exercise_" ++ Skill.id skill))
               (Assessment.skills a) = None) ->
      match find_exercise (Student.id student) exercise_id rest with
      | Ok None =>
          ~ Exists (progress_of (Student.id student))
              ((key, AssessmentRecord a) :: rest)
          /\ ~ (exists key0 a0 skill,
                  In (key0, AssessmentRecord a0)
                     ((key, AssessmentRecord a) :: rest)
                  /\ Assessment.student_id a0 = Student.id student
                  /\ In skill (Assessment.skills a0)
                  /\ Str.startswith exercise_id
                       ("exercise_" ++ Skill.id skill) = true)
      | Ok (Some (skill, subject)) =>
          exists key0 a0,
            In (key0, AssessmentRecord a0) ((key, AssessmentRecord a) :: rest)
            /\ Assessment.student_id a0 = Student.id student
            /\ In skill (Assessment.skills a0)
            /\ Str.startswith exercise_id ("exercise_" ++ Skill.id skill)
               = true
      | Raise e =>
          e = KeyError "skills"
          /\ Exists (progress_of (Student.id student))
               ((key, AssessmentRecord a) :: rest)
      end).
    { intros Hhere.
      destruct (find_exercise (Student.id student) exercise_id rest)
        as [[[skill subject] |] | e].
      - destruct IH as (k & a0 & Hin & H). exists k, a0.
        split; [now right | exact H].
      - destruct IH as [Hpr Hno]. split.
        + intros H. inversion H as [? ? Hp | ? ? Hp]; subst;
            [exact Hp | now apply Hpr].
        + intros (k & a0 & skill & [Heq | Hin] & Hid & Hs & Hp).
          * injection Heq as <- <-.
            destruct Hhere as [Hne | Hnone].
            -- apply String.eqb_neq in Hne. now apply Hne.
            -- apply (find_none _ _ Hnone) in Hs. cbv beta in Hs.
               rewrite Hp in Hs. discriminate.
          * apply Hno. now exists k, a0, skill.
      - destruct IH as [-> Hex]. split; [reflexivity | now right]. }
    destruct (String.eqb (Assessment.student_id a) (Student.id student)) eqn:E;
      [| apply Hrest; now left].
    destruct (find _ (Assessment.skills a)) as [skill |] eqn:F;
      [| apply Hrest; now right].
    apply find_some in F. destruct F as [Hin Hp]. apply String.eqb_eq in E.
    exists key, a. repeat split; [now left | exact E | exact Hin | exact Hp].
  - destruct (String.eqb (SkillProgress.student_id p) (Student.id student))
      eqn:E.
    + split; [reflexivity |]. left. now apply String.eqb_eq in E.
    + apply String.eqb_neq in E.
      destruct (find_exercise (Student.id student) exercise_id rest)
        as [[[skill subject] |] | e].
      * destruct IH as (k & a0 & Hin & H). exists k, a0.
        split; [now right | exact H].
      * destruct IH as [Hpr Hno]. split.
        -- intros H. inversion H as [? ? Hp | ? ? Hp]; subst;
             [now apply E | now apply Hpr].
        -- intros (k & a0 & skill & [Heq | Hin] & H); [discriminate Heq |].
           apply Hno. now exists k, a0, skill.
      * destruct IH as [-> Hex]. split; [reflexivity | now right].
Qed.

(** X17.  In every state the agent can reach, [track_progress] changes
    neither the agent nor the student, and has exactly three outcomes: the
    payload [{"error": "Exercise not found"}], when the student has no
    skill-progress record and the exercise id resolves to none of the
    student's skills; [AttributeError] on [progress_records], and then the id
    resolves; [KeyError] on ["skills"], and then the student has a
    skill-progress record in the store. *)
Theorem track_progress_outcomes
        (re_search : string -> string -> bool)
        (random_choice : list string -> string)
        (format_template : string -> string -> string -> string)
        (str_of_history : subject_history -> string)
        ag now student exercise_id c fb :
  Reachable re_search random_choice format_template str_of_history ag ->
  let out := track_progress ag now student exercise_id c fb in
  let has_progress_record :=
    Exists (progress_of (Student.id student)) (skill_records ag) in
  fst out = (ag, student)
  /\ (snd out = Ok (ErrorPayload "Exercise not found")
      \/ snd out = Raise (AttributeError "progress_records")
      \/ snd out = Raise (KeyError "skills"))
  /\ (snd out = Ok (ErrorPayload "Exercise not found")
      <-> ~ has_progress_record /\ ~ resolves ag student exercise_id)
  /\ (snd out = Raise (AttributeError "progress_records")
      -> resolves ag student exercise_id)
  /\ (snd out = Raise (KeyError "skills") -> has_progress_record).
Proof.
  intros Hreach out has_progress_record. subst out has_progress_record.
  pose proof (reachable_progress_records _ _ _ _ ag Hreach) as Hnone.
  pose proof (find_exercise_cases student exercise_id (skill_records ag)) as H.
  unfold track_progress. rewrite Hnone.
  destruct (find_exercise (Student.id student) exercise_id (skill_records ag))
    as [[[skill subject] |] | e]; cbn [fst snd].
  - split; [reflexivity |]. split; [right; now left |].
    split; [split; [discriminate |] |].
    + intros [_ Hno]. exfalso. apply Hno. unfold resolves.
      destruct H as (k & a & H). now exists k, a, skill.
    + split; [| discriminate]. intros _. unfold resolves.
      destruct H as (k & a & H). now exists k, a, skill.
  - split; [reflexivity |]. split; [now left |].
    split; [split; [intros _; exact H | reflexivity] |].
    split; discriminate.
  - destruct H as [-> Hex].
    split; [reflexivity |]. split; [right; now right |].
    split; [split; [discriminate | intros [Hno _]; now destruct (Hno Hex)] |].
    split; [discriminate | intros _; exact Hex].
Qed.

Lemma track_progress_outcomes_witness :
  Reachable no_match first_choice keep_template blank_history one_assessment
  /\ snd (track_progress one_assessment later beginner "exercise_nothing"
                         1 None)
     = Ok (ErrorPayload "Exercise not found").
Proof.
  assert (H : Reachable no_match first_choice keep_template blank_history
                        one_assessment).
  { apply (reach_call no_match first_choice keep_template blank_history
             fresh (IdentifySkills noon beginner "math" None)).
    apply reach_init. }
  split; [exact H |].
  destruct (track_progress_outcomes no_match first_choice keep_template
              blank_history one_assessment later beginner "exercise_nothing"
              1 None H) as (_ & [E | [E | E]] & _);
    [exact E | vm_compute in E; discriminate E ..].
Defined.

Lemma update_gap_scan_keeps_progress student_id subject skill_id c key p records :
  dict_get key records = Some (SkillProgressRecord p) ->
  dict_get key (fst (update_gap_scan student_id subject skill_id c records))
  = Some (SkillProgressRecord p).
Proof.
  induction records as [| [k [a | q]] rest IH]; cbn [update_gap_scan dict_get];
    intros H.
  - discriminate H.
  - destruct (update_gap_scan student_id subject skill_id c rest) as [rest' r].
    cbn [fst dict_get] in *.
    destruct (String.eqb k key); [discriminate H | now apply IH].
  - destruct (String.eqb (SkillProgress.student_id q) student_id).
    + cbn [fst dict_get]. exact H.
    + destruct (update_gap_scan student_id subject skill_id c rest)
        as [rest' r].
      cbn [fst dict_get] in *.
      destruct (String.eqb k key); [exact H | now apply IH].
Qed.

Lemma update_gap_scan_keys student_id subject skill_id c records :
  map fst (fst (update_gap_scan student_id subject skill_id c records))
  = map fst records.
Proof.
  apply same_but_gaps_keys.
  generalize (update_gap_scan_records student_id subject skill_id c records).
  apply Forall2_impl. intros r' r [-> | ->];
    [apply same_but_gaps_refl | apply adjust_record_same].
Qed.

(** X18.  Although [track_skill_progress] always ends in an exception, it
    has by then filed its record: afterwards the store holds, under
    [skill_progress_<student>_<skill>_<stamp>], a skill-progress record of
    that student and skill with the number of results, their ids, their
    average score (0 for no results, a missing score counting as 0) and the
    progress level [min(1.0, average / 100)], which is at most 1.  The
    store has the keys it had, followed by this one if it is new, and the
    progress records are left alone. *)
Theorem track_skill_progress_files_record ag now student skill_id results :
  let ag' := fst (track_skill_progress ag now student skill_id results) in
  let record_id :=
    "skill_progress_" ++ Student.id student ++ "_" ++ skill_id
      ++ "_" ++ stamp now in
  let scores :=
    map (fun r => match ExerciseResult.score r with Some s => s | None => 0 end)
        results in
  exists p,
    dict_get record_id (skill_records ag') = Some (SkillProgressRecord p)
    /\ SkillProgress.student_id p = Student.id student
    /\ SkillProgress.skill_id p = skill_id
    /\ SkillProgress.timestamp p = isoformat now
    /\ SkillProgress.exercise_count p = List.length results
    /\ SkillProgress.completed_exercises p = map ExerciseResult.id results
    /\ SkillProgress.average_score p
       = match scores with [] => 0 | _ => Num.mean scores end
    /\ SkillProgress.progress_level p
       == Qmin 1 (SkillProgress.average_score p / 100)
    /\ SkillProgress.progress_level p <= 1
    /\ map fst (skill_records ag')
       = (if dict_mem record_id (skill_records ag)
          then map fst (skill_records ag)
          else map fst (skill_records ag) ++ [record_id])%list
    /\ progress_records ag' = progress_records ag.
Proof.
  intros ag' record_id scores.
  set (avg := match scores with [] => 0 | _ => Num.mean scores end).
  set (p := SkillProgress.mk (Student.id student) skill_id (isoformat now)
              (List.length results) avg
              (Num.py_min 1.0 (Num.div avg 100))
              (map ExerciseResult.id results)).
  set (ag1 := set_skill_records ag
                (dict_set record_id (SkillProgressRecord p) (skill_records ag))).
  assert (Hlevel : SkillProgress.progress_level p == Qmin 1 (avg / 100)).
  { cbn [SkillProgress.progress_level p].
    rewrite NumFacts.py_min_eq_Qmin, NumFacts.div_correct.
    assert (E : 1.0 == 1) by reflexivity. now rewrite E. }
  assert (Hkeys1 : map fst (skill_records ag1)
                   = (if dict_mem record_id (skill_records ag)
                      then map fst (skill_records ag)
                      else map fst (skill_records ag) ++ [record_id])%list).
  { cbn [ag1 skill_records set_skill_records]. unfold dict_mem.
    generalize (skill_records ag) as d. clear.
    induction d as [| [k v] d IH]; cbn [dict_set dict_get map fst app];
      [reflexivity |].
    destruct (String.eqb k record_id); cbn [map fst]; [reflexivity |].
    rewrite IH. now destruct (dict_get record_id d). }
  assert (Hstate :
            ag' = ag1
            \/ exists s fb,
                 ag' = fst (_update_skill_gap
                              (_update_learning_history ag1 now student s
                                 skill_id (SkillProgress.progress_level p) fb)
                              student s skill_id
                              (SkillProgress.progress_level p))).
  { subst ag'. unfold track_skill_progress.
    fold scores. fold avg. fold record_id. fold p. fold ag1.
    destruct (find_subject (Student.id student) skill_id (skill_records ag1)
                None) as [[s |] | e]; cbn [fst]; try now left.
    destruct (truthy s); cbn [fst]; [| now left].
    right.
    exists s, (Some ("Completed " ++ Str.of_nat (List.length results)
                       ++ " exercises with average score "
                       ++ Str.format_1f avg ++ "%")).
    cbn [SkillProgress.progress_level p].
    match goal with
    | |- context [_update_skill_gap ?a ?st ?sub ?sk ?qq] =>
        destruct (_update_skill_gap a st sub sk qq) as [ag3 r]
    end.
    now destruct r. }
  exists p.
  assert (Hfacts :
            dict_get record_id (skill_records ag')
            = Some (SkillProgressRecord p)
            /\ map fst (skill_records ag') = map fst (skill_records ag1)
            /\ progress_records ag' = progress_records ag).
  { destruct Hstate as [-> | (s & fb & ->)].
    - repeat split. cbn [ag1 skill_records set_skill_records].
      apply dict_get_set_same.
    - match goal with
      | |- context [_update_skill_gap ?a ?st ?sub ?sk ?qq] =>
          pose proof (update_skill_gap_fields a st sub sk qq) as [Hf _];
          pose proof (update_gap_scan_keys (Student.id st) sub sk qq
                        (skill_records a)) as Hk
      end.
      rewrite Hf. cbn [skill_records set_skill_records progress_records].
      destruct (update_learning_history_records ag1 now student s skill_id
                  (SkillProgress.progress_level p) fb) as [Hrec Hpr].
      rewrite Hrec in *. rewrite Hpr.
      repeat split; [| exact Hk].
      apply update_gap_scan_keeps_progress.
      cbn [ag1 skill_records set_skill_records]. apply dict_get_set_same. }
  destruct Hfacts as (Hget & Hkeys & Hprog).
  repeat split; try assumption.
  - rewrite Hlevel. apply Q.le_min_l.
  - now rewrite Hkeys.
Qed.

(** ** Loading the taxonomies *)

Lemma find_snoc {A : Type} (p : A -> bool) (l : list A) (x : A) :
  find p (l ++ [x])%list
  = match find p l with
    | Some y => Some y
    | None => if p x then Some x else None
    end.
Proof.
  induction l as [| a l IH]; simpl; [reflexivity |].
  now destruct (p a).
Qed.

Lemma load_taxonomy_file_lookup subject taxonomies file :
  dict_get subject (load_taxonomy_file taxonomies file)
  = if provides subject file then snd file else dict_get subject taxonomies.
Proof.
  destruct file as [filename [loaded |]]; unfold load_taxonomy_file, provides;
    cbn [fst snd]; destruct (Text.endswith filename ".json"); cbn [andb];
    try reflexivity.
  - destruct (String.eqb (Text.before_first "_taxonomy.json" filename) subject)
      eqn:E; cbn [andb].
    + apply String.eqb_eq in E. rewrite E. apply dict_get_set_same.
    + apply String.eqb_neq in E. apply dict_get_set_other.
      intros H. apply E. now symmetry.
  - now rewrite andb_false_r.
Qed.

Lemma load_skill_taxonomies_get files start subject :
  dict_get subject (_load_skill_taxonomies files start)
  = match find (provides subject) (rev files) with
    | Some file => snd file
    | None => dict_get subject start
    end.
Proof.
  unfold _load_skill_taxonomies. revert start.
  induction files as [| file files IH]; intros start; [reflexivity |].
  cbn [fold_left rev]. rewrite IH, find_snoc. clear IH.
  destruct (find (provides subject) (rev files)); [reflexivity |].
  rewrite load_taxonomy_file_lookup. now destruct (provides subject file).
Qed.

(** X19.  After [_load_skill_taxonomies] has gone through a directory, the
    taxonomy of a subject is the document of the last listed file that ends
    in [.json], could be read and parsed, and whose name up to
    [_taxonomy.json] is the subject; with no such file it is what the dict
    held before.  Files that do not end in [.json] or cannot be read leave
    the dict as it was. *)
Theorem load_skill_taxonomies_lookup files start :
  (forall subject,
      dict_get subject (_load_skill_taxonomies files start)
      = match find (provides subject) (rev files) with
        | Some file => snd file
        | None => dict_get subject start
        end)
  /\ (Forall (fun file => Text.endswith (fst file) ".json" = false
                          \/ snd file = None) files ->
      _load_skill_taxonomies files start = start).
Proof.
  split; [intros subject; apply load_skill_taxonomies_get |].
  unfold _load_skill_taxonomies. revert start.
  induction files as [| [filename document] files IH]; intros start H;
    [reflexivity |].
  inversion H as [| ? ? Hfile Hrest]; subst. cbn [fold_left].
  assert (E : load_taxonomy_file start (filename, document) = start).
  { unfold load_taxonomy_file. cbn [fst snd] in Hfile.
    destruct Hfile as [-> | ->]; [reflexivity |].
    now destruct (Text.endswith filename ".json"). }
  rewrite E. now apply IH.
Qed.

Lemma endswith_app s t suffix :
  Text.endswith t suffix = true -> Text.endswith (s ++ t) suffix = true.
Proof.
  intros H. induction s as [| c s IH]; [exact H |].
  cbn [append Text.endswith]. rewrite IH. apply orb_true_r.
Qed.

Lemma before_first_written subject :
  Text.has_char "_" subject = false ->
  Text.before_first "_taxonomy.json" (taxonomy_filename subject) = subject.
Proof.
  unfold taxonomy_filename. induction subject as [| c s IH]; intros H.
  - reflexivity.
  - cbn [Text.has_char] in H. apply orb_false_iff in H. destruct H as [Hc Hs].
    cbn [append Text.before_first String.prefix].
    destruct (ascii_dec "_" c) as [E | _].
    + subst c. discriminate Hc.
    + now rewrite IH.
Qed.

Lemma provides_written subject k (t : taxonomy) :
  Text.has_char "_" k = false ->
  provides subject (taxonomy_filename k, Some t) = String.eqb k subject.
Proof.
  intros H. unfold provides. cbn [fst snd].
  rewrite before_first_written by exact H.
  unfold taxonomy_filename. rewrite endswith_app by reflexivity.
  now rewrite andb_true_r.
Qed.

Lemma dict_get_unique {V : Type} (k : string) (v : V) d :
  NoDup (map fst d) -> In (k, v) d -> dict_get k d = Some v.
Proof.
  induction d as [| [k' v'] d IH]; intros Hnd Hin; [destruct Hin |].
  inversion Hnd as [| ? ? Hfresh Hrest]; subst. cbn [dict_get].
  destruct Hin as [[= -> ->] | Hin].
  - now rewrite String.eqb_refl.
  - destruct (String.eqb k' k) eqn:E; [| now apply IH].
    apply String.eqb_eq in E. subst k'. exfalso. apply Hfresh.
    change k with (fst (k, v)). now apply in_map.
Qed.

(** X20.  Writing and loading round-trip on the file names: when the
    subjects of a dict of taxonomies are distinct and none contains an
    underscore, loading, from the empty dict, the files
    [<subject>_taxonomy.json] written for it (as
    [_create_default_taxonomies] names them, listed in any order, each
    reading back as the document written) gives every subject the taxonomy
    it had, and no other subject a taxonomy. *)
Theorem written_taxonomies_load_back
        (taxonomies : list (string * taxonomy)) (files : list taxonomy_file) :
  NoDup (map fst taxonomies) ->
  Forall (fun entry => Text.has_char "_" (fst entry) = false) taxonomies ->
  Permutation files
    (map (fun entry => (taxonomy_filename (fst entry), Some (snd entry)))
         taxonomies) ->
  forall subject,
    dict_get subject (_load_skill_taxonomies files [])
    = dict_get subject taxonomies.
Proof.
  intros Hnd Hclean Hperm subject.
  rewrite load_skill_taxonomies_get. cbn [dict_get].
  assert (Hfile :
            forall file, In file (rev files) ->
                         provides subject file = true ->
                         exists t, snd file = Some t /\ In (subject, t) taxonomies).
  { intros file Hin Hp. apply in_rev in Hin.
    apply (Permutation_in _ Hperm) in Hin. apply in_map_iff in Hin.
    destruct Hin as ([k t] & <- & Hin). cbn [fst snd] in *.
    rewrite Forall_forall in Hclean.
    rewrite (provides_written subject k t (Hclean _ Hin)) in Hp.
    apply String.eqb_eq in Hp. subst k. now exists t. }
  destruct (find (provides subject) (rev files)) as [file |] eqn:F.
  - apply find_some in F. destruct F as [Hin Hp].
    destruct (Hfile file Hin Hp) as (t & -> & Ht).
    symmetry. now apply dict_get_unique.
  - destruct (dict_get subject taxonomies) as [t |] eqn:G; [| reflexivity].
    exfalso. apply dict_get_In in G.
    assert (Hin : In (taxonomy_filename subject, Some t) (rev files)).
    { apply in_rev. rewrite rev_involutive.
      apply (Permutation_in _ (Permutation_sym Hperm)).
      apply in_map_iff. now exists (subject, t). }
    pose proof (find_none _ _ F _ Hin) as Hp.
    rewrite Forall_forall in Hclean.
    rewrite (provides_written subject subject t (Hclean _ G)) in Hp.
    now rewrite String.eqb_refl in Hp.
Qed.

Lemma written_taxonomies_load_back_witness :
  dict_get "math"
    (_load_skill_taxonomies
       [ (taxonomy_filename "science", Some science_taxonomy);
         (taxonomy_filename "math", Some math_taxonomy);
         (taxonomy_filename "language", Some language_taxonomy) ] [])
  = dict_get "math" default_taxonomies.
Proof.
  apply (written_taxonomies_load_back default_taxonomies).
  - repeat constructor; simpl; intuition discriminate.
  - repeat constructor.
  - apply Permutation_sym. simpl.
    apply perm_trans with
      [ (taxonomy_filename "math", Some math_taxonomy);
        (taxonomy_filename "science", Some science_taxonomy);
        (taxonomy_filename "language", Some language_taxonomy) ].
    + apply perm_skip. apply perm_swap.
    + apply perm_swap.
Defined.

(** ** The chat front end *)

Lemma split_char_at tag rest :
  Text.has_char "_" tag = false ->
  Text.split_char "_" (tag ++ String "_" rest)
  = tag :: Text.split_char "_" rest.
Proof.
  induction tag as [| c t IH]; intros H.
  - reflexivity.
  - cbn [Text.has_char] in H. apply orb_false_iff in H. destruct H as [Hc Ht].
    cbn [append Text.split_char]. rewrite Hc, (IH Ht). reflexivity.
Qed.

Lemma split_char_head s :
  exists pieces,
    Text.split_char "_" s = Text.up_to_char "_" s :: pieces.
Proof.
  induction s as [| c s [pieces IH]]; cbn [Text.split_char Text.up_to_char].
  - now exists [].
  - destruct (Ascii.eqb c "_"); [now eexists |].
    rewrite IH. now eexists.
Qed.

(** X21.  The chat handlers read the subject back from a button value
    [<tag>_<subject>] with [split("_")[1]]: for a tag without underscore
    they get the subject up to its first underscore, which is the subject
    itself exactly when it contains none; a subject such as
    [computer_science] reaches the agent cut to [computer]. *)
Theorem subject_of_message_reads_back tag subject :
  Text.has_char "_" tag = false ->
  subject_of_message (tag ++ "_" ++ subject)
  = Some (Text.up_to_char "_" subject)
  /\ (Text.up_to_char "_" subject = subject
      <-> Text.has_char "_" subject = false).
Proof.
  intros Htag. split.
  - unfold subject_of_message.
    change (tag ++ "_" ++ subject) with (tag ++ String "_" subject).
    rewrite (split_char_at tag subject Htag). cbn [nth_error].
    destruct (split_char_head subject) as [pieces ->]. reflexivity.
  - induction subject as [| c s IH]; cbn [Text.up_to_char Text.has_char].
    + split; reflexivity.
    + destruct (Ascii.eqb c "_"); cbn [orb].
      * split; discriminate.
      * rewrite <- IH. split; [now intros [= ->] | now intros ->].
Qed.

Lemma subject_of_message_reads_back_witness :
  subject_of_message ("skills" ++ "_" ++ "computer_science") = Some "computer".
Proof.
  exact (proj1 (subject_of_message_reads_back "skills" "computer_science"
                  eq_refl)).
Defined.

(** ** Grouping by category *)

Lemma dict_mem_keys {V : Type} (k : string) (d : list (string * V)) :
  dict_mem k d = false -> ~ In k (map fst d).
Proof.
  unfold dict_mem. induction d as [| [k' v'] d IH]; cbn [dict_get map fst];
    intros H; [intros [] |].
  destruct (String.eqb k' k) eqn:E; [discriminate H |].
  apply String.eqb_neq in E. intros [Hk | Hin]; [now apply E |].
  now apply IH.
Qed.

Lemma dict_set_NoDup {V : Type} (k : string) (v : V) d :
  NoDup (map fst d) -> NoDup (map fst (dict_set k v d)).
Proof.
  intros H. rewrite dict_set_keys. destruct (dict_mem k d) eqn:E; [exact H |].
  apply NoDup_app; [exact H | repeat constructor; intros [] |].
  intros x Hx [<- | []]. now apply (dict_mem_keys _ _ E).
Qed.

Lemma group_skill_lookup groups skill c :
  dict_get_default c [] (group_skill groups skill)
  = (dict_get_default c [] groups
       ++ if String.eqb (shown_category skill) c then [skill] else [])%list.
Proof.
  unfold group_skill. fold (shown_category skill).
  set (k := shown_category skill).
  set (groups1 := if dict_mem k groups then groups else dict_set k [] groups).
  assert (H1 : forall c', dict_get_default c' [] groups1
                          = dict_get_default c' [] groups).
  { intros c'. subst groups1. destruct (dict_mem k groups) eqn:E;
      [reflexivity | now apply dict_get_default_unset]. }
  destruct (String.eqb k c) eqn:E.
  - apply String.eqb_eq in E. subst c.
    rewrite dict_get_default_set_same. now rewrite H1.
  - apply String.eqb_neq in E. unfold dict_get_default at 1.
    rewrite dict_get_set_other by (intros H; apply E; now symmetry).
    fold (dict_get_default c [] groups1). rewrite H1. now rewrite app_nil_r.
Qed.

Lemma group_skill_mem groups skill c :
  dict_mem c (group_skill groups skill)
  = dict_mem c groups || String.eqb (shown_category skill) c.
Proof.
  unfold group_skill. fold (shown_category skill).
  set (k := shown_category skill).
  set (groups1 := if dict_mem k groups then groups else dict_set k [] groups).
  destruct (String.eqb k c) eqn:E.
  - apply String.eqb_eq in E. subst c. rewrite dict_mem_set. now rewrite orb_true_r.
  - apply String.eqb_neq in E. unfold dict_mem at 1.
    rewrite dict_get_set_other by (intros H; apply E; now symmetry).
    rewrite orb_false_r. subst groups1.
    destruct (dict_mem k groups) eqn:M; [reflexivity |].
    rewrite dict_get_set_other by (intros H; apply E; now symmetry).
    reflexivity.
Qed.

Lemma group_skill_NoDup groups skill :
  NoDup (map fst groups) -> NoDup (map fst (group_skill groups skill)).
Proof.
  intros H. unfold group_skill. apply dict_set_NoDup.
  destruct (dict_mem _ groups); [exact H | now apply dict_set_NoDup].
Qed.

Lemma grouping_from groups skills c :
  dict_get_default c [] (fold_left group_skill skills groups)
  = (dict_get_default c [] groups
       ++ filter (fun skill => String.eqb (shown_category skill) c) skills)%list
  /\ dict_mem c (fold_left group_skill skills groups)
     = dict_mem c groups
       || existsb (fun skill => String.eqb (shown_category skill) c) skills
  /\ (NoDup (map fst groups) ->
      NoDup (map fst (fold_left group_skill skills groups))).
Proof.
  revert groups. induction skills as [| skill skills IH]; intros groups.
  - cbn [fold_left filter existsb]. now rewrite app_nil_r, orb_false_r.
  - cbn [fold_left filter existsb].
    destruct (IH (group_skill groups skill)) as (Hget & Hmem & Hnd).
    rewrite Hget, Hmem, group_skill_lookup, group_skill_mem.
    repeat split.
    + rewrite <- app_assoc.
      now destruct (String.eqb (shown_category skill) c).
    + now rewrite orb_assoc.
    + intros H. apply Hnd. now apply group_skill_NoDup.
Qed.

(** X22.  The grouping loop of the skill analysis screen files every skill
    once, under its category or under [General] when it has none: the group
    of a category is the list of the skills of that category in the order
    they were identified, a category has a group exactly when some skill has
    it, and no category is listed twice. *)
Theorem skills_by_category_groups skills :
  (forall c,
      dict_get_default c [] (skills_by_category skills)
      = filter (fun skill => String.eqb (shown_category skill) c) skills)
  /\ (forall c,
         dict_mem c (skills_by_category skills)
         = existsb (fun skill => String.eqb (shown_category skill) c) skills)
  /\ NoDup (map fst (skills_by_category skills)).
Proof.
  unfold skills_by_category.
  repeat split; intros;
    try destruct (grouping_from [] skills c) as (Hget & Hmem & _).
  - exact Hget.
  - exact Hmem.
  - destruct (grouping_from [] skills "") as (_ & _ & Hnd).
    apply Hnd. constructor.
Qed.
